(** * Shopify inventory report: timeline reconstruction, metrics and merge

    A shallow embedding of the report engine of the repository:

    - [api/sell-through.js]: [normaliseSku], [parseCsv], [fetchSheetBySku],
      [fetchSalesBySku] and [mergeSalesAndSheet];
    - [api/inventory-report.js]: [fetchAllVariants],
      [fetchInventoryDailyForItem], [computeMetrics] and the handler;
    - the two REST variants of the report with forward accumulation
      ([reconstructDailyLevels], once per file);
    - the REST variant with backward reconstruction ([fetchVariants],
      [enumerateDays], [reconstructDailyInventory], [calculateMetrics]).

    JavaScript strings are sequences of UTF-16 code units, modelled as
    [list N].  Calendar days are modelled by their day number (a [Z]); the
    text [YYYY-MM-DD] the code uses as an object key is an injective
    rendering of that number, and the process is taken to run in UTC, where
    [setDate(getDate() + 1)] moves a date by exactly one day.  Quantities
    are integers ([Z]); the numbers read from the sheet are [NaN], an
    infinity or a finite number, which is kept as a rational (module
    [JsNumber]).

    Objects used as dictionaries are [gmap]s, except where the code
    iterates over [Object.keys], where insertion order is kept in an
    association list.  The dictionaries of the sell-through report are read
    with SKUs taken from the orders and the sheet; these reads find the
    members inherited from [Object.prototype], and the merge writes its
    result past the setter of [__proto__] (module [Proto]).  The other
    dictionaries are read with ids, dates and keys made of a date and a
    SKU; inherited members are outside the model there, and so is, in the
    map read from the sheet and in the other reports, an assignment under
    the key [__proto__], which replaces the prototype in place of adding a
    property.

    The [await]ed requests of the fetch loops are calls of a function that
    stands for the upstream; for the REST API the response is modelled
    with its headers beside its body (module [Paging]). *)

From Stdlib Require Import ZArith NArith QArith Qabs Lia Lqa List String Ascii Bool.
From stdpp Require Import base option list gmap fin_maps.

Import ListNotations.
Local Open Scope N_scope.

(** ** JavaScript strings *)

Module JsString.

(** A string value: its code units, in order. *)
Definition t := list N.

(** The code units of an ASCII literal. *)
Definition str (s : string) : t := map N_of_ascii (list_ascii_of_string s).

Definition hyphen : N := 45.
Definition hash : N := 35.
Definition dquote : N := 34.
Definition comma : N := 44.
Definition percent : N := 37.
Definition LF : N := 10.
Definition CR : N := 13.

(** ECMAScript [WhiteSpace] and [LineTerminator] code units: the class
    [\s] of a regular expression and the characters removed by
    [String.prototype.trim]. *)
Definition is_space (c : N) : bool :=
  (c =? 9) || (c =? 10) || (c =? 11) || (c =? 12) || (c =? 13) || (c =? 32)
  || (c =? 160) || (c =? 5760) || ((8192 <=? c) && (c <=? 8202))
  || (c =? 8232) || (c =? 8233) || (c =? 8239) || (c =? 8287)
  || (c =? 12288) || (c =? 65279).

Fixpoint trimStart (s : t) : t :=
  match s with
  | [] => []
  | c :: s' => if is_space c then trimStart s' else s
  end.

(** Removes the trailing run of white space. *)
Fixpoint trimEnd (s : t) : t :=
  match s with
  | [] => []
  | c :: s' =>
      match trimEnd s' with
      | [] => if is_space c then [] else [c]
      | r => c :: r
      end
  end.

(** The string does not begin with white space. *)
Definition noLeadingSpace (s : t) : Prop :=
  match s with
  | [] => True
  | c :: _ => is_space c = false
  end.

(** [String.prototype.trim]. *)
Definition trim (s : t) : t := trimEnd (trimStart s).

(** JavaScript truthiness of a string: only the empty string is falsy. *)
Definition truthy (s : t) : bool :=
  match s with [] => false | _ => true end.

End JsString.

Abbreviation jsstring := JsString.t.
Abbreviation str := JsString.str.

(** ** SKU normaliser ([api/sell-through.js]) *)

Module Sku.
Import JsString.

(** The regular expression [/\s*-#+\s*$/] matched at the start of [s]
    and running to the end of the input: white space, one hyphen, one or
    more [#], white space, end.  The three character classes are pairwise
    disjoint, so the greedy match is the only one. *)

(** After the first [#]: more [#], then only white space. *)
Fixpoint after_hash (s : t) : bool :=
  match s with
  | [] => true
  | c :: s' => if c =? hash then after_hash s' else forallb is_space s
  end.

(** After the hyphen: at least one [#]. *)
Definition after_hyphen (s : t) : bool :=
  match s with
  | c :: s' => (c =? hash) && after_hash s'
  | [] => false
  end.

Fixpoint suffix_matches (s : t) : bool :=
  match s with
  | [] => false
  | c :: s' =>
      if is_space c then suffix_matches s'
      else (c =? hyphen) && after_hyphen s'
  end.

(** [s.replace(/\s*-#+\s*$/, "")]: the leftmost position at which the
    pattern matches is cut off; without a match the string is unchanged. *)
Fixpoint strip_suffix (s : t) : t :=
  if suffix_matches s then []
  else match s with
       | [] => []
       | c :: s' => c :: strip_suffix s'
       end.

(** [normaliseSku(sku)].  [None] is [null] (or an absent value); the
    guard [!sku] also rejects the empty string. *)
Definition normaliseSku (sku : option t) : option t :=
  match sku with
  | None => None
  | Some s => if truthy s then Some (strip_suffix (trim s)) else None
  end.

(** Some position of the string starts a match of the pattern. *)
Fixpoint anyMatch (s : t) : bool :=
  suffix_matches s ||
  match s with
  | [] => false
  | _ :: s' => anyMatch s'
  end.

(** The shape the normaliser leaves unstripped on a second pass: the
    string ends with a hyphen followed by one or more [#]. *)
Fixpoint endsHyphenHashes (s : t) : bool :=
  match s with
  | [] => false
  | c :: s' =>
      ((c =? hyphen) && JsString.truthy s' && forallb (fun h => h =? hash) s')
      || endsHyphenHashes s'
  end.

End Sku.


(** ** Minimal CSV parser ([api/sell-through.js]) *)

Module Csv.
Import JsString.

(** The loop variables of [parseCsv]. *)
Record state := State {
  rows : list (list t);
  row : list t;
  field : t;
  inQuotes : bool
}.

Definition init : state :=
  {| rows := []; row := []; field := []; inQuotes := false |}.

(** [if (field !== "" || row.length > 0) { row.push(field); rows.push(row);
    row = []; field = "" }], the flush done at a line end.  The flush after
    the loop does not clear [row] and [field], which are dead by then. *)
Definition flush (st : state) : state :=
  if truthy (field st) || negb (length (row st) =? 0)%nat
  then {| rows := rows st ++ [row st ++ [field st]];
          row := []; field := []; inQuotes := inQuotes st |}
  else st.

(** One iteration of the loop on the character [c] with look-ahead [next]
    ([None] past the end of the text).  The boolean tells whether the
    iteration also consumes the look-ahead (the [i++] in the body). *)
Definition step (c : N) (next : option N) (st : state) : state * bool :=
  if (c =? dquote) && inQuotes st && bool_decide (next = Some dquote) then
    ({| rows := rows st; row := row st;
        field := field st ++ [dquote]; inQuotes := inQuotes st |}, true)
  else if c =? dquote then
    ({| rows := rows st; row := row st;
        field := field st; inQuotes := negb (inQuotes st) |}, false)
  else if (c =? comma) && negb (inQuotes st) then
    ({| rows := rows st; row := row st ++ [field st];
        field := []; inQuotes := inQuotes st |}, false)
  else if ((c =? LF) || (c =? CR)) && negb (inQuotes st) then
    (flush st, (c =? CR) && bool_decide (next = Some LF))
  else
    ({| rows := rows st; row := row st;
        field := field st ++ [c]; inQuotes := inQuotes st |}, false).

(** The [for] loop over the text. *)
Fixpoint scan (text : t) (st : state) : state :=
  match text with
  | [] => st
  | c :: rest =>
      let '(st', skip) := step c (head rest) st in
      if skip then
        match rest with
        | [] => st'
        | _ :: rest' => scan rest' st'
        end
      else scan rest st'
  end.

(** [parseCsv(text)]: the rows, each a list of fields.  The final flush
    leaves the loop variables behind, so only [rows] is read. *)
Definition parseCsv (text : t) : list (list t) :=
  rows (flush (scan text init)).

(** A field written in quotes: every quote of the field doubled, the whole
    between two quotes. *)
Definition quoted (f : t) : t :=
  dquote :: flat_map (fun c => if c =? dquote then [dquote; dquote] else [c]) f
  ++ [dquote].

End Csv.

(** ** JavaScript numbers *)

Module JsNumber.
Import JsString.

(** A number value: [NaN], an infinity, or a finite double.  A finite
    double is modelled by a rational.  Every result of a conversion or of an
    operation is classified as the double it rounds to is: as an infinity
    from [overflowAt] on, as zero up to [underflowAt], and as finite and
    not zero in between, where the model keeps the exact rational instead
    of the nearest double.  The sign of zero is outside the model. *)
Inductive number :=
| NaN
| Inf (negative : bool)
| Num (q : Q).

(** A value that may be [null]. *)
Definition nullable (A : Type) := option A.

Definition zero : number := Num 0.

(** The least magnitude that rounds to an infinity, [2^1024 - 2^970]:
    halfway between the largest double and [2^1024]. *)
Definition overflowZ : Z := Eval vm_compute in (2 ^ 1024 - 2 ^ 970)%Z.
Definition overflowAt : Q := inject_Z overflowZ.

(** The greatest magnitude that rounds to zero, [2^-1075]: half of the
    least positive double. *)
Definition underflowP : positive := Eval vm_compute in (2 ^ 1075)%positive.
Definition underflowAt : Q := 1 # underflowP.

(** [q < 0]. *)
Definition negativeQ (q : Q) : bool := negb (Qle_bool 0 q).

(** The number value of a real number. *)
Definition fromQ (q : Q) : number :=
  if Qle_bool overflowAt (Qabs q) then Inf (negativeQ q)
  else if Qle_bool (Qabs q) underflowAt then Num 0
  else Num q.

(** Truthiness: [NaN] and zero are falsy. *)
Definition truthy (x : number) : bool :=
  match x with
  | NaN => false
  | Inf _ => true
  | Num q => negb (Qeq_bool q 0)
  end.

(** [x > 0]; a comparison with [NaN] is false. *)
Definition gt0 (x : number) : bool :=
  match x with
  | NaN => false
  | Inf negative => negb negative
  | Num q => negb (Qle_bool q 0)
  end.

(** [x + y]. *)
Definition add (x y : number) : number :=
  match x, y with
  | NaN, _ | _, NaN => NaN
  | Inf s, Inf s' => if Bool.eqb s s' then Inf s else NaN
  | Inf s, Num _ | Num _, Inf s => Inf s
  | Num a, Num b => fromQ (a + b)
  end.

(** [x || 0] on numbers. *)
Definition orZero (x : number) : number := if truthy x then x else zero.

(** [x || null] on numbers. *)
Definition orNull (x : number) : nullable number :=
  if truthy x then Some x else None.

(** [x / y].  A division whose divisor is zero yields an infinity or [NaN]
    in JavaScript, according to the signs of both operands, the one of the
    zero included; the model has no signed zero and returns [None] for it,
    so that "no division by zero occurs" is "the result is [Some]". *)
Definition div (x y : number) : option number :=
  match y with
  | NaN => Some NaN
  | Inf _ =>
      match x with
      | Num _ => Some (Num 0)
      | _ => Some NaN
      end
  | Num b =>
      if Qeq_bool b 0 then None
      else match x with
           | NaN => Some NaN
           | Inf s => Some (Inf (xorb s (negativeQ b)))
           | Num a => Some (fromQ (a / b))
           end
  end.

(** *** [Number(string)]

    [StringToNumber]: white space is trimmed; the empty string is zero; a
    decimal literal (sign, digits, fraction, exponent), the literal
    [Infinity] with an optional sign, or an unsigned binary, octal or
    hexadecimal integer literal is its value; anything else is [NaN]. *)

Definition digit_value (base : N) (c : N) : option N :=
  let v :=
    if (48 <=? c) && (c <=? 57) then Some (c - 48)
    else if (97 <=? c) && (c <=? 102) then Some (c - 87)
    else if (65 <=? c) && (c <=? 70) then Some (c - 55)
    else None in
  match v with
  | Some d => if d <? base then Some d else None
  | None => None
  end.

(** Reads the longest run of digits in [base] at the start of [s]:
    the accumulated value, the number of digits read, and the rest. *)
Fixpoint read_digits (base : N) (s : t) (acc : N) (n : nat) : N * nat * t :=
  match s with
  | [] => (acc, n, [])
  | c :: s' =>
      match digit_value base c with
      | Some d => read_digits base s' (acc * base + d) (S n)
      | None => (acc, n, s)
      end
  end.

Definition pow10 (e : Z) : Q :=
  if (0 <=? e)%Z then inject_Z (10 ^ e) else / inject_Z (10 ^ (- e)).

(** [ExponentPart], optional: the exponent and what follows it; [None]
    when an [e] is not followed by a well-formed integer. *)
Definition read_exponent (s : t) : option (Z * t) :=
  match s with
  | c :: s' =>
      if (c =? 101) || (c =? 69) then
        let '(neg, s'') :=
          match s' with
          | d :: r => if d =? 45 then (true, r)
                      else if d =? 43 then (false, r) else (false, s')
          | [] => (false, s')
          end in
        let '(v, n, r) := read_digits 10 s'' 0 0 in
        match n with
        | O => None
        | _ => Some (if neg then (- Z.of_N v)%Z else Z.of_N v, r)
        end
      else Some (0%Z, s)
  | [] => Some (0%Z, s)
  end.

(** [StrUnsignedDecimalLiteral] up to the end of the input. *)
Definition read_unsigned_decimal (s : t) : option Q :=
  let '(ip, ni, r1) := read_digits 10 s 0 0 in
  let '(mant, nf, r2, ok) :=
    match r1 with
    | c :: r =>
        if c =? 46 then
          let '(m, nf, r2) := read_digits 10 r ip 0 in
          (m, nf, r2, negb ((ni =? 0)%nat && (nf =? 0)%nat))
        else (ip, O, r1, negb (ni =? 0)%nat)
    | [] => (ip, O, r1, negb (ni =? 0)%nat)
    end in
  if ok then
    match read_exponent r2 with
    | Some (e, []) =>
        Some (Qred (inject_Z (Z.of_N mant) * pow10 (e - Z.of_nat nf)))
    | _ => None
    end
  else None.

(** [NonDecimalIntegerLiteral]: [0b], [0o] or [0x] and at least one digit. *)
Definition read_non_decimal (s : t) : option Q :=
  match s with
  | z :: p :: ds =>
      if z =? 48 then
        let base :=
          if (p =? 98) || (p =? 66) then Some 2
          else if (p =? 111) || (p =? 79) then Some 8
          else if (p =? 120) || (p =? 88) then Some 16
          else None in
        match base with
        | Some b =>
            match read_digits b ds 0 0 with
            | (v, S _, []) => Some (inject_Z (Z.of_N v))
            | _ => None
            end
        | None => None
        end
      else None
  | _ => None
  end.

(** The literal [Infinity]. *)
Definition infinityLiteral : t := str "Infinity".

(** [StrDecimalLiteral] without its sign. *)
Definition read_unsigned (negative : bool) (s : t) : number :=
  if bool_decide (s = infinityLiteral) then Inf negative
  else
    match read_unsigned_decimal s with
    | Some q => fromQ (Qred (if negative then - q else q))
    | None => NaN
    end.

Definition StringToNumber (s : t) : number :=
  match trim s with
  | [] => zero
  | (c :: r) as lit =>
      match read_non_decimal lit with
      | Some q => fromQ q
      | None =>
          if c =? 45 then read_unsigned true r
          else if c =? 43 then read_unsigned false r
          else read_unsigned false lit
      end
  end.

End JsNumber.

(** ** External report: the sell-through sheet ([fetchSheetBySku]) *)

Module Sheet.
Import JsString JsNumber.

(** One parsed row of the sheet, the value stored under [bySku[skuNorm]]. *)
Record SheetStat := {
  sku_norm : t;
  sku_raw : t;
  product_title : t;
  variant_title : t;
  abc_grade : t;
  days_in_stock_24m : number;
  days_out_of_stock_24m : number;
  inventory_units_sold_csv : nullable number;
  sell_through_rate_csv : nullable number;
  percent_inventory_sold_csv : nullable number
}.

(** The column positions found in the header; [None] is the [-1] of
    [indexOf]. *)
Record columns := {
  productTitle : option nat;
  variantTitle : option nat;
  sku : option nat;
  abc : option nat;
  sellThroughRate : option nat;
  inventoryUnitsSold : option nat;
  startingUnits : option nat;
  endingUnits : option nat;
  daysInStock : option nat;
  daysOutOfStock : option nat;
  percentInventorySold : option nat
}.

Definition indexOf (header : list t) (name : t) : option nat :=
  fst <$> list_find (fun h => h = name) header.

Definition findColumns (header : list t) : columns :=
  {| productTitle := indexOf header (str "Product title");
     variantTitle := indexOf header (str "Product variant title");
     sku := indexOf header (str "Product variant SKU");
     abc := indexOf header (str "Product variant ABC grade");
     sellThroughRate := indexOf header (str "Sell-through rate");
     inventoryUnitsSold := indexOf header (str "Inventory units sold");
     startingUnits := indexOf header (str "Starting inventory units");
     endingUnits := indexOf header (str "Ending inventory units");
     daysInStock := indexOf header (str "Days in stock (at location)");
     daysOutOfStock := indexOf header (str "Days out of stock (at location)");
     percentInventorySold := indexOf header (str "Percent of inventory sold") |}.

(** [row[i]]: [None] is [undefined], for a row shorter than the header. *)
Definition cell (row : list t) (i : nat) : option t := row !! i.

(** [Number(cell || 0)]: an absent or empty cell is replaced by the number
    zero before the conversion. *)
Definition countCell (c : option t) : number :=
  match c with
  | Some s => if JsString.truthy s then StringToNumber s else zero
  | None => zero
  end.

(** [String(cell)]; an absent cell reads "undefined". *)
Definition toString (c : option t) : t :=
  match c with
  | Some s => s
  | None => str "undefined"
  end.

(** [s.replace("%", "")]: the first [%] of the string is removed. *)
Fixpoint removeFirstPercent (s : t) : t :=
  match s with
  | [] => []
  | c :: s' => if c =? percent then s' else c :: removeFirstPercent s'
  end.

(** [Number(String(cell).replace("%", "")) || null]. *)
Definition percentCell (c : option t) : nullable number :=
  orNull (StringToNumber (removeFirstPercent (toString c))).

(** [idx >= 0 ? row[idx] || "" : ""]. *)
Definition textCell (row : list t) (idx : option nat) : t :=
  match idx with
  | Some i => default [] (cell row i)
  | None => []
  end.

(** The five numeric fields of a row. *)
Definition readDaysInStock (cols : columns) (row : list t) : number :=
  match daysInStock cols with
  | Some i => countCell (cell row i)
  | None => zero
  end.

Definition readDaysOutOfStock (cols : columns) (row : list t) : number :=
  match daysOutOfStock cols with
  | Some i => countCell (cell row i)
  | None => zero
  end.

Definition readInventoryUnitsSold (cols : columns) (row : list t)
  : nullable number :=
  match inventoryUnitsSold cols with
  | Some i => Some (countCell (cell row i))
  | None => None
  end.

Definition readSellThroughRate (cols : columns) (row : list t)
  : nullable number :=
  match sellThroughRate cols with
  | Some i => percentCell (cell row i)
  | None => None
  end.

Definition readPercentInventorySold (cols : columns) (row : list t)
  : nullable number :=
  match percentInventorySold cols with
  | Some i => percentCell (cell row i)
  | None => None
  end.

(** The body of the loop over the data rows: the key and the record of a
    row, or [None] when the row is skipped. *)
Definition readRow (cols : columns) (row : list t) : option (t * SheetStat) :=
  let rawSku :=
    match sku cols ≫= cell row with
    | Some s => if JsString.truthy s then trim s else []
    | None => []
    end in
  if JsString.truthy rawSku then
    match Sku.normaliseSku (Some rawSku) with
    | Some skuNorm =>
        if JsString.truthy skuNorm then
          Some (skuNorm,
                {| sku_norm := skuNorm;
                   sku_raw := rawSku;
                   product_title := textCell row (productTitle cols);
                   variant_title := textCell row (variantTitle cols);
                   abc_grade := textCell row (abc cols);
                   days_in_stock_24m := readDaysInStock cols row;
                   days_out_of_stock_24m := readDaysOutOfStock cols row;
                   inventory_units_sold_csv := readInventoryUnitsSold cols row;
                   sell_through_rate_csv := readSellThroughRate cols row;
                   percent_inventory_sold_csv :=
                     readPercentInventorySold cols row |})
        else None
    | None => None
    end
  else None.

(** The two errors thrown after the download: no row at all, or a header
    without the SKU or the days-in-stock column. *)
Inductive error :=
| EmptySheet
| MissingColumns.

(** [fetchSheetBySku()] from the text of the response on: parse, locate
    the columns, and store every kept row under its normalised SKU (a later
    row overwrites an earlier one). *)
Definition fetchSheetBySku (csvText : t) : error + gmap t SheetStat :=
  match Csv.parseCsv csvText with
  | [] => inl EmptySheet
  | header :: data =>
      let cols := findColumns (map trim header) in
      match sku cols, daysInStock cols with
      | Some _, Some _ =>
          inr (foldl (fun bySku row =>
                        match readRow cols row with
                        | Some (k, r) => <[k := r]> bySku
                        | None => bySku
                        end) ∅ data)
      | _, _ => inl MissingColumns
      end
  end.

End Sheet.

(** ** Members inherited from [Object.prototype]

    A plain object used as a dictionary answers a read [obj[k]] with its
    own property of that name, and otherwise, for the twelve names below,
    with the member it inherits from [Object.prototype].  The sell-through
    report reads its dictionaries with SKUs taken from the orders and from
    the sheet, so these reads are modelled here. *)

Module Proto.
Import JsString JsNumber.

Definition members : list t :=
  [ str "constructor"; str "__proto__"; str "hasOwnProperty";
    str "isPrototypeOf"; str "propertyIsEnumerable"; str "toLocaleString";
    str "toString"; str "valueOf"; str "__defineGetter__";
    str "__defineSetter__"; str "__lookupGetter__"; str "__lookupSetter__" ].

Definition inherited (k : t) : bool := bool_decide (k ∈ members).

(** The outcome of [obj[k]]: the record stored under [k]; or an inherited
    member, which is a function (the prototype itself for [__proto__]),
    hence truthy, and has none of the properties of a record; or
    [undefined]. *)
Inductive found (A : Type) :=
| Own (a : A)
| Member
| Missing.
Arguments Own {A} a.
Arguments Member {A}.
Arguments Missing {A}.

Definition get {A : Type} (obj : gmap t A) (k : t) : found A :=
  match obj !! k with
  | Some a => Own a
  | None => if inherited k then Member else Missing
  end.

(** The object a read with a default, [obj[k] || {...}], evaluates to: a
    record, or an inherited member. *)
Inductive object (A : Type) :=
| Plain (a : A)
| Foreign.
Arguments Plain {A} a.
Arguments Foreign {A}.

Definition orDefault {A : Type} (f : found A) (d : A) : object A :=
  match f with
  | Own a => Plain a
  | Member => Foreign
  | Missing => Plain d
  end.

(** A value that may be [undefined]. *)
Inductive optional (A : Type) :=
| Undefined
| Defined (a : A).
Arguments Undefined {A}.
Arguments Defined {A} a.

(** [o.f]: a property of a record, [undefined] on an inherited member. *)
Definition field {A B : Type} (f : A -> B) (o : object A) : optional B :=
  match o with
  | Plain a => Defined (f a)
  | Foreign => Undefined
  end.

(** [obj[k] = v]: the property is added or replaced, except under the key
    [__proto__], where the setter inherited from [Object.prototype]
    replaces the prototype of [obj] and adds no property. *)
Definition assign {A : Type} (k : t) (v : A) (obj : gmap t A) : gmap t A :=
  if bool_decide (k = str "__proto__") then obj else <[k := v]> obj.

(** The one property the program adds to inherited members: in
    [fetchSalesBySku], [s.total_sold_24m += qty] with [s] an inherited
    member stores in that member the sum of [undefined], or of an earlier
    such sum, and a number, which is [NaN].  The members live as long as
    the process; the state records the names of those that have received
    the property. *)
Definition realm := gset t.

(** [m.total_sold_24m] for [m] the member named [k]: the property of the
    member itself, or the one it inherits from [Object.prototype], which is
    the member named [__proto__]. *)
Definition memberTotal (g : realm) (k : t) : optional number :=
  if bool_decide (k ∈ g \/ str "__proto__" ∈ g) then Defined NaN
  else Undefined.

End Proto.

(** ** Merge of sales and sheet ([mergeSalesAndSheet]) *)

Module Merge.
Import JsString JsNumber Sheet Proto.

(** An entry of [salesStats], built by [ensureSku] in [fetchSalesBySku]. *)
Record SalesStat := {
  sku : t;
  any_raw_sku : t;
  total_sold_24m : number
}.

(** An entry of the merged [items].  The properties copied from [sales]
    and [sheet] are [undefined] when that object is an inherited member. *)
Record Item := {
  m_sku_norm : t;
  m_sku_raw : t;
  m_product_title : optional t;
  m_variant_title : optional t;
  m_abc_grade : optional t;
  m_total_sold_24m : optional number;
  m_days_in_stock_24m : optional number;
  m_days_out_of_stock_24m : optional number;
  in_stock_rate_24m : nullable number;
  velocity_in_stock_24m : nullable number;
  m_inventory_units_sold_csv : optional (nullable number);
  m_sell_through_rate_csv : optional (nullable number);
  m_percent_inventory_sold_csv : optional (nullable number)
}.

(** [a || b] on strings. *)
Definition orElse (a b : t) : t := if JsString.truthy a then a else b.

(** [a || b] with [a] a string or [undefined]. *)
Definition orElseO (a : optional t) (b : t) : t :=
  match a with
  | Defined s => orElse s b
  | Undefined => b
  end.

(** The number an arithmetic operator or a comparison sees: [undefined]
    converts to [NaN]. *)
Definition toNumber (x : optional number) : number :=
  match x with
  | Defined n => n
  | Undefined => NaN
  end.

(** [salesStats[sku] || { sku, any_raw_sku: sku, total_sold_24m: 0 }]. *)
Definition salesOrDefault (k : t) (salesStats : gmap t SalesStat)
  : object SalesStat :=
  orDefault (get salesStats k)
            {| sku := k; any_raw_sku := k; total_sold_24m := zero |}.

(** [sheetStats[sku] || { ... }]. *)
Definition sheetOrDefault (k : t) (sales : object SalesStat)
    (sheetStats : gmap t SheetStat) : object SheetStat :=
  orDefault (get sheetStats k)
            {| sku_norm := k;
               sku_raw := orElseO (field any_raw_sku sales) k;
               product_title := [];
               variant_title := [];
               abc_grade := [];
               days_in_stock_24m := zero;
               days_out_of_stock_24m := zero;
               inventory_units_sold_csv := None;
               sell_through_rate_csv := None;
               percent_inventory_sold_csv := None |}.

(** [sheet.days_in_stock_24m + sheet.days_out_of_stock_24m || 0]. *)
Definition totalDays (sheet : object SheetStat) : number :=
  orZero (add (toNumber (field days_in_stock_24m sheet))
              (toNumber (field days_out_of_stock_24m sheet))).

(** [totalDays > 0 ? sheet.days_in_stock_24m / totalDays : null]; the outer
    [option] is the one of [JsNumber.div]. *)
Definition inStockRate (sheet : object SheetStat) : option (nullable number) :=
  if gt0 (totalDays sheet)
  then Some <$> div (toNumber (field days_in_stock_24m sheet)) (totalDays sheet)
  else Some None.

(** [sales.total_sold_24m]: the total of the entry, or the property of
    that name of the inherited member. *)
Definition salesTotal (g : realm) (k : t) (sales : object SalesStat)
  : optional number :=
  match sales with
  | Plain s => Defined (total_sold_24m s)
  | Foreign => memberTotal g k
  end.

(** [sheet.days_in_stock_24m > 0
      ? sales.total_sold_24m / sheet.days_in_stock_24m : null]. *)
Definition velocityInStock (g : realm) (k : t) (sales : object SalesStat)
    (sheet : object SheetStat) : option (nullable number) :=
  if gt0 (toNumber (field days_in_stock_24m sheet))
  then Some <$> div (toNumber (salesTotal g k sales))
                    (toNumber (field days_in_stock_24m sheet))
  else Some None.

(** The body of the loop over [allSkus]. *)
Definition mergeEntry (g : realm) (k : t) (salesStats : gmap t SalesStat)
    (sheetStats : gmap t SheetStat) : option Item :=
  let sales := salesOrDefault k salesStats in
  let sheet := sheetOrDefault k sales sheetStats in
  rate ← inStockRate sheet;
  velocity ← velocityInStock g k sales sheet;
  Some {| m_sku_norm := k;
          m_sku_raw := orElseO (field sku_raw sheet)
                               (orElseO (field any_raw_sku sales) k);
          m_product_title := field product_title sheet;
          m_variant_title := field variant_title sheet;
          m_abc_grade := field abc_grade sheet;
          m_total_sold_24m := salesTotal g k sales;
          m_days_in_stock_24m := field days_in_stock_24m sheet;
          m_days_out_of_stock_24m := field days_out_of_stock_24m sheet;
          in_stock_rate_24m := rate;
          velocity_in_stock_24m := velocity;
          m_inventory_units_sold_csv := field inventory_units_sold_csv sheet;
          m_sell_through_rate_csv := field sell_through_rate_csv sheet;
          m_percent_inventory_sold_csv :=
            field percent_inventory_sold_csv sheet |}.

(** [new Set([...Object.keys(salesStats), ...Object.keys(sheetStats)])]. *)
Definition allSkus (salesStats : gmap t SalesStat)
    (sheetStats : gmap t SheetStat) : list t :=
  elements (dom salesStats ∪ dom sheetStats).

(** [mergeSalesAndSheet(salesStats, sheetStats)], run in a process whose
    inherited members are in the state [g]; [None] only if some division
    had a zero divisor. *)
Definition mergeSalesAndSheet (g : realm) (salesStats : gmap t SalesStat)
    (sheetStats : gmap t SheetStat) : option (gmap t Item) :=
  foldl (fun acc k =>
           items ← acc;
           item ← mergeEntry g k salesStats sheetStats;
           Some (assign k item items))
        (Some ∅) (allSkus salesStats sheetStats).

End Merge.

(** ** The derived fields, as the specification words them *)

Module Spec.
Import JsNumber.

(** The quotient of two numbers, for a divisor other than zero. *)
Definition quotient (x y : number) : number := default NaN (div x y).

(** "[inStockRate = daysInStock / (daysInStock + daysOutOfStock)] when the
    denominator is positive, else [null]". *)
Definition inStockRate (daysInStock daysOutOfStock : number)
  : nullable number :=
  let denominator := add daysInStock daysOutOfStock in
  if gt0 denominator then Some (quotient daysInStock denominator) else None.

(** "[velocityInStock = totalSold / daysInStock] when [daysInStock > 0],
    else [null]". *)
Definition velocityInStock (totalSold daysInStock : number)
  : nullable number :=
  if gt0 daysInStock then Some (quotient totalSold daysInStock) else None.




End Spec.

(** ** Calendar days *)

Module Days.

(** A day of the calendar, by its number; the key [YYYY-MM-DD] the
    code derives with [toISOString().slice(0, 10)] is its rendering. *)
Definition day := Z.

(** A window bound as the callers pass it: a [Date] object at the UTC
    midnight of a day, or the text [YYYY-MM-DD] of a day. *)
Inductive bound :=
| DateObj (d : day)
| DateStr (d : day).

(** [new Date(b)]: the date of either form. *)
Definition toDate (b : bound) : day :=
  match b with DateObj d | DateStr d => d end.

(** [d <= end] with [d] a [Date].  The operands are converted to numbers:
    a [Date] to its time value, the text [YYYY-MM-DD] to [NaN], and a
    comparison with [NaN] is false. *)
Definition dateLe (d : day) (end_ : bound) : bool :=
  match end_ with
  | DateObj e => (d <=? e)%Z
  | DateStr _ => false
  end.

(** The loop [while (d <= end) { list.push(key(d)); d.setDate(d.getDate() + 1) }],
    run for at most [fuel] iterations. *)
Fixpoint daysLoop (fuel : nat) (d : day) (end_ : bound) : list day :=
  match fuel with
  | O => []
  | S fuel' =>
      if dateLe d end_ then d :: daysLoop fuel' (d + 1)%Z end_ else []
  end.

(** Iterations after which the loop condition fails. *)
Definition daysFuel (d : day) (end_ : bound) : nat :=
  Z.to_nat (toDate end_ - d + 1).

(** [enumerateDays(start, end)], the same in the three REST files. *)
Definition enumerateDays (start end_ : bound) : list day :=
  daysLoop (daysFuel (toDate start) end_) (toDate start) end_.

End Days.

(** ** Objects iterated in insertion order *)

Module JsObject.
Import Days.

Section Obj.
Context {V : Type}.

(** An object whose keys are day texts: the properties in insertion
    order, each key once. *)
Definition t := list (day * V).

(** [o[k]]; [None] is [undefined]. *)
Fixpoint get (k : day) (o : t) : option V :=
  match o with
  | [] => None
  | (k', v) :: o' => if (k =? k')%Z then Some v else get k o'
  end.

(** [o[k] = v]: an existing property keeps its place, a new one is added
    last. *)
Fixpoint set (k : day) (v : V) (o : t) : t :=
  match o with
  | [] => [(k, v)]
  | (k', v') :: o' =>
      if (k =? k')%Z then (k, v) :: o' else (k', v') :: set k v o'
  end.

(** [Object.keys(o)]. *)
Definition keys (o : t) : list day := map fst o.

End Obj.
Arguments t V : clear implicits.

End JsObject.

(** ** The per-day tally *)

Module Metrics.

(** The four counters of a SKU. *)
Record t := {
  days_in_stock : Z;
  stockout_days : Z;
  sold_while_in_stock : Z;
  total_sold : Z
}.

Definition zero : t :=
  {| days_in_stock := 0; stockout_days := 0;
     sold_while_in_stock := 0; total_sold := 0 |}.

(** The body of the loop over the days, identical in [computeMetrics] and
    in both [calculateMetrics]:
    [totalSold += sold;
     if (qty > 0) { daysInStock++; soldWhileInStock += sold }
     else { stockoutDays++ }]; [inStock] is the outcome of [qty > 0]. *)
Definition tally (inStock : bool) (sold : Z) (m : t) : t :=
  if inStock then
    {| days_in_stock := days_in_stock m + 1;
       stockout_days := stockout_days m;
       sold_while_in_stock := sold_while_in_stock m + sold;
       total_sold := total_sold m + sold |}
  else
    {| days_in_stock := days_in_stock m;
       stockout_days := stockout_days m + 1;
       sold_while_in_stock := sold_while_in_stock m;
       total_sold := total_sold m + sold |}.

End Metrics.

(** ** REST report with forward accumulation, "universal" variant *)

Module Universal.
Import Days.

(** An entry of the list returned by [fetchAdjustments]. *)
Record adjustment := { date : day; delta : Z }.

(** [reconstructDailyLevels(startDay, endDay, adjustments)].  The guard
    [if (!daily[adj.date]) continue] skips an event whose slot is
    [undefined] and also one whose slot holds zero. *)
Definition reconstructDailyLevels (startDay endDay : day)
    (adjustments : list adjustment) : gmap day Z :=
  let days := enumerateDays (DateObj startDay) (DateObj endDay) in
  let daily := foldl (fun daily d => <[d := 0%Z]> daily) ∅ days in
  foldl (fun daily adj =>
           match daily !! date adj with
           | Some v =>
               if (v =? 0)%Z then daily
               else <[date adj := (v + delta adj)%Z]> daily
           | None => daily
           end) daily adjustments.

End Universal.

(** ** REST report with forward accumulation, "diagnostic" variant *)

Module Diagnostic.
Import Days.

Record adjustment := { date : day; delta : Z }.

(** [reconstructDailyLevels(startDay, endDay, adjustments)]:
    [if (map[a.date] !== undefined) map[a.date] += a.delta]. *)
Definition reconstructDailyLevels (startDay endDay : day)
    (adjustments : list adjustment) : gmap day Z :=
  let days := enumerateDays (DateObj startDay) (DateObj endDay) in
  let map := foldl (fun map d => <[d := 0%Z]> map) ∅ days in
  foldl (fun map a =>
           match map !! date a with
           | Some v => <[date a := (v + delta a)%Z]> map
           | None => map
           end) map adjustments.

End Diagnostic.

(** ** Paged fetches *)

Module Fetch.

(** How a fetch loop ends.  The loops are [while (true)] around an
    [await]: a run is modelled with a bound on the number of requests, and
    [OutOfFuel] is a run cut short by that bound. *)
Inductive outcome (A : Type) :=
| Returned (a : A)
| Thrown
| OutOfFuel.
Arguments Returned {A} a.
Arguments Thrown {A}.
Arguments OutOfFuel {A}.

End Fetch.

(** ** REST report with backward reconstruction, "simple" variant *)

Module Simple.
Import JsString Days Fetch.

(** *** [fetchVariants] *)

(** A variant as the products endpoint returns it. *)
Record rawVariant := {
  raw_sku : option JsString.t;
  raw_id : N;
  raw_inventory_item_id : option N
}.

Record product := { product_variants : option (list rawVariant) }.

(** The parsed body of a page; [link] is [json.headers?.link]. *)
Record response := {
  products : option (list product);
  link : option JsString.t
}.

(** What [fetchVariants] keeps of a variant. *)
Record variant := {
  sku : JsString.t;
  variantId : N;
  inventoryItemId : N
}.

(** [if (v.sku && v.inventory_item_id) variants.push({...})]. *)
Definition keep (v : rawVariant) : option variant :=
  match raw_sku v, raw_inventory_item_id v with
  | Some s, Some i =>
      if JsString.truthy s && negb (i =? 0)
      then Some {| sku := s; variantId := raw_id v; inventoryItemId := i |}
      else None
  | _, _ => None
  end.

(** The two nested [for] loops over a page. *)
Definition collect (json : response) : list variant :=
  flat_map (fun p => omap keep (default [] (product_variants p)))
           (default [] (products json)).

Fixpoint startsWith (p s : JsString.t) : bool :=
  match p, s with
  | [], _ => true
  | a :: p', b :: s' => (a =? b) && startsWith p' s'
  | _ :: _, [] => false
  end.

(** [s.includes(p)]. *)
Fixpoint includes (p s : JsString.t) : bool :=
  startsWith p s ||
  match s with
  | [] => false
  | _ :: s' => includes p s'
  end.

(** The text [rel="next"]. *)
Definition relNext : JsString.t :=
  str "rel=" ++ [dquote] ++ str "next" ++ [dquote].

(** The class [[^&>]]. *)
Definition tokenChar (c : N) : bool := negb ((c =? 38) || (c =? 62)).

Fixpoint takeToken (s : JsString.t) : JsString.t :=
  match s with
  | [] => []
  | c :: s' => if tokenChar c then c :: takeToken s' else []
  end.

(** [link.match(/page_info=([^&>]+)/)?.[1]]: the capture of the leftmost
    match, [None] without a match. *)
Fixpoint matchPageInfo (s : JsString.t) : option JsString.t :=
  match s with
  | [] => None
  | _ :: s' =>
      let p := str "page_info=" in
      if startsWith p s then
        match takeToken (drop (length p) s) with
        | [] => matchPageInfo s'
        | token => Some token
        end
      else matchPageInfo s'
  end.

(** The upstream: the body returned for a request with the given
    [page_info] ([None] for the first request, which carries none), or
    [None] for a response that is not [ok], on which [shopifyGET] throws. *)
Definition upstream := option JsString.t -> option response.

(** The continuation token of a page, as the end of the loop body reads
    it: [None] when the link lacks [rel="next"] (first [break]) or carries
    no [page_info] (second [break]). *)
Definition nextCursor (json : response) : option JsString.t :=
  let link := default [] (link json) in
  if negb (includes relNext link) then None else matchPageInfo link.

(** The loop of [fetchVariants]; [log] collects the [page_info] of every
    request issued. *)
Fixpoint fetchLoop (fuel : nat) (server : upstream) (cursor : option JsString.t)
    (variants : list variant) (log : list (option JsString.t))
  : outcome (list variant * list (option JsString.t)) :=
  match fuel with
  | O => OutOfFuel
  | S fuel' =>
      match server cursor with
      | None => Thrown
      | Some json =>
          let variants' := variants ++ collect json in
          let log' := log ++ [cursor] in
          match nextCursor json with
          | None => Returned (variants', log')
          | Some c => fetchLoop fuel' server (Some c) variants' log'
          end
      end
  end.

Definition fetchVariants (fuel : nat) (server : upstream)
  : outcome (list variant * list (option JsString.t)) :=
  fetchLoop fuel server None [] [].

(** *** Reconstruction and metrics *)

(** [salesForSku[day] || 0]. *)
Definition soldOn (salesForSku : gmap day Z) (d : day) : Z :=
  default 0%Z (salesForSku !! d).

(** The backward loop of [reconstructDailyInventory] over the days from
    the last to the first, on the pair of [inventory] and [running]. *)
Definition backward (salesForSku : gmap day Z)
    (st : JsObject.t Z * Z) (d : day) : JsObject.t Z * Z :=
  let '(inventory, running) := st in
  (JsObject.set d running inventory, (running + soldOn salesForSku d)%Z).

(** [reconstructDailyInventory(startDay, endDay, finalQty, salesForSku)]. *)
Definition reconstructDailyInventory (startDay endDay : bound) (finalQty : Z)
    (salesForSku : gmap day Z) : JsObject.t Z :=
  let days := enumerateDays startDay endDay in
  let inventory := foldl (fun inv d => JsObject.set d 0%Z inv) [] days in
  fst (foldl (backward salesForSku) (inventory, finalQty) (rev days)).

(** [calculateMetrics(inventory, salesForSku)]. *)
Definition calculateMetrics (inventory : JsObject.t Z)
    (salesForSku : gmap day Z) : Metrics.t :=
  foldl (fun m d =>
           let qty := JsObject.get d inventory in
           let sold := soldOn salesForSku d in
           Metrics.tally (from_option (fun q => (0 <? q)%Z) false qty) sold m)
        Metrics.zero (JsObject.keys inventory).

(** An entry of the list returned by [fetchOrders]. *)
Record sale := { sale_date : day; sale_sku : JsString.t; qty : Z }.

(** The sales map the handler builds for one variant. *)
Definition salesMapFor (v : variant) (orders : list sale) : gmap day Z :=
  foldl (fun salesMap o =>
           if bool_decide (sale_sku o = sku v)
           then <[sale_date o := (soldOn salesMap (sale_date o) + qty o)%Z]> salesMap
           else salesMap) ∅ orders.

(** The metrics the handler reports for one variant whose current level
    is [finalQty]. *)
Definition reportItem (startDay endDay : bound) (orders : list sale)
    (v : variant) (finalQty : Z) : Metrics.t :=
  let salesMap := salesMapFor v orders in
  calculateMetrics (reconstructDailyInventory startDay endDay finalQty salesMap)
                   salesMap.

End Simple.

(** ** GraphQL report ([api/inventory-report.js]) *)

Module InventoryReport.
Import JsString Days Fetch.

(** *** [fetchAllVariants] *)

(** A variant node; [inventoryItem] is [v.inventoryItem?.id]. *)
Record variant := {
  id : JsString.t;
  sku : option JsString.t;
  inventoryItem : option JsString.t
}.

(** A product edge; [variantEdges] is [edge.node.variants.edges]. *)
Record productEdge := {
  cursor : JsString.t;
  variantEdges : option (list variant)
}.

(** [data.products] of a page. *)
Record productsPage := {
  hasNextPage : bool;
  edges : option (list productEdge)
}.

(** [!v.sku] and [!v.inventoryItem?.id] both false. *)
Definition keep (v : variant) : bool :=
  from_option JsString.truthy false (sku v)
  && from_option JsString.truthy false (inventoryItem v).

(** The two nested [for] loops over a page. *)
Definition collect (es : list productEdge) : list variant :=
  flat_map (fun e => filter (fun v => keep v = true) (default [] (variantEdges e))) es.

(** The upstream: [data.products] for a request with the given cursor,
    or [None] when [shopifyGraphQL] throws. *)
Definition upstream := option JsString.t -> option productsPage.

(** The loop of [fetchAllVariants]; [log] collects the cursor of every
    request issued.  With [hasNextPage] set on a page without edges,
    [edges[edges.length - 1].cursor] throws. *)
Fixpoint fetchLoop (fuel : nat) (server : upstream) (cur : option JsString.t)
    (variants : list variant) (log : list (option JsString.t))
  : outcome (list variant * list (option JsString.t)) :=
  match fuel with
  | O => OutOfFuel
  | S fuel' =>
      match server cur with
      | None => Thrown
      | Some page =>
          let es := default [] (edges page) in
          let variants' := variants ++ collect es in
          let log' := log ++ [cur] in
          if negb (hasNextPage page) then Returned (variants', log')
          else
            match last es with
            | None => Thrown
            | Some e => fetchLoop fuel' server (Some (cursor e)) variants' log'
            end
      end
  end.

Definition fetchAllVariants (fuel : nat) (server : upstream)
  : outcome (list variant * list (option JsString.t)) :=
  fetchLoop fuel server None [] [].

(** *** [computeMetrics] *)

(** An order as [fetchOrders] returns it; [createdAt] is the day of
    [order.createdAt.slice(0, 10)]. *)
Record lineItem := { variantId : option JsString.t; quantity : Z }.
Record order := { createdAt : day; lineItems : list lineItem }.

(** An entry of the list returned by [fetchInventoryDailyForItem];
    [available] may be [null]. *)
Record level := { date : day; available : option Z }.

(** [String(v.sku)]. *)
Definition skuText (v : variant) : JsString.t :=
  match sku v with
  | Some s => s
  | None => str "null"
  end.

(** The first [forEach]: [skuByVariantId] and [itemIdBySku]. *)
Definition indexVariants (variants : list variant)
  : gmap JsString.t JsString.t * gmap JsString.t JsString.t :=
  foldl (fun '(skuByVariantId, itemIdBySku) v =>
           let s := trim (skuText v) in
           if negb (JsString.truthy s) then (skuByVariantId, itemIdBySku)
           else
             match inventoryItem v with
             | Some item =>
                 if JsString.truthy item
                 then (<[id v := s]> skuByVariantId, <[s := item]> itemIdBySku)
                 else (skuByVariantId, itemIdBySku)
             | None => (skuByVariantId, itemIdBySku)
             end)
        (∅, ∅) variants.

(** The sales index; the key [date|sku] is the pair. *)
Abbreviation salesKey := (day * JsString.t)%type.

(** [sales[key] || 0]. *)
Definition soldAt (sales : gmap salesKey Z) (k : salesKey) : Z :=
  default 0%Z (sales !! k).

(** The second [forEach]: the sales index. *)
Definition indexSales (skuByVariantId : gmap JsString.t JsString.t)
    (orders : list order) : gmap salesKey Z :=
  foldl (fun sales o =>
           foldl (fun sales li =>
                    match variantId li with
                    | Some vid =>
                        if JsString.truthy vid then
                          match skuByVariantId !! vid with
                          | Some s =>
                              if JsString.truthy s then
                                let key := (createdAt o, s) in
                                <[key := (soldAt sales key + quantity li)%Z]> sales
                              else sales
                          | None => sales
                          end
                        else sales
                    | None => sales
                    end) sales (lineItems o))
        ∅ orders.

(** The list of dates of the period. *)
Definition dates (startDate endDate : day) : list day :=
  daysLoop (daysFuel startDate (DateObj endDate)) startDate (DateObj endDate).

(** [invMap], from the levels of one item; the last entry of a date wins. *)
Definition invMapOf (invRaw : list level) : gmap day (option Z) :=
  foldl (fun invMap e => <[date e := available e]> invMap) ∅ invRaw.

(** [invMap[date] ?? 0]. *)
Definition qtyAvail (invMap : gmap day (option Z)) (d : day) : Z :=
  default 0%Z (mjoin (invMap !! d)).

(** The loop over the dates for one SKU. *)
Definition skuMetrics (invMap : gmap day (option Z)) (sales : gmap salesKey Z)
    (s : JsString.t) (ds : list day) : Metrics.t :=
  foldl (fun m d =>
           Metrics.tally (0 <? qtyAvail invMap d)%Z (soldAt sales (d, s)) m)
        Metrics.zero ds.

(** [computeMetrics(variants, inventoryByItem, orders, startDate, endDate)]. *)
Definition computeMetrics (variants : list variant)
    (inventoryByItem : gmap JsString.t (list level)) (orders : list order)
    (startDate endDate : day) : gmap JsString.t Metrics.t :=
  let '(skuByVariantId, itemIdBySku) := indexVariants variants in
  let sales := indexSales skuByVariantId orders in
  let ds := dates startDate endDate in
  map_imap (fun s invItemId =>
              let invRaw := default [] (inventoryByItem !! invItemId) in
              Some (skuMetrics (invMapOf invRaw) sales s ds))
           itemIdBySku.

End InventoryReport.

(** ** Paged collections *)

Module Paging.
Import JsString.

(** *** The REST collection as the API serves it *)

(** A response of the REST API: its parsed body and, beside it, the [Link]
    header of the response, [None] when it has none.  A body as the API
    sends it has the member [products] and no member [headers], so that
    [Simple.link], the [json.headers?.link] of the code, is [None] there. *)
Record restResponse := {
  body : Simple.response;
  linkHeader : option JsString.t
}.

(** The API: the response to a request with the given [page_info], or
    [None] for a response that is not [ok]. *)
Definition restApi := option JsString.t -> option restResponse.

(** [shopifyGET(path, params)] ends in [return res.json()]: the caller gets
    the parsed body, and the headers of the response are not passed on. *)
Definition shopifyGET (api : restApi) : Simple.upstream :=
  fun pageInfo => body <$> api pageInfo.

(** The links of a [Link] header, [<url>; params] separated by commas:
    the scan is outside a link, inside the [url] between [<] and [>], or
    inside the [params] up to the next comma. *)
Inductive linkMode := Outside | InUrl | InParams.

Record linkScan := {
  links : list (JsString.t * JsString.t);
  mode : linkMode;
  url : JsString.t;
  params : JsString.t
}.

Definition linkStep (st : linkScan) (c : N) : linkScan :=
  match mode st with
  | Outside =>
      if c =? 60
      then {| links := links st; mode := InUrl; url := []; params := [] |}
      else st
  | InUrl =>
      if c =? 62
      then {| links := links st; mode := InParams;
              url := url st; params := [] |}
      else {| links := links st; mode := InUrl;
              url := url st ++ [c]; params := [] |}
  | InParams =>
      if c =? comma
      then {| links := links st ++ [(url st, params st)]; mode := Outside;
              url := []; params := [] |}
      else {| links := links st; mode := InParams;
              url := url st; params := params st ++ [c] |}
  end.

Definition linksOf (header : JsString.t) : list (JsString.t * JsString.t) :=
  let st := foldl linkStep
                  {| links := []; mode := Outside; url := []; params := [] |}
                  header in
  match mode st with
  | InParams => links st ++ [(url st, params st)]
  | _ => links st
  end.

(** The continuation token of a response, as the claim words it: the
    [page_info] of the link that the response metadata mark [rel="next"];
    [None] when the metadata carry no such link. *)
Definition continuation (r : restResponse) : option JsString.t :=
  match filter (fun l => Simple.includes Simple.relNext l.2 = true)
               (linksOf (default [] (linkHeader r))) with
  | l :: _ => Simple.matchPageInfo l.1
  | [] => None
  end.

(** The walk the claim asks for: a request per page while the response
    carries a continuation token, and the records of the pages in arrival
    order, with the [page_info] of every request. *)
Fixpoint walk (fuel : nat) (api : restApi) (pageInfo : option JsString.t)
  : Fetch.outcome (list Simple.variant * list (option JsString.t)) :=
  match fuel with
  | O => Fetch.OutOfFuel
  | S fuel' =>
      match api pageInfo with
      | None => Fetch.Thrown
      | Some r =>
          match continuation r with
          | None => Fetch.Returned (Simple.collect (body r), [pageInfo])
          | Some token =>
              match walk fuel' api (Some token) with
              | Fetch.Returned (records, requests) =>
                  Fetch.Returned (Simple.collect (body r) ++ records,
                                  pageInfo :: requests)
              | other => other
              end
          end
      end
  end.





End Paging.

(** ** Sums the timeline properties are stated with *)

Module Sums.
Import Days.

(** The sum of a list of integers. *)
Definition sumZ (l : list Z) : Z := foldr Z.add 0%Z l.

(** The sum of the deltas of the events dated [d]. *)
Definition deltasOn (d : day) (adjustments : list Diagnostic.adjustment) : Z :=
  sumZ (map Diagnostic.delta
            (filter (fun a => Diagnostic.date a = d) adjustments)).

(** The number of days of the window from [s] to [e], both included. *)
Definition windowLength (s e : day) : Z := Z.max 0 (e - s + 1).

(** The invariant of the four counters over a window of [n] days. *)
Definition metricsInvariant (n : Z) (m : Metrics.t) : Prop :=
  (Metrics.days_in_stock m + Metrics.stockout_days m = n
   /\ Metrics.sold_while_in_stock m <= Metrics.total_sold m
   /\ 0 <= Metrics.days_in_stock m
   /\ 0 <= Metrics.stockout_days m
   /\ 0 <= Metrics.sold_while_in_stock m
   /\ 0 <= Metrics.total_sold m)%Z.

End Sums.

(** ** Concrete inputs used by the examples *)

Module Examples.
Import JsString JsNumber.

(** A sheet with the five numeric columns.  The first data row has an
    unreadable days-in-stock cell, a blank days-out-of-stock cell, zero
    units sold and a sell-through rate of zero percent. *)
Definition sheetHeader : list jsstring :=
  [str "Product variant SKU"; str "Days in stock (at location)";
   str "Days out of stock (at location)"; str "Inventory units sold";
   str "Sell-through rate"].

Definition sheetRow1 : list jsstring :=
  [str "HAT-1-##"; str "n/a"; str ""; str "0"; str "0%"].

Definition sheetText : jsstring :=
  str "Product variant SKU,Days in stock (at location),"
  ++ str "Days out of stock (at location),Inventory units sold,"
  ++ str "Sell-through rate" ++ [LF]
  ++ str "HAT-1-##,n/a,,0,0%" ++ [LF]
  ++ str "HAT-2,12,3,abc,45.5%".

(** A sheet entry with 3 days in stock and 1 day out of stock, and a sales
    entry for another SKU. *)
Definition sheetA : Sheet.SheetStat :=
  {| Sheet.sku_norm := str "A";
     Sheet.sku_raw := str "A-##";
     Sheet.product_title := [];
     Sheet.variant_title := [];
     Sheet.abc_grade := [];
     Sheet.days_in_stock_24m := Num 3;
     Sheet.days_out_of_stock_24m := Num 1;
     Sheet.inventory_units_sold_csv := None;
     Sheet.sell_through_rate_csv := None;
     Sheet.percent_inventory_sold_csv := None |}.

Definition sheetStats : gmap jsstring Sheet.SheetStat := {[ str "A" := sheetA ]}.

Definition salesStats : gmap jsstring Merge.SalesStat :=
  {[ str "B" := {| Merge.sku := str "B";
                   Merge.any_raw_sku := str "B";
                   Merge.total_sold_24m := Num 5 |} ]}.




(** The three-day window of the backward example: 2 units sold on day 1,
    1 on day 2, none on day 3. *)
Definition threeDaySales : gmap Days.day Z :=
  {[ 1%Z := 2%Z; 2%Z := 1%Z; 3%Z := 0%Z ]}.

(** One variant of SKU [A], in stock with 5 units on day 1 and unknown on
    day 2, of which 2 units were ordered on day 1. *)
Definition variantA : InventoryReport.variant :=
  {| InventoryReport.id := str "v1";
     InventoryReport.sku := Some (str "A");
     InventoryReport.inventoryItem := Some (str "i1") |}.

Definition levelsA : gmap jsstring (list InventoryReport.level) :=
  {[ str "i1" := [ {| InventoryReport.date := 1%Z;
                      InventoryReport.available := Some 5%Z |} ] ]}.

Definition orderA : InventoryReport.order :=
  {| InventoryReport.createdAt := 1%Z;
     InventoryReport.lineItems :=
       [ {| InventoryReport.variantId := Some (str "v1");
            InventoryReport.quantity := 2%Z |} ] |}.

Definition metricsA : Metrics.t :=
  {| Metrics.days_in_stock := 1; Metrics.stockout_days := 1;
     Metrics.sold_while_in_stock := 2; Metrics.total_sold := 2 |}.

(** A REST collection of two pages.  The first page holds a variant with
    a SKU and one without, and names the token [abc] for the next page. *)
Definition restPage1 : Simple.response :=
  {| Simple.products :=
       Some [ {| Simple.product_variants :=
                   Some [ {| Simple.raw_sku := Some (str "HAT-1");
                             Simple.raw_id := 11;
                             Simple.raw_inventory_item_id := Some 101 |};
                          {| Simple.raw_sku := None;
                             Simple.raw_id := 12;
                             Simple.raw_inventory_item_id := Some 102 |} ] |} ];
     Simple.link :=
       Some (str "<https://shop/admin/api/products.json?limit=250&page_info=abc>; "
             ++ Simple.relNext) |}.

Definition restPage2 : Simple.response :=
  {| Simple.products :=
       Some [ {| Simple.product_variants :=
                   Some [ {| Simple.raw_sku := Some (str "HAT-2");
                             Simple.raw_id := 21;
                             Simple.raw_inventory_item_id := Some 201 |} ] |} ];
     Simple.link := None |}.

Definition restServer : Simple.upstream :=
  fun c =>
    match c with
    | None => Some restPage1
    | Some t => if bool_decide (t = str "abc") then Some restPage2 else None
    end.

(** The same two pages as the API serves them: the bodies hold the
    products only, and the [Link] header of the first response points to
    the second page, the one of the second response back to the first. *)
Definition apiPage1 : Paging.restResponse :=
  {| Paging.body :=
       {| Simple.products := Simple.products restPage1;
          Simple.link := None |};
     Paging.linkHeader :=
       Some (str "<https://shop/admin/api/products.json?limit=250&page_info=abc>; "
             ++ Simple.relNext) |}.

Definition apiPage2 : Paging.restResponse :=
  {| Paging.body :=
       {| Simple.products := Simple.products restPage2;
          Simple.link := None |};
     Paging.linkHeader :=
       Some (str "<https://shop/admin/api/products.json?limit=250&page_info=xyz>; "
             ++ str "rel=" ++ [dquote] ++ str "previous" ++ [dquote]) |}.

Definition restApi : Paging.restApi :=
  fun c =>
    match c with
    | None => Some apiPage1
    | Some t => if bool_decide (t = str "abc") then Some apiPage2 else None
    end.

(** A [Link] header that names the previous page before the next one, as
    the API sends it for a page in the middle of a collection. *)
Definition middleLink : jsstring :=
  str "<https://shop/admin/api/products.json?limit=250&page_info=prev>; "
  ++ str "rel=" ++ [dquote] ++ str "previous" ++ [dquote] ++ str ", "
  ++ str "<https://shop/admin/api/products.json?limit=250&page_info=next>; "
  ++ Simple.relNext.






End Examples.

(** ** Writing a table as CSV text *)

Module CsvWrite.
Import JsString Csv.

(** A row: its fields in quotes, separated by commas. *)
Fixpoint writeRow (fields : list t) : t :=
  match fields with
  | [] => []
  | [f] => quoted f
  | f :: fs => quoted f ++ comma :: writeRow fs
  end.

(** A table: every row followed by the line end [eol]. *)
Fixpoint writeRows (eol : t) (table : list (list t)) : t :=
  match table with
  | [] => []
  | r :: rs => writeRow r ++ eol ++ writeRows eol rs
  end.

(** The three line ends the parser accepts. *)
Definition lineEnd (eol : t) : Prop :=
  eol = [LF] \/ eol = [CR] \/ eol = [CR; LF].

(** A row the parser keeps: it has a field, and is not a single empty
    field (which reads as a blank line). *)
Definition keptRow (r : list t) : Prop := r <> [] /\ r <> [[]].

End CsvWrite.

(** ** Reading the sheet: what the properties are stated with *)

Module SheetView.
Import JsString Sheet.


(** The two column names the sheet must have. *)
Definition skuColumn : t := str "Product variant SKU".
Definition daysInStockColumn : t := str "Days in stock (at location)".

End SheetView.

(** ** Sales by SKU ([fetchSalesBySku] of [api/sell-through.js]) *)

Module SalesFetch.
Import JsString JsNumber Fetch Merge.

(** A line item node; [li_quantity] is [li.quantity || 0]. *)
Record lineItem := { li_sku : option JsString.t; li_quantity : Z }.

(** An order edge; [createdAt] is the time value of
    [new Date(order.createdAt)]. *)
Record orderEdge := {
  cursor : JsString.t;
  createdAt : Z;
  lineItems : list lineItem
}.

(** [data.orders] of a page; [hasNextPage] is
    [pageInfo?.hasNextPage || false]. *)
Record ordersPage := {
  edges : option (list orderEdge);
  hasNextPage : bool
}.

(** [li.sku ? String(li.sku).trim() : null]. *)
Definition rawSkuOf (li : lineItem) : option JsString.t :=
  match li_sku li with
  | Some s => if JsString.truthy s then Some (trim s) else None
  | None => None
  end.

(** The key a line item is counted under: its normalised SKU, unless
    [!skuNorm]. *)
Definition keyOf (li : lineItem) : option JsString.t :=
  match Sku.normaliseSku (rawSkuOf li) with
  | Some skuNorm => if JsString.truthy skuNorm then Some skuNorm else None
  | None => None
  end.

(** What the loop works on: [stats], and the inherited members that have
    received a total. *)
Record state := {
  stats : gmap JsString.t SalesStat;
  touched : Proto.realm
}.

(** [ensureSku(skuNorm, rawSku)], as it leaves [stats]: an entry with a
    total of zero is created when [stats[skuNorm]] is falsy, that is when
    the read finds neither an entry nor an inherited member. *)
Definition ensureSku (stats : gmap JsString.t SalesStat)
    (skuNorm : JsString.t) (rawSku : option JsString.t)
  : gmap JsString.t SalesStat :=
  match Proto.get stats skuNorm with
  | Proto.Missing =>
      <[skuNorm := {| sku := skuNorm;
                      any_raw_sku := orElse (default [] rawSku) skuNorm;
                      total_sold_24m := zero |}]> stats
  | _ => stats
  end.

(** The body of the loop over the line items of an order.  [ensureSku]
    returns [stats[skuNorm]], and the quantity is added to the total of
    that object: the entry of the SKU, or, when the SKU is the name of a
    member of [Object.prototype], that member, in which case no entry is
    created.  (After [ensureSku] the read finds one of the two.) *)
Definition addLineItem (st : state) (li : lineItem) : state :=
  match keyOf li with
  | Some skuNorm =>
      let stats' := ensureSku (stats st) skuNorm (rawSkuOf li) in
      match Proto.get stats' skuNorm with
      | Proto.Own s =>
          {| stats :=
               <[skuNorm := {| sku := sku s;
                               any_raw_sku := any_raw_sku s;
                               total_sold_24m :=
                                 add (total_sold_24m s)
                                     (Num (inject_Z (li_quantity li))) |}]>
                 stats';
             touched := touched st |}
      | Proto.Member =>
          {| stats := stats'; touched := {[ skuNorm ]} ∪ touched st |}
      | Proto.Missing => {| stats := stats'; touched := touched st |}
      end
  | None => st
  end.

(** The body of the loop over the edges of a page: an order created
    before the cutoff is skipped. *)
Definition addOrder (cutoff : Z) (st : state) (e : orderEdge) : state :=
  if (createdAt e <? cutoff)%Z then st
  else foldl addLineItem st (lineItems e).

(** The cursor of the next request: the one of the last edge, when the
    page has an edge ([else break]) and announces a next page (the loop
    condition). *)
Definition nextCursor (page : ordersPage) : option JsString.t :=
  match last (default [] (edges page)) with
  | Some e => if hasNextPage page then Some (cursor e) else None
  | None => None
  end.

(** The upstream: [data.orders] for a request with the given cursor, or
    [None] when [shopifyGraphQL] throws. *)
Definition upstream := option JsString.t -> option ordersPage.

(** The [while (hasNext)] loop; [log] collects the cursor of every request
    issued. *)
Fixpoint salesLoop (fuel : nat) (server : upstream) (cutoff : Z)
    (cur : option JsString.t) (st : state) (log : list (option JsString.t))
  : outcome (state * list (option JsString.t)) :=
  match fuel with
  | O => OutOfFuel
  | S fuel' =>
      match server cur with
      | None => Thrown
      | Some page =>
          let st' := foldl (addOrder cutoff) st (default [] (edges page)) in
          let log' := log ++ [cur] in
          match nextCursor page with
          | None => Returned (st', log')
          | Some c => salesLoop fuel' server cutoff (Some c) st' log'
          end
      end
  end.

(** [fetchSalesBySku(months)], for the cutoff computed from [months], run
    in a process whose inherited members are in the state [g]: the [stats]
    returned, with the state of the members afterwards. *)
Definition fetchSalesBySku (fuel : nat) (server : upstream) (cutoff : Z)
    (g : Proto.realm) : outcome (state * list (option JsString.t)) :=
  salesLoop fuel server cutoff None {| stats := ∅; touched := g |} [].

(** The pages served from the request with cursor [c] on. *)
Inductive chain (server : upstream)
  : option JsString.t -> list ordersPage -> Prop :=
| chain_last c page :
    server c = Some page ->
    nextCursor page = None ->
    chain server c [page]
| chain_more c page c' pages :
    server c = Some page ->
    nextCursor page = Some c' ->
    chain server (Some c') pages ->
    chain server c (page :: pages).

(** The line items of the orders of the pages that are not older than the
    cutoff, in arrival order. *)
Definition countedItems (cutoff : Z) (pages : list ordersPage)
  : list lineItem :=
  flat_map (fun page =>
              flat_map (fun e => if (createdAt e <? cutoff)%Z then []
                                 else lineItems e)
                       (default [] (edges page))) pages.

(** The quantities of the line items counted under the key [k]. *)
Definition quantitiesFor (k : JsString.t) (items : list lineItem) : list Z :=
  omap (fun li => if decide (keyOf li = Some k)
                  then Some (li_quantity li) else None) items.

(** The additions of the quantities [qs] are exact: every partial sum is
    an integer of magnitude at most [2^53]. *)
Definition exactSum (qs : list Z) : Prop :=
  (Sums.sumZ (Z.abs <$> qs) <= 2 ^ 53)%Z.

(** The entry of a key that is no name of an inherited member, and whose
    counted quantities are [qs]: absent when there is none, and otherwise
    holding their sum. *)
Definition entryFor (k : JsString.t) (qs : list Z) (entry : option SalesStat)
  : Prop :=
  match entry with
  | Some s =>
      sku s = k /\ qs <> []
      /\ (exactSum qs ->
          exists q, total_sold_24m s = Num q
                    /\ (q == inject_Z (Sums.sumZ qs))%Q)
  | None => qs = []
  end.

End SalesFetch.

(** ** GraphQL report: inventory history and the handler's collection *)

Module InventoryHistory.
Import JsString Days InventoryReport.

(** A node of [inventoryHistory.edges]. *)
Record historyNode := {
  occurredAt : day;
  availableAfterAdjustment : option Z
}.

(** [fetchInventoryDailyForItem], from the history returned by the
    request on ([hist] is [data?.inventoryItem?.inventoryHistory?.edges],
    replaced by the empty list when absent): [byDate] keeps the last value
    seen for a date, and its entries become the levels. *)
Definition fetchInventoryDailyForItem (hist : option (list historyNode))
  : list level :=
  let byDate :=
    foldl (fun byDate node =>
             JsObject.set (occurredAt node) (availableAfterAdjustment node)
                          byDate)
          [] (default [] hist) in
  map (fun '(d, a) => {| date := d; available := a |}) byDate.

(** The ids of the inventory items of the variants:
    [variants.map((v) => v.inventoryItem?.id).filter(Boolean)].  The [Set]
    the handler wraps them in removes the repeats; here a repeated id
    writes the same entry again. *)
Definition itemIds (variants : list variant) : list JsString.t :=
  omap (fun v => match inventoryItem v with
                 | Some item => if JsString.truthy item then Some item else None
                 | None => None
                 end) variants.

(** Step 2 of the handler: the history of every item, or the empty list
    for an item whose request throws ([fetchHistory] returns [None]).
    The requests of a batch write distinct keys, so their order does not
    matter. *)
Definition collectInventory (fetchHistory : JsString.t -> option (list level))
    (variants : list variant) : gmap JsString.t (list level) :=
  foldl (fun inventoryByItem item =>
           <[item := default [] (fetchHistory item)]> inventoryByItem)
        ∅ (itemIds variants).

(** Steps 2 and 4 of the handler. *)
Definition report (fetchHistory : JsString.t -> option (list level))
    (variants : list variant) (orders : list order) (startDate endDate : day)
  : gmap JsString.t Metrics.t :=
  computeMetrics variants (collectInventory fetchHistory variants) orders
                 startDate endDate.

End InventoryHistory.

(** ** GraphQL report: what the properties are stated with *)

Module InventoryView.
Import JsString Days InventoryReport.

(** The SKU and inventory item a variant enters the two indexes with, if
    it does. *)
Definition entering (v : variant) : option (JsString.t * JsString.t) :=
  let s := trim (skuText v) in
  if JsString.truthy s then
    match inventoryItem v with
    | Some item => if JsString.truthy item then Some (s, item) else None
    | None => None
    end
  else None.

(** The inventory items of the variants that enter under the SKU [k], in
    order. *)
Definition itemsFor (k : JsString.t) (variants : list variant)
  : list JsString.t :=
  omap (fun v => match entering v with
                 | Some (s, item) => if decide (s = k) then Some item else None
                 | None => None
                 end) variants.

(** The SKUs the variants with the id [vid] enter with, in order. *)
Definition skusFor (vid : JsString.t) (variants : list variant)
  : list JsString.t :=
  omap (fun v => match entering v with
                 | Some (s, item) =>
                     if decide (id v = vid) then Some s else None
                 | None => None
                 end) variants.

(** The SKU a line item is counted under. *)
Definition lineSku (skuByVariantId : gmap JsString.t JsString.t)
    (li : lineItem) : option JsString.t :=
  match variantId li with
  | Some vid =>
      if JsString.truthy vid then
        match skuByVariantId !! vid with
        | Some s => if JsString.truthy s then Some s else None
        | None => None
        end
      else None
  | None => None
  end.

(** The quantities of the line items of the orders created on [d] that are
    counted under the SKU [s]. *)
Definition soldQuantities (skuByVariantId : gmap JsString.t JsString.t)
    (d : day) (s : JsString.t) (orders : list order) : list Z :=
  flat_map (fun o =>
              if decide (createdAt o = d) then
                omap (fun li => if decide (lineSku skuByVariantId li = Some s)
                                then Some (quantity li) else None)
                     (lineItems o)
              else []) orders.

End InventoryView.

(** ** The "universal" REST report: fetch, metrics and handler *)

Module UniversalReport.
Import JsString Days Fetch.

(** The loop of [fetchAllVariants] of this variant.  Its pages and the
    variants it keeps have the shape of the "simple" variant.  The link is
    read with [json.headers?.link || res.headers?.get("link")], and no
    [res] is in scope in this function: when the first operand is absent
    or empty, evaluating the second throws a [ReferenceError]. *)
Fixpoint fetchLoop (fuel : nat) (server : Simple.upstream)
    (pageInfo : option JsString.t) (variants : list Simple.variant)
    (log : list (option JsString.t))
  : outcome (list Simple.variant * list (option JsString.t)) :=
  match fuel with
  | O => OutOfFuel
  | S fuel' =>
      match server pageInfo with
      | None => Thrown
      | Some json =>
          let variants' := variants ++ Simple.collect json in
          let log' := log ++ [pageInfo] in
          match Simple.link json with
          | Some link =>
              if JsString.truthy link then
                if negb (Simple.includes Simple.relNext link)
                then Returned (variants', log')
                else
                  match Simple.matchPageInfo link with
                  | None => Returned (variants', log')
                  | Some c => fetchLoop fuel' server (Some c) variants' log'
                  end
              else Thrown
          | None => Thrown
          end
      end
  end.

Definition fetchAllVariants (fuel : nat) (server : Simple.upstream)
  : outcome (list Simple.variant * list (option JsString.t)) :=
  fetchLoop fuel server None [] [].

(** An entry of the output of [calculateMetrics]: the four counters and
    the daily series of the item. *)
Record item := {
  metrics : Metrics.t;
  daily : gmap day Z
}.

(** The index [ordersByDateSku]; the key [date|sku] is the pair. *)
Definition indexOrders (orders : list Simple.sale)
  : gmap (day * JsString.t) Z :=
  foldl (fun ordersByDateSku o =>
           let key := (Simple.sale_date o, Simple.sale_sku o) in
           <[key := (default 0%Z (ordersByDateSku !! key) + Simple.qty o)%Z]>
             ordersByDateSku) ∅ orders.

(** The loop over the days for one variant. *)
Definition variantMetrics (invDaily : gmap day Z)
    (ordersByDateSku : gmap (day * JsString.t) Z) (s : JsString.t)
    (days : list day) : Metrics.t :=
  foldl (fun m d =>
           let qty := default 0%Z (invDaily !! d) in
           let sold := default 0%Z (ordersByDateSku !! (d, s)) in
           Metrics.tally (0 <? qty)%Z sold m)
        Metrics.zero days.

(** [calculateMetrics(variants, invMapByItem, orders, startDay, endDay)]. *)
Definition calculateMetrics (variants : list Simple.variant)
    (invMapByItem : gmap N (gmap day Z)) (orders : list Simple.sale)
    (startDay endDay : day) : gmap JsString.t item :=
  let days := enumerateDays (DateObj startDay) (DateObj endDay) in
  let ordersByDateSku := indexOrders orders in
  foldl (fun output v =>
           let invDaily :=
             default ∅ (invMapByItem !! Simple.inventoryItemId v) in
           <[Simple.sku v :=
               {| metrics := variantMetrics invDaily ordersByDateSku
                                            (Simple.sku v) days;
                  daily := invDaily |}]> output)
        ∅ variants.

(** The loop of the handler that fills [invMapByItem]; [adjustmentsOf] is
    what [fetchAdjustments] returns for an item. *)
Definition collectLevels (adjustmentsOf : N -> list Universal.adjustment)
    (variants : list Simple.variant) (startDay endDay : day)
  : gmap N (gmap day Z) :=
  foldl (fun invMapByItem v =>
           <[Simple.inventoryItemId v :=
               Universal.reconstructDailyLevels
                 startDay endDay (adjustmentsOf (Simple.inventoryItemId v))]>
             invMapByItem)
        ∅ variants.

(** The [items] of the handler's response. *)
Definition report (adjustmentsOf : N -> list Universal.adjustment)
    (variants : list Simple.variant) (orders : list Simple.sale)
    (startDay endDay : day) : gmap JsString.t item :=
  calculateMetrics variants
                   (collectLevels adjustmentsOf variants startDay endDay)
                   orders startDay endDay.

End UniversalReport.

(** ** The "simple" REST report: what the properties are stated with *)

Module SimpleView.
Import JsString Days Simple.

(** The quantities of the sales of the SKU of [v] dated [d], in order. *)
Definition quantitiesOn (v : variant) (d : day) (orders : list sale)
  : list Z :=
  omap (fun o => if decide (sale_sku o = sku v /\ sale_date o = d)
                 then Some (qty o) else None) orders.

End SimpleView.

(** ** More concrete inputs *)

Module MoreExamples.
Import JsString JsNumber.

(** The map read from the example sheet. *)
Definition sheetMap : gmap jsstring Sheet.SheetStat :=
  Eval vm_compute in
    match Sheet.fetchSheetBySku Examples.sheetText with
    | inr m => m
    | inl _ => ∅
    end.





(** Two pages of orders: 2 and 3 units of [HAT-1] (written with and
    without its suffix), and 4 units in an order older than the cutoff. *)
Definition salesPage1 : SalesFetch.ordersPage :=
  {| SalesFetch.edges :=
       Some [ {| SalesFetch.cursor := str "o1";
                 SalesFetch.createdAt := 100%Z;
                 SalesFetch.lineItems :=
                   [ {| SalesFetch.li_sku := Some (str "HAT-1-##");
                        SalesFetch.li_quantity := 2%Z |} ] |};
              {| SalesFetch.cursor := str "o2";
                 SalesFetch.createdAt := 5%Z;
                 SalesFetch.lineItems :=
                   [ {| SalesFetch.li_sku := Some (str "HAT-1");
                        SalesFetch.li_quantity := 4%Z |} ] |} ];
     SalesFetch.hasNextPage := true |}.

Definition salesPage2 : SalesFetch.ordersPage :=
  {| SalesFetch.edges :=
       Some [ {| SalesFetch.cursor := str "o3";
                 SalesFetch.createdAt := 120%Z;
                 SalesFetch.lineItems :=
                   [ {| SalesFetch.li_sku := Some (str " HAT-1 ");
                        SalesFetch.li_quantity := 3%Z |};
                     {| SalesFetch.li_sku := None;
                        SalesFetch.li_quantity := 9%Z |} ] |} ];
     SalesFetch.hasNextPage := false |}.

Definition salesServer : SalesFetch.upstream :=
  fun c =>
    match c with
    | None => Some salesPage1
    | Some t => if bool_decide (t = str "o2") then Some salesPage2 else None
    end.

(** What the sales fetch returns on the two pages with cutoff 50, started
    with untouched members. *)
Definition salesState : SalesFetch.state :=
  Eval vm_compute in
    match SalesFetch.fetchSalesBySku 2 salesServer 50 ∅ with
    | Fetch.Returned (st, _) => st
    | _ => {| SalesFetch.stats := ∅; SalesFetch.touched := ∅ |}
    end.

Definition salesMap : gmap jsstring Merge.SalesStat :=
  SalesFetch.stats salesState.

(** A sheet whose only data row has the SKU [constructor], with 2 days
    in stock, and the map read from it. *)
Definition memberText : jsstring :=
  str "Product variant SKU,Days in stock (at location)" ++ [JsString.LF]
  ++ str "constructor,2".

Definition memberSheet : gmap jsstring Sheet.SheetStat :=
  Eval vm_compute in
    match Sheet.fetchSheetBySku memberText with
    | inr m => m
    | inl _ => ∅
    end.

(** A history request that always throws. *)
Definition noHistory : jsstring -> option (list InventoryReport.level) :=
  fun _ => None.

(** A variant of SKU [HAT-1] in the "simple" shape, and adjustments of +5
    on day 1 for every item. *)
Definition simpleVariant : Simple.variant :=
  {| Simple.sku := str "HAT-1"; Simple.variantId := 11;
     Simple.inventoryItemId := 101 |}.

Definition plusFive : N -> list Universal.adjustment :=
  fun _ => [ {| Universal.date := 1%Z; Universal.delta := 5%Z |} ].

End MoreExamples.

(** * Properties *)

(** ** SKU normaliser *)

Section SkuFacts.
Import JsString Sku.

Lemma trimEnd_nil_or_last (s : jsstring) :
  trimEnd s = [] \/ exists c r, trimEnd s = c :: r.
Proof. destruct (trimEnd s) as [|c r]; eauto. Qed.

Lemma trimEnd_idem (s : jsstring) : trimEnd (trimEnd s) = trimEnd s.
Proof.
  induction s as [|c s IH]; simpl; [reflexivity|].
  destruct (trimEnd s) as [|d r] eqn:E.
  - destruct (is_space c) eqn:Hc; simpl; [reflexivity|]. now rewrite Hc.
  - simpl in IH |- *. now rewrite IH.
Qed.

Lemma trimEnd_all_space (s : jsstring) :
  forallb is_space s = true -> trimEnd s = [].
Proof.
  induction s as [|c s IH]; simpl; [reflexivity|].
  intros [Hc Hs]%andb_prop. now rewrite (IH Hs), Hc.
Qed.

(** What [trimEnd s = s] says of a non-empty string. *)
Lemma trimEnd_fix_cons (c : N) (s : jsstring) :
  trimEnd (c :: s) = c :: s ->
  (s = [] /\ is_space c = false) \/ (s <> [] /\ trimEnd s = s).
Proof.
  simpl. destruct (trimEnd s) as [|d r] eqn:E.
  - destruct (is_space c) eqn:Hc; [discriminate|].
    intros [= <-]. now left.
  - intros [= <-]. right. split; [discriminate | reflexivity].
Qed.

Lemma trimStart_noLeadingSpace (s : jsstring) : noLeadingSpace (trimStart s).
Proof.
  induction s as [|c s IH]; simpl; [exact I|].
  destruct (is_space c) eqn:Hc; [exact IH | exact Hc].
Qed.

Lemma trimStart_fix (s : jsstring) : noLeadingSpace s -> trimStart s = s.
Proof. destruct s as [|c s]; simpl; [reflexivity|]. now intros ->. Qed.

Lemma trimEnd_noLeadingSpace (s : jsstring) :
  noLeadingSpace s -> noLeadingSpace (trimEnd s).
Proof.
  destruct s as [|c s]; simpl; [trivial|]. intros Hc.
  destruct (trimEnd s); [now rewrite Hc | exact Hc].
Qed.

Lemma trim_spec (s : jsstring) :
  noLeadingSpace (trim s) /\ trimEnd (trim s) = trim s.
Proof.
  unfold trim. split.
  - apply trimEnd_noLeadingSpace, trimStart_noLeadingSpace.
  - apply trimEnd_idem.
Qed.

Lemma trim_fix (s : jsstring) :
  noLeadingSpace s -> trimEnd s = s -> trim s = s.
Proof. intros H1 H2. unfold trim. now rewrite (trimStart_fix s H1). Qed.

Lemma strip_suffix_nil (s : jsstring) :
  strip_suffix s = [] -> s = [] \/ suffix_matches s = true.
Proof.
  destruct s as [|c s]; [now left|]. right.
  cbn [strip_suffix] in H.
  destruct (suffix_matches (c :: s)); [reflexivity | discriminate].
Qed.

Lemma strip_suffix_noLeadingSpace (s : jsstring) :
  noLeadingSpace s -> noLeadingSpace (strip_suffix s).
Proof.
  destruct s as [|c s]; cbn [strip_suffix]; [now destruct (suffix_matches [])|].
  intros Hc. now destruct (suffix_matches (c :: s)).
Qed.

(** The cut made by the leftmost match leaves no trailing white space. *)
Lemma strip_suffix_trimEnd (s : jsstring) :
  trimEnd s = s -> trimEnd (strip_suffix s) = strip_suffix s.
Proof.
  induction s as [|c s IH]; [reflexivity|].
  intros H. cbn [strip_suffix].
  destruct (suffix_matches (c :: s)) eqn:Hm; [reflexivity|].
  destruct (trimEnd_fix_cons c s H) as [[-> Hc] | [Hne Hs]].
  - simpl. now rewrite Hc.
  - specialize (IH Hs). cbn [trimEnd]. rewrite IH.
    destruct (strip_suffix s) as [|d r] eqn:E; [|reflexivity].
    destruct (strip_suffix_nil s E) as [-> | Hs']; [contradiction|].
    cbn [suffix_matches] in Hm.
    destruct (is_space c); [congruence | reflexivity].
Qed.

Lemma strip_suffix_fix_iff (s : jsstring) :
  strip_suffix s = s <-> anyMatch s = false.
Proof.
  induction s as [|c s IH]; [simpl; tauto|].
  cbn [strip_suffix anyMatch].
  destruct (suffix_matches (c :: s)); cbn [orb].
  - split; discriminate.
  - rewrite <- IH. split; [now intros [= ->] | now intros ->].
Qed.

Lemma after_hash_trimmed (s : jsstring) :
  s = [] \/ trimEnd s = s ->
  after_hash s = forallb (fun h => h =? hash) s.
Proof.
  induction s as [|c s IH]; [reflexivity|].
  intros [|H]; [discriminate|].
  change (forallb (fun h => h =? hash) (c :: s))
    with ((c =? hash) && forallb (fun h => h =? hash) s).
  cbn [after_hash].
  destruct (c =? hash) eqn:Hc; cbn [andb].
  - apply IH. destruct (trimEnd_fix_cons c s H) as [[-> _] | [_ Hs]]; auto.
  - destruct (forallb is_space (c :: s)) eqn:Hsp; [|reflexivity].
    apply trimEnd_all_space in Hsp. congruence.
Qed.

Lemma anyMatch_trimmed (s : jsstring) :
  s = [] \/ trimEnd s = s -> anyMatch s = endsHyphenHashes s.
Proof.
  induction s as [|c s IH]; [reflexivity|].
  intros [|H]; [discriminate|].
  assert (Hs : s = [] \/ trimEnd s = s)
    by (destruct (trimEnd_fix_cons c s H) as [[-> _] | [_ Hs]]; auto).
  cbn [anyMatch endsHyphenHashes suffix_matches]. rewrite (IH Hs).
  destruct (is_space c) eqn:Hsp.
  - assert ((c =? hyphen) = false) as ->
      by (apply N.eqb_neq; intros ->; discriminate).
    cbn [andb orb]. rewrite <- (IH Hs).
    destruct s as [|d r]; [reflexivity|]. cbn [anyMatch].
    now destruct (suffix_matches (d :: r)).
  - f_equal. destruct (c =? hyphen); [|reflexivity]. cbn [andb].
    unfold after_hyphen. destruct s as [|d r]; [reflexivity|].
    cbn [JsString.truthy forallb andb]. f_equal. apply after_hash_trimmed.
    destruct (trimEnd_fix_cons d r) as [[-> _] | [_ Hr]]; auto.
    destruct Hs as [|Hs]; [discriminate | exact Hs].
Qed.

(** The normal form of a SKU is trimmed. *)
Lemma normaliseSku_trimmed (x y : jsstring) :
  normaliseSku (Some x) = Some y -> trim y = y.
Proof.
  unfold normaliseSku. destruct (JsString.truthy x); [|discriminate].
  intros [= <-]. destruct (trim_spec x) as [H1 H2].
  apply trim_fix.
  - now apply strip_suffix_noLeadingSpace.
  - now apply strip_suffix_trimEnd.
Qed.

(** The documented examples that the code meets. *)
Lemma normaliseSku_documented_examples :
  normaliseSku (Some (str "HAT-053-##")) = Some (str "HAT-053")
  /\ normaliseSku (Some (str "50002")) = Some (str "50002")
  /\ normaliseSku (Some (str "")) = None
  /\ normaliseSku None = None.
Proof. repeat split; reflexivity. Qed.

(** C5: the documented example ["CUS-0028   ##" -> "CUS-0028"] is not met.
    The pattern requires the hyphen, so a run of [#] that follows white
    space without a hyphen is not a match and the SKU comes back with its
    suffix, only trimmed. *)
Theorem normaliseSku_hashes_without_hyphen_kept :
  normaliseSku (Some (str "CUS-0028   ##")) = Some (str "CUS-0028   ##")
  /\ normaliseSku (Some (str "CUS-0028   ##")) <> Some (str "CUS-0028").
Proof. split; [reflexivity | discriminate]. Qed.

(** With the hyphen present the white space before it goes as well. *)
Lemma normaliseSku_spaces_then_hyphen :
  normaliseSku (Some (str "CUS-0028   -##")) = Some (str "CUS-0028").
Proof. reflexivity. Qed.

(** C6, as stated, fails: a SKU carrying two suffixes loses one of them on
    each pass. *)
Lemma normaliseSku_second_pass_strips_more :
  normaliseSku (normaliseSku (Some (str "HAT-053-#-##")))
  <> normaliseSku (Some (str "HAT-053-#-##")).
Proof. discriminate. Qed.

(** A SKU that is nothing but a suffix normalises to the empty string,
    which a second pass turns into [null]. *)
Lemma normaliseSku_bare_suffix :
  normaliseSku (Some (str "-##")) = Some []
  /\ normaliseSku (normaliseSku (Some (str "-##"))) = None.
Proof. split; reflexivity. Qed.

(** C6, amended: a second pass changes nothing exactly when the first
    result is [null], or is a non-empty string that does not end with a
    hyphen followed by one or more [#]. *)
Theorem normaliseSku_idempotent_iff (x : option jsstring) :
  normaliseSku (normaliseSku x) = normaliseSku x <->
  match normaliseSku x with
  | None => True
  | Some y => y <> [] /\ endsHyphenHashes y = false
  end.
Proof.
  destruct (normaliseSku x) as [y|] eqn:E; [|simpl; tauto].
  assert (Ht : trim y = y).
  { destruct x as [x|]; [|discriminate]. exact (normaliseSku_trimmed x y E). }
  assert (He : y = [] \/ trimEnd y = y).
  { right. unfold trim in Ht.
    rewrite <- Ht at 2. rewrite <- Ht at 1. apply trimEnd_idem. }
  unfold normaliseSku. destruct y as [|c y]; cbn [JsString.truthy].
  - split; [discriminate | intros [[] _]; reflexivity].
  - rewrite Ht. rewrite <- (anyMatch_trimmed _ He), <- strip_suffix_fix_iff.
    split.
    + intros [= H]. split; [discriminate | exact H].
    + intros [_ H]. now rewrite H.
Qed.

End SkuFacts.

(** ** CSV parser *)

Section CsvFacts.
Import JsString Csv.

(** Outside quotes a comma ends a field and a line end ends a row; both
    line-end forms and a blank line are handled. *)
Lemma parseCsv_rows_and_fields :
  parseCsv (str "a,b" ++ [CR; LF] ++ str "c,,d" ++ [LF; LF] ++ str "e,")
  = [[str "a"; str "b"]; [str "c"; str ""; str "d"]; [str "e"; str ""]].
Proof. reflexivity. Qed.

(** C9: the quoted field [a,b] [quote quote] [c], enclosed in quotes, is one
    row of one field, the text [a,b] [quote] [c]: the comma stays in the
    field and the doubled quote becomes a single one. *)
Theorem parseCsv_quoted_field :
  parseCsv ([dquote] ++ str "a,b" ++ [dquote; dquote] ++ str "c" ++ [dquote])
  = [[str "a,b" ++ [dquote] ++ str "c"]].
Proof. reflexivity. Qed.

(** Inside quotes a doubled quote always adds one quote to the field and
    consumes both characters. *)
Lemma scan_doubled_quote (rest : jsstring) (st : state) :
  inQuotes st = true ->
  scan (dquote :: dquote :: rest) st
  = scan rest {| rows := rows st; row := row st;
                 field := field st ++ [dquote]; inQuotes := true |}.
Proof.
  intros H. cbn [scan head]. unfold step. rewrite H.
  rewrite N.eqb_refl, bool_decide_eq_true_2 by reflexivity.
  reflexivity.
Qed.

(** Inside quotes a comma is an ordinary character. *)
Lemma scan_quoted_comma (rest : jsstring) (st : state) :
  inQuotes st = true ->
  scan (comma :: rest) st
  = scan rest {| rows := rows st; row := row st;
                 field := field st ++ [comma]; inQuotes := true |}.
Proof.
  intros H. cbn [scan]. unfold step. rewrite H. cbn. reflexivity.
Qed.

(** Inside quotes every other character is added to the field. *)
Lemma scan_quoted_char (c : N) (rest : jsstring) (st : state) :
  inQuotes st = true -> c <> dquote ->
  scan (c :: rest) st
  = scan rest {| rows := rows st; row := row st;
                 field := field st ++ [c]; inQuotes := true |}.
Proof.
  intros H Hc. cbn [scan]. unfold step. rewrite H.
  apply N.eqb_neq in Hc. rewrite Hc. cbn [andb negb].
  rewrite !andb_false_r. reflexivity.
Qed.

(** The body of a quoted field is read back as the field. *)
Lemma scan_quoted_body (f rest : jsstring) (st : state) :
  inQuotes st = true ->
  scan (flat_map (fun c => if c =? dquote then [dquote; dquote] else [c]) f
        ++ rest) st
  = scan rest {| rows := rows st; row := row st;
                 field := field st ++ f; inQuotes := true |}.
Proof.
  revert st. induction f as [|c f IH]; intros st H.
  - cbn [flat_map app]. rewrite app_nil_r. now destruct st; cbn in *; subst.
  - cbn [flat_map]. rewrite <- app_assoc.
    destruct (N.eqb_spec c dquote) as [-> | Hc]; cbn [app].
    + rewrite scan_doubled_quote by exact H. rewrite IH by reflexivity.
      cbn. now rewrite <- app_assoc.
    + rewrite scan_quoted_char by assumption. rewrite IH by reflexivity.
      cbn. now rewrite <- app_assoc.
Qed.

(** Round trip of a quoted field: a text made of one non-empty field in
    quotes parses to one row holding that field, whatever commas, quotes
    and line ends the field contains. *)
Lemma parseCsv_quoted_roundtrip (f : jsstring) :
  f <> [] -> parseCsv (quoted f) = [[f]].
Proof.
  intros Hf. unfold parseCsv, quoted.
  change (scan (dquote :: ?t) init)
    with (scan t {| rows := []; row := []; field := []; inQuotes := true |}).
  rewrite scan_quoted_body by reflexivity. cbn.
  destruct f; [contradiction | reflexivity].
Qed.

End CsvFacts.

(** ** Merge of sales and sheet *)

Section MergeFacts.
Import JsString JsNumber Sheet Proto Merge.

Lemma gt0_Num (q : Q) : gt0 (Num q) = true <-> (0 < q)%Q.
Proof.
  unfold gt0. rewrite negb_true_iff, <- not_true_iff_false, Qle_bool_iff.
  split; [apply Qnot_le_lt | apply Qlt_not_le].
Qed.

Lemma gt0_inv (x : number) :
  gt0 x = true ->
  x = Inf false
  \/ exists q, x = Num q /\ (0 < q)%Q /\ Qeq_bool q 0 = false.
Proof.
  destruct x as [|[|]|q]; try discriminate; [now left|].
  intros H%gt0_Num. right.
  exists q. repeat split; [exact H|].
  apply not_true_iff_false. rewrite Qeq_bool_iff. intros E.
  rewrite E in H. exact (Qlt_irrefl 0 H).
Qed.

Lemma gt0_zero : gt0 zero = false.
Proof. reflexivity. Qed.

(** A divisor that passed the guard [> 0] is not zero. *)
Lemma div_guarded (x y : number) : gt0 y = true -> is_Some (div x y).
Proof.
  intros [-> | (q & -> & _ & Hq)]%gt0_inv; unfold div.
  - destruct x; eauto.
  - rewrite Hq. destruct x; eauto.
Qed.

(** The default [|| 0] changes no sum that passes the guard [> 0]. *)
Lemma orZero_gt0 (x : number) :
  gt0 (orZero x) = gt0 x /\ (gt0 x = true -> orZero x = x).
Proof.
  unfold orZero. destruct (truthy x) eqn:Ht; [now split|].
  destruct x as [|s|q]; try discriminate; [now split|].
  cbn in Ht. apply negb_false_iff, Qeq_bool_iff in Ht.
  assert (Hg : gt0 (Num q) = false).
  { apply not_true_iff_false. rewrite gt0_Num, Ht. apply Qlt_irrefl. }
  rewrite Hg. now split.
Qed.

(** Under the guard the quotient of the specification is the one the code
    computes. *)
Lemma quotient_guarded (x y : number) :
  gt0 y = true -> Some <$> div x y = Some (Some (Spec.quotient x y)).
Proof.
  intros Hy. unfold Spec.quotient.
  now destruct (div_guarded x y Hy) as [v ->].
Qed.

(** The rate the code computes is the rate of the specification. *)
Lemma inStockRate_refines (sheet : object SheetStat) :
  inStockRate sheet
  = Some (Spec.inStockRate (toNumber (field days_in_stock_24m sheet))
                           (toNumber (field days_out_of_stock_24m sheet))).
Proof.
  unfold inStockRate, totalDays, Spec.inStockRate. cbv zeta.
  set (s := add _ _). destruct (orZero_gt0 s) as [Hg Hs]. rewrite Hg.
  destruct (gt0 s) eqn:E; [|reflexivity].
  rewrite (Hs eq_refl). now apply quotient_guarded.
Qed.

(** The velocity the code computes is the one of the specification. *)
Lemma velocityInStock_refines (g : realm) (k : jsstring)
    (sales : object SalesStat) (sheet : object SheetStat) :
  velocityInStock g k sales sheet
  = Some (Spec.velocityInStock (toNumber (salesTotal g k sales))
                               (toNumber (field days_in_stock_24m sheet))).
Proof.
  unfold velocityInStock, Spec.velocityInStock.
  destruct (gt0 _) eqn:E; [|reflexivity]. now apply quotient_guarded.
Qed.

(** The entry built for a SKU, with both ratios in closed form. *)
Lemma mergeEntry_eq (g : realm) (k : jsstring)
    (salesStats : gmap jsstring SalesStat)
    (sheetStats : gmap jsstring SheetStat) :
  let sales := salesOrDefault k salesStats in
  let sheet := sheetOrDefault k sales sheetStats in
  mergeEntry g k salesStats sheetStats =
  Some {| m_sku_norm := k;
          m_sku_raw := orElseO (field sku_raw sheet)
                               (orElseO (field any_raw_sku sales) k);
          m_product_title := field product_title sheet;
          m_variant_title := field variant_title sheet;
          m_abc_grade := field abc_grade sheet;
          m_total_sold_24m := salesTotal g k sales;
          m_days_in_stock_24m := field days_in_stock_24m sheet;
          m_days_out_of_stock_24m := field days_out_of_stock_24m sheet;
          in_stock_rate_24m :=
            Spec.inStockRate (toNumber (field days_in_stock_24m sheet))
                             (toNumber (field days_out_of_stock_24m sheet));
          velocity_in_stock_24m :=
            Spec.velocityInStock (toNumber (salesTotal g k sales))
                                 (toNumber (field days_in_stock_24m sheet));
          m_inventory_units_sold_csv := field inventory_units_sold_csv sheet;
          m_sell_through_rate_csv := field sell_through_rate_csv sheet;
          m_percent_inventory_sold_csv :=
            field percent_inventory_sold_csv sheet |}.
Proof.
  intros sales sheet. unfold mergeEntry. fold sales. fold sheet.
  rewrite inStockRate_refines, velocityInStock_refines. reflexivity.
Qed.

(** The loop over the keys: every key but [__proto__] gets its entry, no
    other key any. *)
Lemma merge_loop (g : realm) (salesStats : gmap jsstring SalesStat)
    (sheetStats : gmap jsstring SheetStat) (ks : list jsstring)
    (acc : gmap jsstring Item) :
  exists items,
    foldl (fun acc k =>
             items ← acc;
             item ← mergeEntry g k salesStats sheetStats;
             Some (assign k item items)) (Some acc) ks = Some items
    /\ forall k,
         items !! k =
         if bool_decide (k ∈ ks /\ k <> str "__proto__")
         then mergeEntry g k salesStats sheetStats
         else acc !! k.
Proof.
  revert acc. induction ks as [|k0 ks IH]; intros acc.
  - exists acc. split; [reflexivity|]. intros k.
    rewrite bool_decide_eq_false_2; [reflexivity|].
    intros [H _]. now apply not_elem_of_nil in H.
  - destruct (mergeEntry g k0 salesStats sheetStats) as [item|] eqn:E;
      [|pose proof (mergeEntry_eq g k0 salesStats sheetStats);
        simpl in *; congruence].
    cbn [foldl]. cbn [mbind option_bind]. rewrite E. cbn [mbind option_bind].
    destruct (IH (assign k0 item acc)) as (items & Hfold & Hlook).
    exists items. split; [exact Hfold|]. intros k. rewrite Hlook.
    destruct (decide (k ∈ ks /\ k <> str "__proto__")) as [Hin | Hnin].
    + rewrite !bool_decide_eq_true_2; [reflexivity | | exact Hin].
      split; [now right | apply Hin].
    + rewrite (bool_decide_eq_false_2 _ Hnin). unfold assign.
      destruct (decide (k = k0)) as [-> | Hne].
      * case_bool_decide as Hp.
        -- rewrite bool_decide_eq_false_2; [reflexivity|]. now intros [_ ?].
        -- rewrite lookup_insert_eq, bool_decide_eq_true_2;
             [now rewrite E | split; [left | exact Hp]].
      * assert (Hacc : (if bool_decide (k0 = str "__proto__") then acc
                        else <[k0 := item]> acc) !! k = acc !! k).
        { case_bool_decide; [reflexivity|].
          now rewrite lookup_insert_ne by congruence. }
        rewrite Hacc. rewrite bool_decide_eq_false_2; [reflexivity|].
        intros [[? | ?]%elem_of_cons ?]; [contradiction | tauto].
Qed.

(** The merge in closed form. *)
Lemma mergeSalesAndSheet_lookup (g : realm)
    (salesStats : gmap jsstring SalesStat)
    (sheetStats : gmap jsstring SheetStat) :
  exists items,
    mergeSalesAndSheet g salesStats sheetStats = Some items
    /\ forall k,
         items !! k =
         if bool_decide (k ∈ dom salesStats ∪ dom sheetStats
                         /\ k <> str "__proto__")
         then mergeEntry g k salesStats sheetStats
         else None.
Proof.
  destruct (merge_loop g salesStats sheetStats
                       (allSkus salesStats sheetStats) ∅)
    as (items & Hfold & Hlook).
  exists items. split; [exact Hfold|]. intros k. rewrite Hlook, lookup_empty.
  unfold allSkus.
  rewrite (bool_decide_ext
             (k ∈ elements (dom salesStats ∪ dom sheetStats)
              /\ k <> str "__proto__")
             (k ∈ dom salesStats ∪ dom sheetStats /\ k <> str "__proto__"));
    [reflexivity|].
  now rewrite elem_of_elements.
Qed.

(** What [sales] and [sheet] are for a SKU, by the entries of the SKU. *)
Lemma salesOrDefault_cases (g : realm) (k : jsstring)
    (salesStats : gmap jsstring SalesStat) :
  salesTotal g k (salesOrDefault k salesStats)
  = match salesStats !! k with
    | Some s => Defined (total_sold_24m s)
    | None => if inherited k then memberTotal g k else Defined zero
    end.
Proof.
  unfold salesOrDefault, get.
  destruct (salesStats !! k); [reflexivity|]. now destruct (inherited k).
Qed.

Lemma sheetOrDefault_cases (k : jsstring) (sales : object SalesStat)
    (sheetStats : gmap jsstring SheetStat) :
  field days_in_stock_24m (sheetOrDefault k sales sheetStats)
  = match sheetStats !! k with
    | Some r => Defined (days_in_stock_24m r)
    | None => if inherited k then Undefined else Defined zero
    end
  /\ field days_out_of_stock_24m (sheetOrDefault k sales sheetStats)
     = match sheetStats !! k with
       | Some r => Defined (days_out_of_stock_24m r)
       | None => if inherited k then Undefined else Defined zero
       end.
Proof.
  unfold sheetOrDefault, get.
  destruct (sheetStats !! k); [now split|]. now destruct (inherited k).
Qed.


(** The sum of two zero day counts is not positive. *)
Lemma inStockRate_zero_days : Spec.inStockRate zero zero = None.
Proof. reflexivity. Qed.


(** The classification of a real number. *)
Lemma fromQ_cases (q : Q) :
  (fromQ q = Inf (negativeQ q) /\ (overflowAt <= Qabs q)%Q)
  \/ (fromQ q = Num 0 /\ (Qabs q <= underflowAt)%Q)
  \/ (fromQ q = Num q /\ (underflowAt < Qabs q)%Q
      /\ (Qabs q < overflowAt)%Q).
Proof.
  unfold fromQ.
  destruct (Qle_bool overflowAt (Qabs q)) eqn:Ho.
  - left. split; [reflexivity | now apply Qle_bool_iff].
  - destruct (Qle_bool (Qabs q) underflowAt) eqn:Hu.
    + right. left. split; [reflexivity | now apply Qle_bool_iff].
    + right. right. split; [reflexivity|]. split.
      * apply Qnot_le_lt. rewrite <- Qle_bool_iff. now rewrite Hu.
      * apply Qnot_le_lt. rewrite <- Qle_bool_iff. now rewrite Ho.
Qed.

Lemma overflowAt_above_one : (1 < overflowAt)%Q.
Proof. reflexivity. Qed.

Lemma underflowAt_positive : (0 < underflowAt)%Q.
Proof. reflexivity. Qed.






End MergeFacts.

(** ** Numeric cells of the sheet *)

Section SheetFacts.
Import JsString JsNumber Sheet.

(** A non-empty count cell is read as the number it parses to. *)
Lemma countCell_nonempty (s : jsstring) :
  s <> [] -> countCell (Some s) = StringToNumber s.
Proof. destruct s; [contradiction | reflexivity]. Qed.

(** An empty or absent count cell is read as zero. *)
Lemma countCell_blank (c : option jsstring) :
  c = None \/ c = Some [] -> countCell c = zero.
Proof. now intros [-> | ->]. Qed.

(** A percentage cell that does not parse is read as [null]. *)
Lemma percentCell_unparseable (c : option jsstring) :
  StringToNumber (removeFirstPercent (toString c)) = NaN ->
  percentCell c = None.
Proof. unfold percentCell. now intros ->. Qed.

(** A percentage cell is [null] or a number other than zero: the [|| null]
    of the code sends [NaN] and zero alike to [null]. *)
Lemma percentCell_never_zero (c : option jsstring) (x : number) :
  percentCell c = Some x -> truthy x = true.
Proof.
  unfold percentCell, orNull.
  destruct (truthy (StringToNumber _)) eqn:E; [|discriminate].
  now intros [= <-].
Qed.

(** The record of a kept row holds the five cells as read. *)
Lemma readRow_fields (cols : columns) (row : list jsstring) (k : jsstring)
    (r : SheetStat) :
  readRow cols row = Some (k, r) ->
  days_in_stock_24m r = readDaysInStock cols row
  /\ days_out_of_stock_24m r = readDaysOutOfStock cols row
  /\ inventory_units_sold_csv r = readInventoryUnitsSold cols row
  /\ sell_through_rate_csv r = readSellThroughRate cols row
  /\ percent_inventory_sold_csv r = readPercentInventorySold cols row.
Proof.
  unfold readRow. destruct (JsString.truthy _); [|discriminate].
  destruct (Sku.normaliseSku _) as [skuNorm|]; [|discriminate].
  destruct (JsString.truthy skuNorm); [|discriminate].
  intros [= _ <-]. repeat split.
Qed.

(** C8, amended: in the record of a row, a percentage cell that does not
    parse is [null]; a non-empty count cell (days in stock, days out of
    stock, inventory units sold) is the number it parses to, so that zero
    stays zero and an unparseable cell is [NaN]; an empty or absent count
    cell is zero. *)
Theorem readRow_numeric_fields (cols : columns) (row : list jsstring)
    (k : jsstring) (r : SheetStat) :
  readRow cols row = Some (k, r) ->
  (forall i, sellThroughRate cols = Some i ->
     StringToNumber (removeFirstPercent (toString (cell row i))) = NaN ->
     sell_through_rate_csv r = None)
  /\ (forall i, percentInventorySold cols = Some i ->
        StringToNumber (removeFirstPercent (toString (cell row i))) = NaN ->
        percent_inventory_sold_csv r = None)
  /\ (forall i s, cell row i = Some s -> s <> [] ->
        (daysInStock cols = Some i ->
           days_in_stock_24m r = StringToNumber s)
        /\ (daysOutOfStock cols = Some i ->
              days_out_of_stock_24m r = StringToNumber s)
        /\ (inventoryUnitsSold cols = Some i ->
              inventory_units_sold_csv r = Some (StringToNumber s)))
  /\ (forall i, cell row i = None \/ cell row i = Some [] ->
        (daysInStock cols = Some i -> days_in_stock_24m r = zero)
        /\ (daysOutOfStock cols = Some i -> days_out_of_stock_24m r = zero)
        /\ (inventoryUnitsSold cols = Some i ->
              inventory_units_sold_csv r = Some zero)).
Proof.
  intros (H1 & H2 & H3 & H4 & H5)%readRow_fields.
  rewrite H1, H2, H3, H4, H5.
  unfold readDaysInStock, readDaysOutOfStock, readInventoryUnitsSold,
    readSellThroughRate, readPercentInventorySold.
  split; [|split; [|split]].
  - intros i -> Hnan. now apply percentCell_unparseable.
  - intros i -> Hnan. now apply percentCell_unparseable.
  - intros i s Hc Hs. rewrite <- (countCell_nonempty s Hs), <- Hc.
    repeat split; now intros ->.
  - intros i Hc. pose proof (countCell_blank _ Hc) as Hz.
    repeat split; intros ->; now rewrite Hz.
Qed.

(** Witness of [readRow_numeric_fields]: the first data row of the example
    sheet is kept, and its blank days-out-of-stock cell reads zero. *)
Lemma readRow_numeric_fields_witness :
  exists r,
    readRow (findColumns Examples.sheetHeader) Examples.sheetRow1
    = Some (str "HAT-1", r)
    /\ days_out_of_stock_24m r = zero.
Proof.
  eexists. split; [reflexivity|].
  refine (proj1 (proj2 (proj2 (proj2 (proj2
    (readRow_numeric_fields (findColumns Examples.sheetHeader)
       Examples.sheetRow1 (str "HAT-1") _ eq_refl))) 2%nat _)) _).
  - right. reflexivity.
  - reflexivity.
Defined.

(** C8, as stated, fails on the example sheet.  In the record of its first
    data row the unreadable days-in-stock cell is [NaN] rather than [null],
    the blank days-out-of-stock cell is zero, so that "unreported" and
    "reported as zero" coincide there, and the sell-through rate of zero
    percent is [null] rather than zero. *)
Lemma sheet_cells_conflated :
  match fetchSheetBySku Examples.sheetText with
  | inr bySku =>
      (fun r => (days_in_stock_24m r, days_out_of_stock_24m r,
                 inventory_units_sold_csv r, sell_through_rate_csv r))
        <$> bySku !! str "HAT-1"
      = Some (NaN, zero, Some zero, None)
  | inl _ => False
  end.
Proof. vm_compute. reflexivity. Qed.

End SheetFacts.

(** ** Calendar days and ordered objects *)

Section ListFacts.
Context {A B : Type}.

Lemma elem_of_rev (x : A) (l : list A) : x ∈ rev l <-> x ∈ l.
Proof. rewrite !list_elem_of_In. symmetry. apply in_rev. Qed.

Lemma fmap_rev (f : A -> B) (l : list A) : f <$> rev l = rev (f <$> l).
Proof.
  induction l as [|x l IH]; [reflexivity|].
  cbn. now rewrite fmap_app, IH.
Qed.



End ListFacts.

Section DayFacts.
Import Days.

(** With a [Date] as upper bound the loop lists the days up to it. *)
Lemma daysLoop_date (fuel : nat) (d e : day) :
  (Z.to_nat (e - d + 1) <= fuel)%nat ->
  daysLoop fuel d (DateObj e) = seqZ d (e - d + 1).
Proof.
  revert d. induction fuel as [|fuel IH]; intros d Hfuel; cbn [daysLoop dateLe].
  - rewrite seqZ_nil; [reflexivity | lia].
  - destruct (Z.leb_spec d e) as [Hle | Hgt].
    + rewrite (seqZ_cons d) by lia. f_equal.
      rewrite IH by lia. f_equal; lia.
    + rewrite seqZ_nil; [reflexivity | lia].
Qed.

(** With a text as upper bound the loop condition is false at once. *)
Lemma daysLoop_text (fuel : nat) (d e : day) :
  daysLoop fuel d (DateStr e) = [].
Proof. now destruct fuel. Qed.

Lemma enumerateDays_date (start : bound) (e : day) :
  enumerateDays start (DateObj e)
  = seqZ (toDate start) (e - toDate start + 1).
Proof. unfold enumerateDays, daysFuel. now apply daysLoop_date. Qed.

Lemma enumerateDays_text (start : bound) (e : day) :
  enumerateDays start (DateStr e) = [].
Proof. apply daysLoop_text. Qed.

Lemma enumerateDays_NoDup (start end_ : bound) :
  NoDup (enumerateDays start end_).
Proof.
  destruct end_ as [e | e].
  - rewrite enumerateDays_date. apply NoDup_seqZ.
  - rewrite enumerateDays_text. constructor.
Qed.

(** The number of days between two dates, both included. *)
Lemma enumerateDays_length (s e : day) :
  Z.of_nat (length (enumerateDays (DateObj s) (DateObj e)))
  = Sums.windowLength s e.
Proof.
  rewrite enumerateDays_date, length_seqZ. unfold Sums.windowLength. cbn. lia.
Qed.

Lemma elem_of_enumerateDays (s e d : day) :
  d ∈ enumerateDays (DateObj s) (DateObj e) <-> (s <= d <= e)%Z.
Proof. rewrite enumerateDays_date, elem_of_seqZ. cbn. lia. Qed.

End DayFacts.

Section ObjectFacts.
Import Days JsObject.
Context {V : Type}.
Implicit Types (o : JsObject.t V) (k d : day) (v : V).

Lemma get_set_eq o k v : get k (set k v o) = Some v.
Proof.
  induction o as [|[k' v'] o IH]; cbn.
  - now rewrite Z.eqb_refl.
  - destruct (Z.eqb_spec k k') as [-> | Hne]; cbn.
    + now rewrite Z.eqb_refl.
    + destruct (Z.eqb_spec k k'); [contradiction | exact IH].
Qed.

Lemma get_set_ne o k d v : d <> k -> get d (set k v o) = get d o.
Proof.
  intros Hne. induction o as [|[k' v'] o IH]; cbn.
  - destruct (Z.eqb_spec d k); [contradiction | reflexivity].
  - destruct (Z.eqb_spec k k') as [-> | Hne']; cbn.
    + destruct (Z.eqb_spec d k'); [contradiction | reflexivity].
    + destruct (Z.eqb_spec d k'); [reflexivity | exact IH].
Qed.

(** Assigning to an existing property keeps the keys and their order. *)
Lemma keys_set_in o k v : k ∈ keys o -> keys (set k v o) = keys o.
Proof.
  unfold keys. induction o as [|[k' v'] o IH]; cbn.
  - intros []%elem_of_nil.
  - intros Hin. destruct (Z.eqb_spec k k') as [-> | Hne]; [reflexivity|].
    cbn. f_equal. apply IH.
    apply elem_of_cons in Hin as [? | ?]; [contradiction | assumption].
Qed.

(** Assigning to a new property appends its key. *)
Lemma keys_set_notin o k v : k ∉ keys o -> keys (set k v o) = keys o ++ [k].
Proof.
  unfold keys. induction o as [|[k' v'] o IH]; cbn; [reflexivity|].
  intros Hnin. apply not_elem_of_cons in Hnin as [Hne Hnin].
  destruct (Z.eqb_spec k k'); [contradiction|]. cbn. f_equal. now apply IH.
Qed.

Lemma get_None_notin o k : get k o = None <-> k ∉ keys o.
Proof.
  unfold keys. induction o as [|[k' v'] o IH]; cbn.
  - split; [intros _; apply not_elem_of_nil | reflexivity].
  - rewrite not_elem_of_cons. destruct (Z.eqb_spec k k') as [-> | Hne].
    + split; [discriminate | intros [[] _]; reflexivity].
    + rewrite IH. tauto.
Qed.

(** The loop that creates one property per day. *)
Lemma keys_init (l : list day) v o :
  NoDup l -> (forall d, d ∈ l -> d ∉ keys o) ->
  keys (foldl (fun inv d => set d v inv) o l) = keys o ++ l.
Proof.
  revert o. induction l as [|d l IH]; intros o Hnd Hdis; cbn [foldl].
  - now rewrite app_nil_r.
  - apply NoDup_cons in Hnd as [Hd Hnd].
    rewrite IH; [|exact Hnd|].
    + rewrite keys_set_notin by (apply Hdis; left). now rewrite <- app_assoc.
    + intros d' Hd'. rewrite keys_set_notin by (apply Hdis; left).
      rewrite elem_of_app, list_elem_of_singleton.
      intros [Hin | ->]; [|contradiction].
      revert Hin. apply Hdis. now right.
Qed.

End ObjectFacts.

(** ** Backward reconstruction *)

Section BackwardFacts.
Import Days JsObject Simple Sums.

Lemma backward_running (sales : gmap day Z) (l : list day)
    (inv : JsObject.t Z) (run : Z) :
  snd (foldl (backward sales) (inv, run) l)
  = (run + sumZ (soldOn sales <$> l))%Z.
Proof.
  revert inv run. induction l as [|d l IH]; intros inv run; cbn.
  - lia.
  - rewrite IH. unfold sumZ. lia.
Qed.

Lemma backward_untouched (sales : gmap day Z) (l : list day)
    (inv : JsObject.t Z) (run : Z) (d : day) :
  d ∉ l -> get d (fst (foldl (backward sales) (inv, run) l)) = get d inv.
Proof.
  revert inv run. induction l as [|d' l IH]; intros inv run Hnin; cbn.
  - reflexivity.
  - apply not_elem_of_cons in Hnin as [Hne Hnin].
    rewrite IH by exact Hnin. now apply get_set_ne.
Qed.

Lemma backward_keys (sales : gmap day Z) (l : list day)
    (inv : JsObject.t Z) (run : Z) :
  (forall d, d ∈ l -> d ∈ keys inv) ->
  keys (fst (foldl (backward sales) (inv, run) l)) = keys inv.
Proof.
  revert inv run. induction l as [|d l IH]; intros inv run Hin; cbn.
  - reflexivity.
  - rewrite IH.
    + apply keys_set_in, Hin. left.
    + intros d' Hd'. rewrite keys_set_in by (apply Hin; left).
      apply Hin. now right.
Qed.

(** The day visited after the days of [before] gets the running total
    reached there. *)
Lemma backward_assigns (sales : gmap day Z) (before after : list day)
    (inv : JsObject.t Z) (run : Z) (d : day) :
  d ∉ after ->
  get d (fst (foldl (backward sales) (inv, run) (before ++ d :: after)))
  = Some (run + sumZ (soldOn sales <$> before))%Z.
Proof.
  intros Hnin. rewrite foldl_app. cbn [foldl].
  destruct (foldl (backward sales) (inv, run) before) as [inv' run'] eqn:E.
  assert (Hrun : run' = (run + sumZ (soldOn sales <$> before))%Z).
  { change run' with (snd (inv', run')). rewrite <- E. apply backward_running. }
  cbn [backward]. rewrite backward_untouched by exact Hnin.
  rewrite get_set_eq. now rewrite Hrun.
Qed.

(** The series has one entry per day of the window, in order. *)
Lemma reconstructDailyInventory_keys (startDay endDay : bound) (finalQty : Z)
    (salesForSku : gmap day Z) :
  keys (reconstructDailyInventory startDay endDay finalQty salesForSku)
  = enumerateDays startDay endDay.
Proof.
  unfold reconstructDailyInventory.
  assert (Hinit : keys (foldl (fun inv d => set d 0%Z inv) []
                              (enumerateDays startDay endDay))
                  = enumerateDays startDay endDay).
  { rewrite keys_init; [reflexivity | apply enumerateDays_NoDup|].
    intros d _. apply not_elem_of_nil. }
  rewrite backward_keys; [exact Hinit|].
  intros d Hd. rewrite Hinit. now apply elem_of_rev.
Qed.

Lemma sumZ_app (l1 l2 : list Z) : sumZ (l1 ++ l2) = (sumZ l1 + sumZ l2)%Z.
Proof. unfold sumZ. induction l1 as [|x l1 IH]; cbn; lia. Qed.

Lemma sumZ_rev (l : list Z) : sumZ (rev l) = sumZ l.
Proof.
  induction l as [|x l IH]; cbn; [reflexivity|].
  rewrite sumZ_app, IH. unfold sumZ. cbn. lia.
Qed.

(** The backward rule in closed form: a day of the window gets the final
    quantity plus the units sold on the days after it. *)
Lemma reconstructDailyInventory_closed_form (s e d : day) (finalQty : Z)
    (salesForSku : gmap day Z) :
  (s <= d <= e)%Z ->
  get d (reconstructDailyInventory (DateObj s) (DateObj e) finalQty salesForSku)
  = Some (finalQty + sumZ (soldOn salesForSku <$> seqZ (d + 1) (e - d)))%Z.
Proof.
  intros Hd. unfold reconstructDailyInventory.
  rewrite enumerateDays_date. cbn [toDate].
  replace (e - s + 1)%Z with ((d - s) + (1 + (e - d)))%Z by lia.
  rewrite seqZ_app by lia. rewrite (seqZ_cons (s + (d - s))) by lia.
  replace (s + (d - s))%Z with d by lia.
  replace (Z.pred (1 + (e - d))) with (e - d)%Z by lia.
  rewrite rev_app_distr. cbn [rev]. rewrite <- app_assoc. cbn [app].
  rewrite backward_assigns.
  - rewrite fmap_rev, sumZ_rev.
    replace (Z.succ d) with (d + 1)%Z by lia. reflexivity.
  - rewrite elem_of_rev, elem_of_seqZ. lia.
Qed.

(** Without sales every day of the window gets the final quantity. *)
Lemma reconstructDailyInventory_no_sales (s e d : day) (finalQty : Z) :
  (s <= d <= e)%Z ->
  get d (reconstructDailyInventory (DateObj s) (DateObj e) finalQty ∅)
  = Some finalQty.
Proof.
  intros Hd. rewrite reconstructDailyInventory_closed_form by exact Hd.
  f_equal. assert (H : forall l, sumZ (soldOn ∅ <$> l) = 0%Z).
  { induction l as [|x l IH]; [reflexivity|]. cbn. unfold soldOn at 1.
    rewrite lookup_empty. cbn. exact IH. }
  rewrite H. lia.
Qed.

(** With the bounds passed as texts, as the handler of this variant passes
    them, the window has no day and the series is empty. *)
Lemma reconstructDailyInventory_text_bounds (startDay : bound) (e : day)
    (finalQty : Z) (salesForSku : gmap day Z) :
  reconstructDailyInventory startDay (DateStr e) finalQty salesForSku = [].
Proof. unfold reconstructDailyInventory. now rewrite enumerateDays_text. Qed.

(** X1: With text bounds the metrics of every variant are all zero. *)
Lemma reportItem_text_bounds (startDay : bound) (e : day)
    (orders : list sale) (v : variant) (finalQty : Z) :
  reportItem startDay (DateStr e) orders v finalQty = Metrics.zero.
Proof.
  unfold reportItem. now rewrite reconstructDailyInventory_text_bounds.
Qed.

(** C2, as stated, fails: with [Q = 10] at day 3 and sales of 2, 1 and 0
    units, the series is not 13, 11, 10. *)
Lemma backward_example_not_13_11_10 :
  reconstructDailyInventory (DateObj 1%Z) (DateObj 3%Z) 10%Z
                            Examples.threeDaySales
  <> [(1, 13); (2, 11); (3, 10)]%Z.
Proof. vm_compute. discriminate. Qed.

(** C2, amended: the series is 11, 10, 10.  Each day gets the running
    total before that day's own sales are added back: day 3 gets 10, day 2
    gets 10 (and the total becomes 11), day 1 gets 11. *)
Theorem backward_example_11_10_10 :
  reconstructDailyInventory (DateObj 1%Z) (DateObj 3%Z) 10%Z
                            Examples.threeDaySales
  = [(1, 11); (2, 10); (3, 10)]%Z.
Proof. vm_compute. reflexivity. Qed.

End BackwardFacts.

(** ** Forward accumulation *)

Section ForwardFacts.
Import Days Sums.

(** The loop that creates one zero slot per day. *)
Lemma zero_slots (l : list day) (m : gmap day Z) (d : day) :
  foldl (fun m d => <[d := 0%Z]> m) m l !! d
  = if decide (d ∈ l) then Some 0%Z else m !! d.
Proof.
  revert m. induction l as [|x l IH]; intros m; cbn [foldl].
  - now rewrite decide_False by apply not_elem_of_nil.
  - rewrite IH. destruct (decide (d ∈ l)) as [Hin | Hnin].
    + now rewrite decide_True by now right.
    + destruct (decide (d = x)) as [-> | Hne].
      * now rewrite lookup_insert_eq, decide_True by left.
      * rewrite lookup_insert_ne by congruence.
        rewrite decide_False; [reflexivity|].
        intros [? | ?]%elem_of_cons; contradiction.
Qed.

Lemma zero_slots_window (s e d : day) :
  foldl (fun (m : gmap day Z) d => <[d := 0%Z]> m) ∅
        (enumerateDays (DateObj s) (DateObj e)) !! d
  = if decide (s <= d <= e)%Z then Some 0%Z else None.
Proof.
  rewrite zero_slots, lookup_empty.
  destruct (decide (s <= d <= e)%Z) as [H | H].
  - now rewrite decide_True by now apply elem_of_enumerateDays.
  - now rewrite decide_False by now rewrite elem_of_enumerateDays.
Qed.

Lemma deltasOn_cons (d : day) (a : Diagnostic.adjustment)
    (l : list Diagnostic.adjustment) :
  deltasOn d (a :: l)
  = if decide (Diagnostic.date a = d)
    then (Diagnostic.delta a + deltasOn d l)%Z else deltasOn d l.
Proof.
  unfold deltasOn. destruct (decide (Diagnostic.date a = d)) as [H | H].
  - now rewrite filter_cons_True by exact H.
  - now rewrite filter_cons_False by exact H.
Qed.

(** The loop over the events of the diagnostic variant: every existing
    slot grows by the deltas of the events of its day. *)
Lemma diagnostic_events (adjustments : list Diagnostic.adjustment)
    (m : gmap day Z) (d : day) :
  foldl (fun m a =>
           match m !! Diagnostic.date a with
           | Some v => <[Diagnostic.date a := (v + Diagnostic.delta a)%Z]> m
           | None => m
           end) m adjustments !! d
  = (fun v => (v + deltasOn d adjustments)%Z) <$> m !! d.
Proof.
  revert m. induction adjustments as [|a l IH]; intros m; cbn [foldl].
  - unfold deltasOn. cbn. destruct (m !! d); cbn; [f_equal; lia | reflexivity].
  - rewrite IH, deltasOn_cons.
    destruct (decide (Diagnostic.date a = d)) as [<- | Hne].
    + destruct (m !! Diagnostic.date a) as [v|] eqn:E.
      * rewrite lookup_insert_eq. cbn. f_equal. lia.
      * now rewrite E.
    + destruct (m !! Diagnostic.date a) as [v|]; [|reflexivity].
      now rewrite lookup_insert_ne by exact Hne.
Qed.

(** X2: The diagnostic variant meets the forward accumulation policy: a day of
    the window holds the sum of the deltas of the events dated that day,
    and no other day has a slot. *)
Lemma diagnostic_reconstructDailyLevels (s e d : day)
    (adjustments : list Diagnostic.adjustment) :
  Diagnostic.reconstructDailyLevels s e adjustments !! d
  = if decide (s <= d <= e)%Z then Some (deltasOn d adjustments) else None.
Proof.
  unfold Diagnostic.reconstructDailyLevels.
  rewrite diagnostic_events, zero_slots_window.
  now destruct (decide (s <= d <= e)%Z).
Qed.

(** The loop over the events of the universal variant changes nothing when
    every slot holds zero. *)
Lemma universal_events (adjustments : list Universal.adjustment)
    (m : gmap day Z) :
  (forall d v, m !! d = Some v -> v = 0%Z) ->
  foldl (fun m adj =>
           match m !! Universal.date adj with
           | Some v =>
               if (v =? 0)%Z then m
               else <[Universal.date adj := (v + Universal.delta adj)%Z]> m
           | None => m
           end) m adjustments = m.
Proof.
  intros Hz. induction adjustments as [|a l IH]; cbn [foldl]; [reflexivity|].
  destruct (m !! Universal.date a) as [v|] eqn:E; [|exact IH].
  rewrite (Hz _ _ E). exact IH.
Qed.

(** The universal variant leaves every slot at zero, whatever the events. *)
Lemma universal_reconstructDailyLevels (s e d : day)
    (adjustments : list Universal.adjustment) :
  Universal.reconstructDailyLevels s e adjustments !! d
  = if decide (s <= d <= e)%Z then Some 0%Z else None.
Proof.
  unfold Universal.reconstructDailyLevels. rewrite universal_events.
  - apply zero_slots_window.
  - intros d' v. rewrite zero_slots_window. now case_decide; intros [=].
Qed.

(** C3: the universal variant drops the events.  For a one-day window and
    a single event of +5 on that day, the slot of the day holds 0 and not
    5, while the diagnostic variant holds 5 on the same input. *)
Theorem universal_drops_event :
  Universal.reconstructDailyLevels 1%Z 1%Z
    [ {| Universal.date := 1%Z; Universal.delta := 5%Z |} ] !! 1%Z
  = Some 0%Z
  /\ Diagnostic.reconstructDailyLevels 1%Z 1%Z
       [ {| Diagnostic.date := 1%Z; Diagnostic.delta := 5%Z |} ] !! 1%Z
     = Some 5%Z.
Proof. split; vm_compute; reflexivity. Qed.

End ForwardFacts.

(** ** The per-day tally *)

Section TallyFacts.
Import Days Sums Metrics.
Context {D : Type}.
Variables (inStock : D -> bool) (sold : D -> Z).

(** The counters after a pass over [l], by what they were before. *)
Lemma tally_pass (l : list D) (m : Metrics.t) :
  let m' := foldl (fun m d => tally (inStock d) (sold d) m) m l in
  (forall d, d ∈ l -> 0 <= sold d)%Z ->
  (days_in_stock m' + stockout_days m'
   = days_in_stock m + stockout_days m + Z.of_nat (length l)
   /\ days_in_stock m <= days_in_stock m'
   /\ stockout_days m <= stockout_days m'
   /\ sold_while_in_stock m <= sold_while_in_stock m'
   /\ total_sold m <= total_sold m'
   /\ total_sold m' - sold_while_in_stock m'
      >= total_sold m - sold_while_in_stock m)%Z.
Proof.
  revert m. induction l as [|d l IH]; intros m m' Hsold.
  - subst m'. cbn. lia.
  - subst m'. cbn [foldl].
    assert (Hd : (0 <= sold d)%Z) by (apply Hsold; left).
    specialize (IH (tally (inStock d) (sold d) m)
                   (fun x Hx => Hsold x (proj2 (elem_of_cons l x d) (or_intror Hx)))).
    cbv zeta in IH. revert IH.
    generalize (foldl (fun m d => tally (inStock d) (sold d) m)
                      (tally (inStock d) (sold d) m) l).
    intros m'. unfold tally. cbn [length].
    destruct (inStock d); cbn; lia.
Qed.

(** A pass started from zero establishes the invariant. *)
Lemma tally_invariant (l : list D) :
  (forall d, d ∈ l -> 0 <= sold d)%Z ->
  metricsInvariant (Z.of_nat (length l))
    (foldl (fun m d => tally (inStock d) (sold d) m) Metrics.zero l).
Proof.
  intros Hsold. pose proof (tally_pass l Metrics.zero) as H.
  cbv zeta in H. specialize (H Hsold). cbn in H.
  unfold metricsInvariant. lia.
Qed.

End TallyFacts.

(** ** Metrics *)

Section MetricsFacts.
Import Days Sums JsObject.

Lemma foldl_invariant {A B : Type} (P : A -> Prop) (f : A -> B -> A)
    (l : list B) (a : A) :
  P a -> (forall a x, x ∈ l -> P a -> P (f a x)) -> P (foldl f a l).
Proof.
  revert a. induction l as [|x l IH]; intros a Ha Hstep; cbn; [exact Ha|].
  apply IH.
  - apply Hstep; [left | exact Ha].
  - intros a' x' Hx'. apply Hstep. now right.
Qed.

(** Non-negative quantities make a non-negative sales index. *)
Lemma indexSales_nonneg
    (skuByVariantId : gmap jsstring jsstring)
    (orders : list InventoryReport.order) (k : InventoryReport.salesKey) :
  (forall o li, o ∈ orders -> li ∈ InventoryReport.lineItems o ->
                (0 <= InventoryReport.quantity li)%Z) ->
  (0 <= InventoryReport.soldAt
          (InventoryReport.indexSales skuByVariantId orders) k)%Z.
Proof.
  intros Hq.
  assert (H : map_Forall (fun _ v => (0 <= v)%Z)
                (InventoryReport.indexSales skuByVariantId orders)).
  { unfold InventoryReport.indexSales.
    apply foldl_invariant; [apply map_Forall_empty|].
    intros sales o Ho Hsales.
    apply foldl_invariant; [exact Hsales|].
    intros sales' li Hli Hsales'.
    destruct (InventoryReport.variantId li) as [vid|]; [|exact Hsales'].
    destruct (JsString.truthy vid); [|exact Hsales'].
    destruct (skuByVariantId !! vid) as [s|]; [|exact Hsales'].
    destruct (JsString.truthy s); [|exact Hsales'].
    apply map_Forall_insert_2; [|exact Hsales'].
    specialize (Hq o li Ho Hli). unfold InventoryReport.soldAt.
    destruct (sales' !! (InventoryReport.createdAt o, s)) as [v|] eqn:E; cbn.
    - specialize (Hsales' _ _ E). cbn in Hsales'. lia.
    - lia. }
  unfold InventoryReport.soldAt.
  destruct (_ !! k) as [v|] eqn:E; cbn; [exact (H _ _ E) | lia].
Qed.

Lemma dates_length (s e : day) :
  Z.of_nat (length (InventoryReport.dates s e)) = windowLength s e.
Proof.
  unfold InventoryReport.dates, daysFuel. cbn [toDate].
  rewrite daysLoop_date by lia. rewrite length_seqZ.
  unfold windowLength. lia.
Qed.

(** Every entry of the output of [computeMetrics] is the pass over the
    dates of the period for its SKU. *)
Lemma computeMetrics_lookup (variants : list InventoryReport.variant)
    (inventoryByItem : gmap jsstring (list InventoryReport.level))
    (orders : list InventoryReport.order) (startDate endDate : day)
    (s : jsstring) (m : Metrics.t) :
  InventoryReport.computeMetrics variants inventoryByItem orders
                                 startDate endDate !! s = Some m ->
  exists invMap skuByVariantId,
    m = InventoryReport.skuMetrics invMap
          (InventoryReport.indexSales skuByVariantId orders) s
          (InventoryReport.dates startDate endDate).
Proof.
  unfold InventoryReport.computeMetrics.
  destruct (InventoryReport.indexVariants variants)
    as [skuByVariantId itemIdBySku].
  rewrite map_lookup_imap.
  destruct (itemIdBySku !! s) as [item|]; [|discriminate].
  cbn. intros [= <-]. eauto.
Qed.

(** The pass of the simple variant counts the properties of the series. *)
Lemma calculateMetrics_invariant (inventory : JsObject.t Z)
    (salesForSku : gmap day Z) :
  (forall d q, salesForSku !! d = Some q -> (0 <= q)%Z) ->
  metricsInvariant (Z.of_nat (length (keys inventory)))
                   (Simple.calculateMetrics inventory salesForSku).
Proof.
  intros Hq. unfold Simple.calculateMetrics.
  apply (tally_invariant
           (fun d => from_option (fun q => (0 <? q)%Z) false (get d inventory))
           (Simple.soldOn salesForSku)).
  intros d _. unfold Simple.soldOn.
  destruct (salesForSku !! d) as [q|] eqn:E; cbn; [exact (Hq d q E) | lia].
Qed.

(** C1: with non-negative quantities sold, the two day counters of every
    SKU sum to the number of days of the window, the units sold while in
    stock do not exceed the units sold, and the four counters are not
    negative.  This holds for every entry of the output of [computeMetrics]
    over the period; for [calculateMetrics] over the days of any series;
    and so for [calculateMetrics] on the series reconstructed for the
    window between two dates. *)
Theorem metrics_invariants
    (variants : list InventoryReport.variant)
    (inventoryByItem : gmap jsstring (list InventoryReport.level))
    (orders : list InventoryReport.order) (startDate endDate : day)
    (sku : jsstring) (m : Metrics.t)
    (s e : day) (finalQty : Z) (salesForSku : gmap day Z) :
  (forall o li, o ∈ orders -> li ∈ InventoryReport.lineItems o ->
                (0 <= InventoryReport.quantity li)%Z) ->
  (forall d q, salesForSku !! d = Some q -> (0 <= q)%Z) ->
  InventoryReport.computeMetrics variants inventoryByItem orders
                                 startDate endDate !! sku = Some m ->
  metricsInvariant (windowLength startDate endDate) m
  /\ (forall inventory : JsObject.t Z,
        metricsInvariant (Z.of_nat (length (keys inventory)))
                         (Simple.calculateMetrics inventory salesForSku))
  /\ metricsInvariant (windowLength s e)
       (Simple.calculateMetrics
          (Simple.reconstructDailyInventory (DateObj s) (DateObj e)
                                            finalQty salesForSku)
          salesForSku).
Proof.
  intros Horders Hsales Hm. split; [|split].
  - destruct (computeMetrics_lookup _ _ _ _ _ _ _ Hm)
      as (invMap & skuByVariantId & ->).
    rewrite <- dates_length. unfold InventoryReport.skuMetrics.
    apply (tally_invariant
             (fun d => (0 <? InventoryReport.qtyAvail invMap d)%Z)
             (fun d => InventoryReport.soldAt
                         (InventoryReport.indexSales skuByVariantId orders)
                         (d, sku))).
    intros d _. now apply indexSales_nonneg.
  - intros inventory. now apply calculateMetrics_invariant.
  - rewrite <- enumerateDays_length.
    rewrite <- (reconstructDailyInventory_keys
                  (DateObj s) (DateObj e) finalQty salesForSku).
    now apply calculateMetrics_invariant.
Qed.

(** Witness of [metrics_invariants]: SKU [A] over the days 1 and 2, and the
    three-day window of the backward example. *)
Lemma metrics_invariants_witness :
  InventoryReport.computeMetrics [Examples.variantA] Examples.levelsA
                                 [Examples.orderA] 1%Z 2%Z !! str "A"
  = Some Examples.metricsA
  /\ metricsInvariant 2 Examples.metricsA
  /\ (forall inventory : JsObject.t Z,
        metricsInvariant (Z.of_nat (length (keys inventory)))
          (Simple.calculateMetrics inventory Examples.threeDaySales))
  /\ metricsInvariant 3
       (Simple.calculateMetrics
          (Simple.reconstructDailyInventory (DateObj 1%Z) (DateObj 3%Z) 10%Z
                                            Examples.threeDaySales)
          Examples.threeDaySales).
Proof.
  assert (H1 : forall o li, o ∈ [Examples.orderA] ->
                 li ∈ InventoryReport.lineItems o ->
                 (0 <= InventoryReport.quantity li)%Z).
  { intros o li ->%list_elem_of_singleton ->%list_elem_of_singleton.
    cbn. lia. }
  assert (H2 : forall d q, Examples.threeDaySales !! d = Some q -> (0 <= q)%Z).
  { intros d q. unfold Examples.threeDaySales.
    rewrite !lookup_insert_Some, lookup_singleton_Some. lia. }
  assert (H3 : InventoryReport.computeMetrics [Examples.variantA]
                 Examples.levelsA [Examples.orderA] 1%Z 2%Z !! str "A"
               = Some Examples.metricsA) by (vm_compute; reflexivity).
  split; [exact H3|].
  exact (metrics_invariants [Examples.variantA] Examples.levelsA
           [Examples.orderA] 1%Z 2%Z (str "A") Examples.metricsA
           1%Z 3%Z 10%Z Examples.threeDaySales H1 H2 H3).
Defined.

End MetricsFacts.

(** ** Paged fetches *)

Section FetchFacts.
Import JsString Fetch Paging.

(** Served bodies without a [headers] member, [fetchVariants] issues a
    single request and returns the variants it keeps of that page,
    whatever the [Link] header of the response says. *)
Lemma rest_fetch_single_request (api : restApi) (r : restResponse)
    (fuel : nat) :
  api None = Some r -> Simple.link (body r) = None ->
  Simple.fetchVariants (S fuel) (shopifyGET api)
  = Returned (Simple.collect (body r), [None]).
Proof.
  intros Hr Hl. unfold Simple.fetchVariants, shopifyGET.
  cbn [Simple.fetchLoop]. rewrite Hr. cbn [fmap option_fmap option_map].
  unfold Simple.nextCursor. rewrite Hl. reflexivity.
Qed.

(** The pattern of the loop, were it applied to a [Link] header that names
    the previous page first, captures the token of the previous page, and
    not the one of the link marked [rel="next"]. *)
Lemma matchPageInfo_takes_first_link :
  Simple.includes Simple.relNext Examples.middleLink = true
  /\ Simple.matchPageInfo Examples.middleLink = Some (str "prev")
  /\ continuation {| body := Examples.restPage2;
                     linkHeader := Some Examples.middleLink |}
     = Some (str "next").
Proof. vm_compute. repeat split. Qed.

(** C4: the REST loop stops after the first page of a paged collection.
    The first response carries in its [Link] header a link marked
    [rel="next"] with the token [abc], so that the walk the claim asks for
    issues two requests and returns the records of both pages;
    [fetchVariants] looks for the link in the parsed body, where the API
    puts none, issues one request and returns the records of the first
    page only. *)
Theorem rest_fetch_stops_at_first_page :
  continuation Examples.apiPage1 = Some (str "abc")
  /\ walk 2 Examples.restApi None
     = Returned
         ([ {| Simple.sku := str "HAT-1"; Simple.variantId := 11;
               Simple.inventoryItemId := 101 |};
            {| Simple.sku := str "HAT-2"; Simple.variantId := 21;
               Simple.inventoryItemId := 201 |} ],
          [None; Some (str "abc")])
  /\ Simple.fetchVariants 2 (shopifyGET Examples.restApi)
     = Returned
         ([ {| Simple.sku := str "HAT-1"; Simple.variantId := 11;
               Simple.inventoryItemId := 101 |} ],
          [None]).
Proof.
  split; [vm_compute; reflexivity|]. split; [vm_compute; reflexivity|].
  exact (rest_fetch_single_request Examples.restApi Examples.apiPage1 1
           eq_refl eq_refl).
Qed.



(** A page that announces a next page without carrying an edge makes the
    GraphQL loop throw. *)
Lemma gql_fetchLoop_no_cursor (server : InventoryReport.upstream)
    (c : option jsstring) (page : InventoryReport.productsPage) (fuel : nat)
    (variants : list InventoryReport.variant) (log : list (option jsstring)) :
  server c = Some page ->
  InventoryReport.hasNextPage page = true ->
  default [] (InventoryReport.edges page) = [] ->
  InventoryReport.fetchLoop (S fuel) server c variants log = Thrown.
Proof. intros Hs Hn He. cbn. now rewrite Hs, Hn, He. Qed.




End FetchFacts.

(** * Further properties of the code *)

(** ** SKU normaliser: shape of the result *)

Section SkuMore.
Import JsString Sku.

(** X3: A normalised SKU has no white space at either end. *)
Theorem normaliseSku_output_trimmed (x : option jsstring) :
  match normaliseSku x with
  | Some y => trim y = y /\ noLeadingSpace y /\ trimEnd y = y
  | None => True
  end.
Proof.
  destruct (normaliseSku x) as [y|] eqn:E; [|exact I].
  destruct x as [x|]; [|discriminate].
  pose proof (normaliseSku_trimmed x y E) as Ht.
  split; [exact Ht|]. rewrite <- Ht. apply trim_spec.
Qed.

Lemma trimEnd_snoc (a : jsstring) (c : N) :
  is_space c = false -> trimEnd (a ++ [c]) = a ++ [c].
Proof.
  intros Hc. induction a as [|x a IH]; cbn.
  - now rewrite Hc.
  - rewrite IH. now destruct a.
Qed.

Lemma trimEnd_app_space (a ws : jsstring) :
  forallb is_space ws = true -> trimEnd (a ++ ws) = trimEnd a.
Proof.
  intros Hws. induction a as [|x a IH]; cbn.
  - now apply trimEnd_all_space.
  - now rewrite IH.
Qed.

Lemma forallb_space_hyphen (z hs : jsstring) :
  forallb is_space (z ++ hyphen :: hs) = false.
Proof.
  rewrite forallb_app. cbn [forallb]. change (is_space hyphen) with false.
  now rewrite andb_false_r.
Qed.

(** The pattern does not match where a hyphen follows later on. *)
Lemma after_hash_hyphen_later (y hs : jsstring) :
  after_hash (y ++ hyphen :: hs) = false.
Proof.
  induction y as [|c y IH]; cbn [app after_hash].
  - change (hyphen =? hash) with false. cbv iota.
    exact (forallb_space_hyphen [] hs).
  - destruct (c =? hash); [exact IH|]. exact (forallb_space_hyphen (c :: y) hs).
Qed.

Lemma after_hyphen_hyphen_later (y hs : jsstring) :
  after_hyphen (y ++ hyphen :: hs) = false.
Proof.
  destruct y as [|c y]; cbn [app after_hyphen]; [reflexivity|].
  rewrite after_hash_hyphen_later. apply andb_false_r.
Qed.

Lemma suffix_matches_hyphen_later (b y hs : jsstring) :
  b <> [] -> trimEnd b = b ->
  suffix_matches (b ++ y ++ hyphen :: hs) = false.
Proof.
  induction b as [|c b IH]; [contradiction|]. intros _ Hb.
  cbn [app suffix_matches].
  destruct (trimEnd_fix_cons c b Hb) as [[-> Hc] | [Hne Hb']].
  - rewrite Hc. cbn [app]. rewrite after_hyphen_hyphen_later.
    apply andb_false_r.
  - destruct (is_space c); [now apply IH|].
    rewrite app_assoc, after_hyphen_hyphen_later. apply andb_false_r.
Qed.

Lemma after_hash_repeat (n : nat) : after_hash (repeat hash n) = true.
Proof. induction n as [|n IH]; [reflexivity | exact IH]. Qed.

Lemma suffix_matches_suffix (ws : jsstring) (n : nat) :
  forallb is_space ws = true ->
  suffix_matches (ws ++ hyphen :: repeat hash (S n)) = true.
Proof.
  intros Hws. induction ws as [|w ws IH]; cbn [app suffix_matches].
  - cbn. apply after_hash_repeat.
  - cbn [forallb] in Hws. apply andb_prop in Hws as [-> Hws]. now apply IH.
Qed.

Lemma strip_suffix_exact (b ws : jsstring) (n : nat) :
  b = [] \/ trimEnd b = b ->
  forallb is_space ws = true ->
  strip_suffix (b ++ ws ++ hyphen :: repeat hash (S n)) = b.
Proof.
  intros Hb Hws. induction b as [|c b IH].
  - cbn [app]. destruct (ws ++ hyphen :: repeat hash (S n)) eqn:E.
    + reflexivity.
    + cbn [strip_suffix]. rewrite <- E.
      now rewrite suffix_matches_suffix.
  - destruct Hb as [|Hb]; [discriminate|].
    change ((c :: b) ++ ws ++ hyphen :: repeat hash (S n))
      with (c :: (b ++ ws ++ hyphen :: repeat hash (S n))).
    cbn [strip_suffix].
    change (c :: (b ++ ws ++ hyphen :: repeat hash (S n)))
      with ((c :: b) ++ ws ++ hyphen :: repeat hash (S n)).
    rewrite suffix_matches_hyphen_later by (discriminate || exact Hb).
    f_equal. apply IH.
    destruct (trimEnd_fix_cons c b Hb) as [[-> _] | [_ ?]]; auto.
Qed.

(** X4: A variant-count suffix after a SKU is removed whole, with the white
    space around it: white space, a hyphen, one or more [#], white space. *)
Theorem normaliseSku_strips_suffix (base ws1 ws2 : jsstring) (n : nat) :
  base <> [] -> trim base = base ->
  forallb is_space ws1 = true -> forallb is_space ws2 = true ->
  normaliseSku (Some (base ++ ws1 ++ hyphen :: repeat hash (S n) ++ ws2))
  = Some base.
Proof.
  intros Hne Ht H1 H2.
  assert (Hlead : noLeadingSpace base /\ trimEnd base = base).
  { rewrite <- Ht. apply trim_spec. }
  destruct Hlead as [Hlead Hend].
  assert (E : hyphen :: repeat hash (S n) = (hyphen :: repeat hash n) ++ [hash]).
  { cbn [app repeat]. f_equal. apply repeat_cons. }
  assert (Es : base ++ ws1 ++ hyphen :: repeat hash (S n) ++ ws2
               = ((base ++ ws1 ++ hyphen :: repeat hash n) ++ [hash]) ++ ws2).
  { change (hyphen :: repeat hash (S n) ++ ws2)
      with ((hyphen :: repeat hash (S n)) ++ ws2).
    rewrite E. now rewrite <- !app_assoc. }
  assert (Et : (base ++ ws1 ++ hyphen :: repeat hash n) ++ [hash]
               = base ++ ws1 ++ hyphen :: repeat hash (S n)).
  { rewrite E. now rewrite <- !app_assoc. }
  unfold normaliseSku.
  assert (Htr : JsString.truthy
                  (base ++ ws1 ++ hyphen :: repeat hash (S n) ++ ws2) = true)
    by (destruct base; [contradiction | reflexivity]).
  rewrite Htr. f_equal. unfold trim.
  rewrite trimStart_fix
    by (destruct base; [contradiction | exact Hlead]).
  rewrite Es, trimEnd_app_space by exact H2.
  rewrite trimEnd_snoc by reflexivity. rewrite Et.
  apply strip_suffix_exact; [now right | exact H1].
Qed.

Lemma normaliseSku_strips_suffix_witness :
  normaliseSku (Some (str "KNIFE 12" ++ str "  " ++ hyphen :: repeat hash 3
                      ++ str " "))
  = Some (str "KNIFE 12").
Proof.
  apply (normaliseSku_strips_suffix (str "KNIFE 12") (str "  ") (str " ") 2);
    [discriminate | reflexivity | reflexivity | reflexivity].
Defined.

Lemma suffix_matches_has_hash (s : jsstring) :
  suffix_matches s = true -> hash ∈ s.
Proof.
  induction s as [|c s IH]; cbn [suffix_matches]; [discriminate|].
  destruct (is_space c); [intros H; right; now apply IH|].
  intros [_ H]%andb_prop. right. destruct s as [|d s]; [discriminate|].
  cbn in H. apply andb_prop in H as [Hd%N.eqb_eq _]. subst d. left.
Qed.

Lemma anyMatch_has_hash (s : jsstring) : anyMatch s = true -> hash ∈ s.
Proof.
  induction s as [|c s IH]; cbn [anyMatch].
  - cbn. discriminate.
  - intros [H | H]%orb_prop; [now apply suffix_matches_has_hash|].
    right. now apply IH.
Qed.

Lemma trimStart_subset (s : jsstring) (c : N) : c ∈ trimStart s -> c ∈ s.
Proof.
  induction s as [|x s IH]; cbn; [trivial|].
  destruct (is_space x); [intros H; right; now apply IH | trivial].
Qed.

Lemma trimEnd_subset (s : jsstring) (c : N) : c ∈ trimEnd s -> c ∈ s.
Proof.
  induction s as [|x s IH]; cbn; [trivial|].
  destruct (trimEnd s) as [|y r].
  - destruct (is_space x); [intros []%elem_of_nil|].
    intros ->%list_elem_of_singleton. left.
  - intros [-> | H]%elem_of_cons; [left | right; now apply IH].
Qed.

(** X5: A SKU without any [#] is only trimmed. *)
Theorem normaliseSku_without_hash (s : jsstring) :
  s <> [] -> hash ∉ s -> normaliseSku (Some s) = Some (trim s).
Proof.
  intros Hne Hh. unfold normaliseSku.
  destruct s as [|c s]; [contradiction|]. cbn [JsString.truthy]. f_equal.
  apply strip_suffix_fix_iff. apply not_true_iff_false. intros Hm.
  apply Hh. apply anyMatch_has_hash in Hm.
  unfold trim in Hm. now apply trimStart_subset, trimEnd_subset.
Qed.

Lemma normaliseSku_without_hash_witness :
  normaliseSku (Some (str " 50002 ")) = Some (str "50002").
Proof.
  refine (normaliseSku_without_hash (str " 50002 ") _ _); [discriminate|].
  rewrite list_elem_of_In. cbn. intuition discriminate.
Defined.

End SkuMore.

(** ** CSV parser: round trip and shape of the result *)

Section CsvMore.
Import JsString Csv CsvWrite.

Lemma scan_open_quote (rest : jsstring) (st : state) :
  inQuotes st = false ->
  scan (dquote :: rest) st
  = scan rest {| rows := rows st; row := row st;
                 field := field st; inQuotes := true |}.
Proof. intros H. cbn [scan]. unfold step. rewrite H. reflexivity. Qed.

Lemma scan_close_quote (rest : jsstring) (st : state) :
  inQuotes st = true -> head rest <> Some dquote ->
  scan (dquote :: rest) st
  = scan rest {| rows := rows st; row := row st;
                 field := field st; inQuotes := false |}.
Proof.
  intros H Hrest. cbn [scan]. unfold step. rewrite H.
  rewrite N.eqb_refl, bool_decide_eq_false_2 by exact Hrest. reflexivity.
Qed.

Lemma scan_comma (rest : jsstring) (st : state) :
  inQuotes st = false ->
  scan (comma :: rest) st
  = scan rest {| rows := rows st; row := row st ++ [field st];
                 field := []; inQuotes := false |}.
Proof. intros H. cbn [scan]. unfold step. rewrite H. reflexivity. Qed.

(** A field in quotes, read from outside quotes, is added to the current
    field; what follows must not begin with a quote. *)
Lemma scan_quoted_field (f rest : jsstring) (st : state) :
  inQuotes st = false -> head rest <> Some dquote ->
  scan (quoted f ++ rest) st
  = scan rest {| rows := rows st; row := row st;
                 field := field st ++ f; inQuotes := false |}.
Proof.
  intros Hq Hrest. unfold quoted.
  change ((dquote :: ?b ++ [dquote]) ++ rest)
    with (dquote :: (b ++ [dquote]) ++ rest).
  rewrite scan_open_quote by exact Hq.
  rewrite <- app_assoc. rewrite scan_quoted_body by reflexivity.
  cbn [app]. rewrite scan_close_quote by (reflexivity || exact Hrest).
  reflexivity.
Qed.

(** A written row, read with an empty current field, fills the current
    row and leaves its last field as the current one. *)
Lemma scan_writeRow (fields : list jsstring) (rest : jsstring) (st : state) :
  fields <> [] -> inQuotes st = false -> field st = [] ->
  head rest <> Some dquote ->
  scan (writeRow fields ++ rest) st
  = scan rest {| rows := rows st; row := row st ++ removelast fields;
                 field := List.last fields []; inQuotes := false |}.
Proof.
  revert st. induction fields as [|f fs IH]; [contradiction|].
  intros st _ Hq Hf Hrest. destruct fs as [|f2 fs].
  - cbn [writeRow removelast List.last].
    rewrite scan_quoted_field by assumption. now rewrite Hf, app_nil_r.
  - change (writeRow (f :: f2 :: fs))
      with (quoted f ++ comma :: writeRow (f2 :: fs)).
    rewrite <- app_assoc. rewrite scan_quoted_field by (assumption || discriminate).
    cbn [app]. rewrite scan_comma by reflexivity.
    rewrite IH by (discriminate || reflexivity || exact Hrest).
    cbn [rows row field]. rewrite Hf. cbn [app].
    change (removelast (f :: f2 :: fs)) with (f :: removelast (f2 :: fs)).
    change (List.last (f :: f2 :: fs) []) with (List.last (f2 :: fs) []).
    now rewrite <- app_assoc.
Qed.

(** A line end read outside quotes flushes the row; what follows must not
    begin with a line feed. *)
Lemma scan_lineEnd (eol rest : jsstring) (st : state) :
  lineEnd eol -> inQuotes st = false -> head rest <> Some LF ->
  scan (eol ++ rest) st = scan rest (flush st).
Proof.
  intros [-> | [-> | ->]] Hq Hrest; cbn [app scan]; unfold step; rewrite Hq;
    cbn [andb negb orb].
  - reflexivity.
  - change (CR =? dquote) with false. change (CR =? comma) with false.
    change (CR =? LF) with false. change (CR =? CR) with true.
    cbn [andb orb]. now rewrite bool_decide_eq_false_2 by exact Hrest.
  - reflexivity.
Qed.

Lemma writeRow_head (fields : list jsstring) (rest : jsstring) :
  fields <> [] -> head (writeRow fields ++ rest) = Some dquote.
Proof. destruct fields as [|f [|f2 fs]]; [contradiction | reflexivity..]. Qed.

Lemma writeRows_head (eol : jsstring) (table : list (list jsstring)) :
  Forall keptRow table -> head (writeRows eol table) <> Some LF.
Proof.
  destruct table as [|r rs]; [discriminate|].
  intros [Hne _]%Forall_inv. cbn [writeRows].
  now rewrite writeRow_head by exact Hne.
Qed.

Lemma flush_kept (r : list jsstring) (rs : list (list jsstring)) :
  keptRow r ->
  flush {| rows := rs; row := removelast r; field := List.last r [];
           inQuotes := false |}
  = {| rows := rs ++ [r]; row := []; field := []; inQuotes := false |}.
Proof.
  intros [Hne Hne']. unfold flush. cbn [rows row field inQuotes].
  rewrite <- app_removelast_last by exact Hne.
  destruct r as [|f [|f2 fs]]; [contradiction | |].
  - cbn. destruct f; [contradiction | reflexivity].
  - change (removelast (f :: f2 :: fs)) with (f :: removelast (f2 :: fs)).
    cbn [length Nat.eqb negb]. now rewrite orb_true_r.
Qed.

Lemma scan_writeRows (eol : jsstring) (table : list (list jsstring))
    (rs : list (list jsstring)) :
  lineEnd eol -> Forall keptRow table ->
  scan (writeRows eol table)
       {| rows := rs; row := []; field := []; inQuotes := false |}
  = {| rows := rs ++ table; row := []; field := []; inQuotes := false |}.
Proof.
  intros Heol. revert rs. induction table as [|r table IH]; intros rs Hk.
  - cbn. now rewrite app_nil_r.
  - apply Forall_cons in Hk as [Hr Hk]. cbn [writeRows].
    rewrite scan_writeRow;
      [| exact (proj1 Hr) | reflexivity | reflexivity |].
    + rewrite scan_lineEnd;
        [| exact Heol | reflexivity | now apply writeRows_head].
      cbn [rows row app]. rewrite flush_kept by exact Hr.
      rewrite IH by exact Hk. now rewrite <- app_assoc.
    + destruct Heol as [-> | [-> | ->]]; discriminate.
Qed.

(** X6: Round trip: a table written with every field in quotes, with any of
    the three line ends after each row, parses back to the same table,
    provided no row is empty or a single empty field. *)
Theorem parseCsv_writeRows (eol : jsstring) (table : list (list jsstring)) :
  lineEnd eol -> Forall keptRow table ->
  parseCsv (writeRows eol table) = table.
Proof.
  intros Heol Hk. unfold parseCsv, init.
  now rewrite scan_writeRows.
Qed.

Lemma parseCsv_writeRows_witness :
  parseCsv (writeRows [CR; LF]
              [[str "sku"; str "note"];
               [str "HAT-1"; str "red, large" ++ [dquote; LF] ++ str "x"];
               [str ""; str ""]])
  = [[str "sku"; str "note"];
     [str "HAT-1"; str "red, large" ++ [dquote; LF] ++ str "x"];
     [str ""; str ""]].
Proof.
  apply parseCsv_writeRows.
  - right. right. reflexivity.
  - repeat constructor; discriminate.
Defined.

(** A row made of a single empty field in quotes reads as a blank line and
    is dropped, and so is a line without any field. *)
Lemma parseCsv_drops_blank_rows :
  parseCsv (writeRows [LF] [[str "a"]; [str ""]; []; [str "b"]])
  = [[str "a"]; [str "b"]].
Proof. vm_compute. reflexivity. Qed.

(** An invariant of the loop, by induction on the text still to read. *)
Lemma scan_invariant (P : state -> Prop) :
  (forall c next st, P st -> P (fst (step c next st))) ->
  forall text st, P st -> P (scan text st).
Proof.
  intros Hstep text.
  assert (H : forall n text, (length text <= n)%nat ->
                             forall st, P st -> P (scan text st)).
  { clear text. induction n as [|n IH]; intros text Hlen st Hst.
    - destruct text; [exact Hst | cbn in Hlen; lia].
    - destruct text as [|c rest]; [exact Hst|]. cbn [scan].
      specialize (Hstep c (head rest) st Hst).
      destruct (step c (head rest) st) as [st' skip]. cbn [fst] in Hstep.
      cbn in Hlen. destruct skip.
      + destruct rest as [|d rest']; [exact Hstep|].
        apply IH; [cbn in Hlen |- *; lia | exact Hstep].
      + apply IH; [lia | exact Hstep]. }
  exact (H (length text) text (le_n _)).
Qed.

Lemma flush_rows_nonempty (st : state) :
  Forall (fun r => r <> []) (rows st) ->
  Forall (fun r => r <> []) (rows (flush st)).
Proof.
  intros H. unfold flush. destruct (_ || _); [|exact H].
  cbn [rows]. apply Forall_app. split; [exact H|].
  constructor; [|constructor]. now destruct (row st).
Qed.

(** X7: The parser returns no row without a field; in particular the header
    row of a non-empty result has a first cell. *)
Theorem parseCsv_rows_nonempty (text : jsstring) :
  Forall (fun r => r <> []) (parseCsv text).
Proof.
  unfold parseCsv. apply flush_rows_nonempty.
  apply (scan_invariant (fun st => Forall (fun r => r <> []) (rows st)));
    [|constructor].
  intros c next st H. unfold step.
  repeat (match goal with |- context [if ?b then _ else _] => destruct b end);
    cbn [fst rows]; try exact H.
  now apply flush_rows_nonempty.
Qed.

End CsvMore.

(** ** Reading the sheet *)

Section SheetMore.
Import JsString JsNumber Sheet SheetView.

Lemma indexOf_None (header : list jsstring) (name : jsstring) :
  indexOf header name = None <-> name ∉ header.
Proof.
  unfold indexOf. rewrite fmap_None, list_find_None, Forall_forall.
  split.
  - intros H Hin. exact (H name Hin eq_refl).
  - intros H x Hx ->. contradiction.
Qed.

(** X8: The two errors: no row at all, and a header without one of the two
    required columns; otherwise the sheet is read. *)
Theorem fetchSheetBySku_errors (csvText : jsstring) :
  match fetchSheetBySku csvText with
  | inl EmptySheet => Csv.parseCsv csvText = []
  | inl MissingColumns =>
      exists header data,
        Csv.parseCsv csvText = header :: data
        /\ (skuColumn ∉ map trim header
            \/ daysInStockColumn ∉ map trim header)
  | inr _ =>
      exists header data,
        Csv.parseCsv csvText = header :: data
        /\ skuColumn ∈ map trim header
        /\ daysInStockColumn ∈ map trim header
  end.
Proof.
  unfold fetchSheetBySku.
  destruct (Csv.parseCsv csvText) as [|header data]; [reflexivity|].
  pose proof (indexOf_None (map trim header) skuColumn) as Hs.
  pose proof (indexOf_None (map trim header) daysInStockColumn) as Hd.
  cbn [sku daysInStock findColumns].
  fold skuColumn daysInStockColumn.
  destruct (indexOf (map trim header) skuColumn) as [i|];
    destruct (indexOf (map trim header) daysInStockColumn) as [j|];
    exists header, data; (split; [reflexivity|]).
  - split.
    + destruct (decide (skuColumn ∈ map trim header)) as [|Hn]; [assumption|].
      apply Hs in Hn. discriminate.
    + destruct (decide (daysInStockColumn ∈ map trim header)) as [|Hn];
        [assumption|]. apply Hd in Hn. discriminate.
  - right. now apply Hd.
  - left. now apply Hs.
  - left. now apply Hs.
Qed.

(** What a kept row stores: a non-empty, trimmed key that is the
    normalised form of the raw SKU of the row. *)
Lemma readRow_key (cols : columns) (row : list jsstring) (k : jsstring)
    (r : SheetStat) :
  readRow cols row = Some (k, r) ->
  k <> [] /\ trim k = k /\ sku_norm r = k /\ sku_raw r <> []
  /\ Sku.normaliseSku (Some (sku_raw r)) = Some k.
Proof.
  unfold readRow.
  set (rawSku := match sku cols ≫= cell row with
                 | Some s => if JsString.truthy s then trim s else []
                 | None => []
                 end).
  destruct (JsString.truthy rawSku) eqn:Hraw; [|discriminate].
  destruct (Sku.normaliseSku (Some rawSku)) as [skuNorm|] eqn:Hn;
    [|discriminate].
  destruct (JsString.truthy skuNorm) eqn:Hk; [|discriminate].
  intros [= <- <-]. cbn [sku_norm sku_raw].
  repeat split.
  - now destruct skuNorm.
  - exact (normaliseSku_trimmed _ _ Hn).
  - now destruct rawSku.
  - exact Hn.
Qed.

(** Every entry of the map was read from a data row. *)
Lemma fetchSheetBySku_from_row (csvText : jsstring)
    (bySku : gmap jsstring SheetStat) (k : jsstring) (r : SheetStat) :
  fetchSheetBySku csvText = inr bySku -> bySku !! k = Some r ->
  exists header data row,
    Csv.parseCsv csvText = header :: data /\ row ∈ data
    /\ readRow (findColumns (map trim header)) row = Some (k, r).
Proof.
  unfold fetchSheetBySku.
  destruct (Csv.parseCsv csvText) as [|header data]; [discriminate|].
  set (cols := findColumns (map trim header)).
  destruct (sku cols); [|discriminate].
  destruct (daysInStock cols); [|discriminate].
  intros [= <-] Hk. exists header, data.
  assert (H : map_Forall
                (fun k r => exists row, row ∈ data
                                        /\ readRow cols row = Some (k, r))
                (foldl (fun (bySku : gmap jsstring SheetStat) row =>
                          match readRow cols row with
                          | Some (k, r) => <[k := r]> bySku
                          | None => bySku
                          end) ∅ data)).
  { apply foldl_invariant; [apply map_Forall_empty|].
    intros m row Hrow Hm. destruct (readRow cols row) as [[k' r']|] eqn:E;
      [|exact Hm].
    apply map_Forall_insert_2; [eauto | exact Hm]. }
  destruct (H k r Hk) as (row & Hrow & E). eauto.
Qed.

(** X9: The keys of the sheet map are non-empty, trimmed, normalised SKUs, and
    every record carries its key and a raw SKU that normalises to it. *)
Theorem fetchSheetBySku_keys (csvText : jsstring)
    (bySku : gmap jsstring SheetStat) (k : jsstring) (r : SheetStat) :
  fetchSheetBySku csvText = inr bySku -> bySku !! k = Some r ->
  k <> [] /\ trim k = k /\ sku_norm r = k /\ sku_raw r <> []
  /\ Sku.normaliseSku (Some (sku_raw r)) = Some k.
Proof.
  intros H Hk.
  destruct (fetchSheetBySku_from_row _ _ _ _ H Hk) as (? & ? & row & _ & _ & E).
  exact (readRow_key _ _ _ _ E).
Qed.

(** X10: In a record of the sheet map the two percentage fields are [null] or
    a number other than zero, never zero and never [NaN]. *)
Theorem fetchSheetBySku_percent_fields (csvText : jsstring)
    (bySku : gmap jsstring SheetStat) (k : jsstring) (r : SheetStat) :
  fetchSheetBySku csvText = inr bySku -> bySku !! k = Some r ->
  (forall x, sell_through_rate_csv r = Some x -> truthy x = true)
  /\ (forall x, percent_inventory_sold_csv r = Some x -> truthy x = true).
Proof.
  intros H Hk.
  destruct (fetchSheetBySku_from_row _ _ _ _ H Hk) as (? & ? & row & _ & _ & E).
  destruct (readRow_fields _ _ _ _ E) as (_ & _ & _ & -> & ->).
  unfold readSellThroughRate, readPercentInventorySold.
  split; intros v.
  - destruct (sellThroughRate _); [apply percentCell_never_zero | discriminate].
  - destruct (percentInventorySold _);
      [apply percentCell_never_zero | discriminate].
Qed.

Lemma last_snoc_omap {A B : Type} (f : A -> option B) (l : list A) (x : A) :
  last (omap f (l ++ [x]))
  = match f x with Some y => Some y | None => last (omap f l) end.
Proof.
  rewrite omap_app. cbn. destruct (f x) as [y|]; cbn.
  - apply last_snoc.
  - now rewrite app_nil_r.
Qed.

(** A loop of assignments [m[k] = v]: the last assignment to a key wins. *)
Lemma foldl_insert_last {A V : Type} (f : A -> option (jsstring * V))
    (l : list A) (m0 : gmap jsstring V) (k : jsstring) :
  foldl (fun m x => match f x with
                    | Some (k', v) => <[k' := v]> m
                    | None => m
                    end) m0 l !! k
  = match last (omap (fun x => match f x with
                               | Some (k', v) =>
                                   if decide (k' = k) then Some v else None
                               | None => None
                               end) l) with
    | Some v => Some v
    | None => m0 !! k
    end.
Proof.
  induction l as [|x l IH] using rev_ind; [reflexivity|].
  rewrite foldl_app, last_snoc_omap. cbn [foldl].
  destruct (f x) as [[k' v]|]; [|exact IH].
  destruct (decide (k' = k)) as [-> | Hne].
  - apply lookup_insert_eq.
  - rewrite lookup_insert_ne by exact Hne. exact IH.
Qed.


End SheetMore.

(** ** Sales by SKU *)

Section SalesFacts.
Import JsString JsNumber Fetch Proto Merge SalesFetch Sums.

Lemma quantitiesFor_snoc (k : jsstring) (l : list lineItem) (x : lineItem) :
  quantitiesFor k (l ++ [x])
  = quantitiesFor k l
    ++ (if decide (keyOf x = Some k) then [li_quantity x] else []).
Proof.
  unfold quantitiesFor. rewrite omap_app. cbn.
  now destruct (decide (keyOf x = Some k)).
Qed.

Lemma keyOf_shape (li : lineItem) (k : jsstring) :
  keyOf li = Some k -> k <> [] /\ trim k = k.
Proof.
  unfold keyOf.
  destruct (Sku.normaliseSku (rawSkuOf li)) as [y|] eqn:E; [|discriminate].
  destruct (JsString.truthy y) eqn:Hy; [|discriminate].
  intros [= <-]. split; [now destruct y|].
  destruct (rawSkuOf li) as [x|]; [|discriminate].
  exact (normaliseSku_trimmed x y E).
Qed.

(** An integer of magnitude at most [2^53] is a number, exactly. *)
Lemma fromQ_integer (x : Q) (z : Z) :
  (x == inject_Z z)%Q -> (Z.abs z <= 2 ^ 53)%Z ->
  exists q, fromQ x = Num q /\ (q == inject_Z z)%Q.
Proof.
  intros Hx Hz.
  assert (Ha : (Qabs x == inject_Z (Z.abs z))%Q) by (now rewrite Hx).
  destruct (fromQ_cases x) as [[_ Ho] | [[-> Hu] | [-> _]]].
  - exfalso. rewrite Ha in Ho. unfold overflowAt in Ho.
    rewrite <- Zle_Qle in Ho.
    assert (Hc : (2 ^ 53 < overflowZ)%Z) by reflexivity. lia.
  - exists 0%Q. split; [reflexivity|].
    rewrite Ha in Hu. unfold underflowAt, Qle in Hu. cbn in Hu.
    assert (Hp : (2 <= Z.pos underflowP)%Z) by (vm_compute; discriminate).
    assert (z = 0%Z) as -> by nia. reflexivity.
  - now exists x.
Qed.

Lemma abs_sumZ (l : list Z) : (Z.abs (sumZ l) <= sumZ (Z.abs <$> l))%Z.
Proof. unfold sumZ. induction l as [|x l IH]; cbn; lia. Qed.

Lemma sumZ_abs_nonneg (l : list Z) : (0 <= sumZ (Z.abs <$> l))%Z.
Proof. unfold sumZ. induction l as [|x l IH]; cbn; lia. Qed.

Lemma get_Own_inv {A : Type} (obj : gmap jsstring A) (k : jsstring) (a : A) :
  get obj k = Own a -> obj !! k = Some a.
Proof.
  unfold get. destruct (obj !! k); [now intros [= ->]|].
  now destruct (inherited k).
Qed.

Lemma get_Missing_inv {A : Type} (obj : gmap jsstring A) (k : jsstring) :
  get obj k = Missing -> obj !! k = None /\ inherited k = false.
Proof.
  unfold get. destruct (obj !! k); [discriminate|].
  now destruct (inherited k).
Qed.

(** A read with a key that is no name of an inherited member finds the
    entry or nothing. *)
Lemma get_plain {A : Type} (obj : gmap jsstring A) (k : jsstring) :
  inherited k = false ->
  get obj k = match obj !! k with Some a => Own a | None => Missing end.
Proof. unfold get. now intros ->. Qed.

(** A line item counted under another key leaves the entry of [k]. *)
Lemma addLineItem_other (st : state) (x : lineItem) (k : jsstring) :
  keyOf x <> Some k -> stats (addLineItem st x) !! k = stats st !! k.
Proof.
  intros Hne. unfold addLineItem.
  destruct (keyOf x) as [kx|]; [|reflexivity].
  assert (Hk : kx <> k) by congruence. cbv zeta.
  assert (He : ensureSku (stats st) kx (rawSkuOf x) !! k = stats st !! k).
  { unfold ensureSku. destruct (get (stats st) kx); try reflexivity.
    now apply lookup_insert_ne. }
  destruct (get _ kx); cbn [stats]; [|exact He | exact He].
  now rewrite lookup_insert_ne.
Qed.

(** A line item counted under [k], no name of an inherited member. *)
Lemma addLineItem_same (st : state) (x : lineItem) (k : jsstring) :
  keyOf x = Some k -> inherited k = false ->
  exists s,
    stats (addLineItem st x) !! k = Some s
    /\ match stats st !! k with
       | Some s0 =>
           sku s = sku s0
           /\ total_sold_24m s
              = add (total_sold_24m s0) (Num (inject_Z (li_quantity x)))
       | None =>
           sku s = k
           /\ total_sold_24m s = add zero (Num (inject_Z (li_quantity x)))
       end.
Proof.
  intros Hk Hplain. unfold addLineItem. rewrite Hk. cbv zeta.
  unfold ensureSku. rewrite (get_plain (stats st) k Hplain).
  destruct (stats st !! k) as [s0|] eqn:E.
  - rewrite (get_plain (stats st) k Hplain), E. cbn [stats].
    eexists. split; [apply lookup_insert_eq|]. now cbn.
  - rewrite (get_plain _ k Hplain), lookup_insert_eq. cbn [stats].
    eexists. split; [apply lookup_insert_eq|]. now cbn.
Qed.

(** No entry is ever stored under the name of an inherited member. *)
Lemma addLineItem_member (st : state) (x : lineItem) (k : jsstring) :
  inherited k = true -> stats st !! k = None ->
  stats (addLineItem st x) !! k = None.
Proof.
  intros Hin Hnone.
  destruct (decide (keyOf x = Some k)) as [Hk | Hne];
    [|now rewrite addLineItem_other].
  unfold addLineItem. rewrite Hk. cbv zeta.
  assert (Hg : get (stats st) k = Member)
    by (unfold get; now rewrite Hnone, Hin).
  unfold ensureSku. now rewrite Hg, Hg.
Qed.

Lemma addLineItems_member (l : list lineItem) (st : state) (k : jsstring) :
  inherited k = true -> stats st !! k = None ->
  stats (foldl addLineItem st l) !! k = None.
Proof.
  intros Hin. revert st.
  induction l as [|x l IH]; intros st Hnone; [exact Hnone|].
  cbn [foldl]. apply IH. now apply addLineItem_member.
Qed.

(** The members that receive a total: those named by a counted line item,
    as long as [stats] has no entry under such a name. *)
Lemma addLineItem_touched (st : state) (x : lineItem) (k : jsstring) :
  (forall k', inherited k' = true -> stats st !! k' = None) ->
  k ∈ touched (addLineItem st x)
  <-> k ∈ touched st \/ (inherited k = true /\ keyOf x = Some k).
Proof.
  intros Hinv. unfold addLineItem.
  destruct (keyOf x) as [kx|] eqn:Hk; [|split; [auto | intros [?|[_ [=]]]; auto]].
  cbv zeta. unfold ensureSku.
  destruct (get (stats st) kx) as [a| |] eqn:G.
  - rewrite G. cbn [touched]. split; [auto|]. intros [? | [Hin [= <-]]]; [auto|].
    apply get_Own_inv in G. rewrite (Hinv kx Hin) in G. discriminate.
  - rewrite G. cbn [touched]. rewrite elem_of_union, elem_of_singleton.
    assert (Hin : inherited kx = true).
    { unfold get in G. destruct (stats st !! kx); [discriminate|].
      now destruct (inherited kx). }
    split.
    + intros [-> | ?]; auto.
    + intros [? | [_ [= <-]]]; auto.
  - apply get_Missing_inv in G as [_ Hin].
    rewrite (get_plain _ kx Hin), lookup_insert_eq. cbn [touched].
    split; [auto|]. intros [? | [Hin' [= <-]]]; [auto | congruence].
Qed.

Lemma quantitiesFor_cons (k : jsstring) (x : lineItem) (l : list lineItem) :
  quantitiesFor k (x :: l)
  = (if decide (keyOf x = Some k) then [li_quantity x] else [])
    ++ quantitiesFor k l.
Proof.
  unfold quantitiesFor. cbn.
  now destruct (decide (keyOf x = Some k)).
Qed.

Lemma addLineItems_touched (l : list lineItem) (st : state) (k : jsstring) :
  (forall k', inherited k' = true -> stats st !! k' = None) ->
  k ∈ touched (foldl addLineItem st l)
  <-> k ∈ touched st \/ (inherited k = true /\ quantitiesFor k l <> []).
Proof.
  revert st. induction l as [|x l IH]; intros st Hinv.
  - cbn. split; [auto | intros [? | [_ ?]]; [auto | contradiction]].
  - cbn [foldl]. rewrite IH
      by (intros k' Hk'; apply addLineItem_member; auto).
    rewrite addLineItem_touched by exact Hinv.
    rewrite quantitiesFor_cons.
    destruct (decide (keyOf x = Some k)) as [Hk | Hne]; cbn [app].
    + split.
      * intros [[? | [? _]] | [? _]]; auto;
          right; (split; [assumption | discriminate]).
      * intros [? | [? _]]; auto.
    + split.
      * intros [[? | [_ ?]] | ?]; [auto | contradiction | auto].
      * intros [? | ?]; auto.
Qed.

Lemma addLineItem_totals (l : list lineItem) (k : jsstring) (g : realm) :
  inherited k = false ->
  entryFor k (quantitiesFor k l)
           (stats (foldl addLineItem {| stats := ∅; touched := g |} l) !! k).
Proof.
  intros Hplain. induction l as [|x l IH] using rev_ind.
  - cbn [foldl stats]. now rewrite lookup_empty.
  - rewrite foldl_app, quantitiesFor_snoc. cbn [foldl].
    set (st := foldl addLineItem {| stats := ∅; touched := g |} l) in *.
    destruct (decide (keyOf x = Some k)) as [Hk | Hne].
    + destruct (addLineItem_same st x k Hk Hplain) as (s & -> & Hs).
      unfold entryFor in *.
      destruct (stats st !! k) as [s0|].
      * destruct IH as (Hsku & _ & Hsum). destruct Hs as [Hs Ht].
        split; [congruence|]. split; [now destruct (quantitiesFor k l)|].
        intros Hex. unfold exactSum in Hex.
        rewrite fmap_app, sumZ_app in Hex. cbn in Hex.
        destruct Hsum as (q & Hq & Hqs); [unfold exactSum; lia|].
        rewrite Ht, Hq. cbn [add]. apply fromQ_integer.
        -- rewrite Hqs, sumZ_app. cbn. rewrite Z.add_0_r.
           now rewrite inject_Z_plus.
        -- pose proof (abs_sumZ (quantitiesFor k l)) as Ha.
           rewrite sumZ_app. unfold sumZ at 2. cbn [foldr]. lia.
      * destruct Hs as [Hs Ht]. rewrite IH. cbn [app].
        split; [exact Hs|]. split; [discriminate|].
        intros Hex. unfold exactSum in Hex. cbn in Hex.
        rewrite Ht. cbn [add zero]. apply fromQ_integer.
        -- cbn. rewrite Z.add_0_r. apply Qplus_0_l.
        -- cbn. lia.
    + rewrite addLineItem_other by exact Hne. rewrite app_nil_r. exact IH.
Qed.

Lemma addOrder_items (cutoff : Z) (es : list orderEdge) (st : state) :
  foldl (addOrder cutoff) st es
  = foldl addLineItem st
      (flat_map (fun e => if (createdAt e <? cutoff)%Z then []
                          else lineItems e) es).
Proof.
  revert st. induction es as [|e es IH]; intros st; [reflexivity|].
  cbn [foldl flat_map]. rewrite foldl_app, IH. unfold addOrder.
  now destruct (createdAt e <? cutoff)%Z.
Qed.

(** The loop on a chain of pages: one request per page, and the line
    items of all the pages counted in order. *)
Lemma salesLoop_chain (server : upstream) (cutoff : Z) (c : option jsstring)
    (pages : list ordersPage) :
  chain server c pages ->
  forall (fuel : nat) (st : state) (log : list (option jsstring)),
    (length pages <= fuel)%nat ->
    exists log',
      salesLoop fuel server cutoff c st log
      = Returned (foldl addLineItem st (countedItems cutoff pages), log')
      /\ length log' = (length log + length pages)%nat.
Proof.
  induction 1 as [c page Hs Hn | c page c' pages Hs Hn _ IH];
    intros fuel st log Hfuel;
    (destruct fuel as [|fuel]; [cbn in Hfuel; lia|]);
    cbn [salesLoop]; rewrite Hs, Hn.
  - eexists. split.
    + unfold countedItems. cbn [flat_map]. rewrite app_nil_r.
      now rewrite addOrder_items.
    + rewrite length_app. reflexivity.
  - destruct (IH fuel (foldl (addOrder cutoff) st (default [] (edges page)))
                (log ++ [c])) as (log' & -> & Hlen); [cbn in Hfuel; lia|].
    eexists. split.
    + unfold countedItems. cbn [flat_map]. rewrite foldl_app.
      now rewrite addOrder_items.
    + rewrite Hlen, length_app. cbn. lia.
Qed.

(** X12: On a chain of pages [fetchSalesBySku] returns after one request per
    page.  Its [stats] have an entry for a SKU exactly when a line item of
    an order not older than the cutoff normalises to it and the SKU is no
    name of a member of [Object.prototype].  The entry holds the sum of the
    quantities of those line items over all pages, as long as the
    additions are exact.  The keys are non-empty and trimmed.  Under the
    name of an inherited member the read finds the member: no entry is
    created, and the member receives the total. *)
Theorem fetchSalesBySku_totals (server : upstream) (cutoff : Z)
    (pages : list ordersPage) (fuel : nat) (g : realm) :
  chain server None pages -> (length pages <= fuel)%nat ->
  exists st log,
    fetchSalesBySku fuel server cutoff g = Returned (st, log)
    /\ length log = length pages
    /\ forall k,
         match stats st !! k with
         | Some s =>
             sku s = k /\ k <> [] /\ trim k = k /\ inherited k = false
             /\ quantitiesFor k (countedItems cutoff pages) <> []
             /\ (exactSum (quantitiesFor k (countedItems cutoff pages)) ->
                 exists q,
                   total_sold_24m s = Num q
                   /\ (q == inject_Z
                             (sumZ (quantitiesFor k
                                      (countedItems cutoff pages))))%Q)
         | None =>
             quantitiesFor k (countedItems cutoff pages) = []
             \/ (inherited k = true /\ k ∈ touched st)
         end
         /\ (k ∈ touched st
             <-> k ∈ g
                 \/ (inherited k = true
                     /\ quantitiesFor k (countedItems cutoff pages) <> [])).
Proof.
  intros Hchain Hfuel.
  destruct (salesLoop_chain server cutoff None pages Hchain fuel
              {| stats := ∅; touched := g |} [] Hfuel)
    as (log & Hret & Hlen).
  exists (foldl addLineItem {| stats := ∅; touched := g |}
                (countedItems cutoff pages)), log.
  split; [exact Hret|]. split; [exact Hlen|]. intros k.
  assert (Ht : k ∈ touched (foldl addLineItem {| stats := ∅; touched := g |}
                                  (countedItems cutoff pages))
               <-> k ∈ g
                   \/ (inherited k = true
                       /\ quantitiesFor k (countedItems cutoff pages) <> [])).
  { apply (addLineItems_touched (countedItems cutoff pages)
             {| stats := ∅; touched := g |} k).
    intros k' _. apply lookup_empty. }
  split; [|exact Ht].
  destruct (inherited k) eqn:Hin.
  - rewrite addLineItems_member by (try exact Hin; apply lookup_empty).
    destruct (quantitiesFor k (countedItems cutoff pages)) eqn:Hq;
      [now left|].
    right. split; [reflexivity|]. apply Ht. right. now split.
  - pose proof (addLineItem_totals (countedItems cutoff pages) k g Hin) as H.
    destruct (stats (foldl addLineItem {| stats := ∅; touched := g |}
                           (countedItems cutoff pages)) !! k) as [s|];
      cbn in H; [|now left].
    destruct H as (Hs & Hne & Hq). split; [exact Hs|].
    assert (Hk : exists li, keyOf li = Some k).
    { unfold quantitiesFor in Hne.
      destruct (omap _ _) as [|z zs] eqn:E; [contradiction|].
      assert (Hz : z ∈ omap (fun li => if decide (keyOf li = Some k)
                                       then Some (li_quantity li) else None)
                            (countedItems cutoff pages))
        by (rewrite E; left).
      apply list_elem_of_omap in Hz as (li & _ & Hli).
      exists li. now destruct (decide (keyOf li = Some k)). }
    destruct Hk as (li & Hli). destruct (keyOf_shape li k Hli) as [? ?].
    auto.
Qed.

(** A page without edges ends the fetch with what was counted so far,
    also when it announces a next page. *)
Lemma salesLoop_empty_page (server : upstream) (cutoff : Z)
    (c : option jsstring) (page : ordersPage) (fuel : nat)
    (st : state) (log : list (option jsstring)) :
  server c = Some page -> default [] (edges page) = [] ->
  salesLoop (S fuel) server cutoff c st log = Returned (st, log ++ [c]).
Proof.
  intros Hs He. cbn [salesLoop]. rewrite Hs. unfold nextCursor.
  now rewrite He.
Qed.

End SalesFacts.

(** ** The counters in closed form *)

Section TallyClosed.
Import Days Sums Metrics.
Context {D : Type}.
Variables (inStock : D -> bool) (sold : D -> Z).

Lemma tally_closed (l : list D) (m : Metrics.t) :
  foldl (fun m d => tally (inStock d) (sold d) m) m l
  = {| days_in_stock :=
         days_in_stock m
         + Z.of_nat (length (filter (fun d => inStock d = true) l));
       stockout_days :=
         stockout_days m
         + Z.of_nat (length (filter (fun d => inStock d = false) l));
       sold_while_in_stock :=
         sold_while_in_stock m
         + sumZ (sold <$> filter (fun d => inStock d = true) l);
       total_sold := total_sold m + sumZ (sold <$> l) |}%Z.
Proof.
  revert m. induction l as [|d l IH]; intros m.
  - cbn. destruct m; cbn. f_equal; lia.
  - cbn [foldl]. rewrite IH. unfold tally.
    destruct (inStock d) eqn:E.
    + rewrite (filter_cons_True (fun d => inStock d = true)) by exact E.
      rewrite (filter_cons_False (fun d => inStock d = false)) by congruence.
      cbn. f_equal; unfold sumZ; cbn; lia.
    + rewrite (filter_cons_False (fun d => inStock d = true)) by congruence.
      rewrite (filter_cons_True (fun d => inStock d = false)) by exact E.
      cbn. f_equal; unfold sumZ; cbn; lia.
Qed.

End TallyClosed.

Section MetricsClosed.
Import Days Sums Metrics JsObject.

Lemma skuMetrics_closed_aux (invMap : gmap day (option Z))
    (sales : gmap InventoryReport.salesKey Z) (s : jsstring)
    (ds : list day) :
  InventoryReport.skuMetrics invMap sales s ds
  = {| days_in_stock :=
         Z.of_nat (length (filter
           (fun d => (0 <? InventoryReport.qtyAvail invMap d)%Z = true) ds));
       stockout_days :=
         Z.of_nat (length (filter
           (fun d => (0 <? InventoryReport.qtyAvail invMap d)%Z = false) ds));
       sold_while_in_stock :=
         sumZ ((fun d => InventoryReport.soldAt sales (d, s))
               <$> filter
                     (fun d => (0 <? InventoryReport.qtyAvail invMap d)%Z = true)
                     ds);
       total_sold :=
         sumZ ((fun d => InventoryReport.soldAt sales (d, s)) <$> ds) |}.
Proof.
  unfold InventoryReport.skuMetrics.
  rewrite (tally_closed
             (fun d => (0 <? InventoryReport.qtyAvail invMap d)%Z)
             (fun d => InventoryReport.soldAt sales (d, s))).
  reflexivity.
Qed.

Lemma calculateMetrics_closed_aux (inventory : JsObject.t Z)
    (salesForSku : gmap day Z) :
  let inStock d :=
    from_option (fun q => (0 <? q)%Z) false (get d inventory) in
  let sold := Simple.soldOn salesForSku in
  Simple.calculateMetrics inventory salesForSku
  = {| days_in_stock :=
         Z.of_nat (length (filter (fun d => inStock d = true)
                                  (keys inventory)));
       stockout_days :=
         Z.of_nat (length (filter (fun d => inStock d = false)
                                  (keys inventory)));
       sold_while_in_stock :=
         sumZ (sold <$> filter (fun d => inStock d = true) (keys inventory));
       total_sold := sumZ (sold <$> keys inventory) |}.
Proof.
  intros inStock sold. unfold Simple.calculateMetrics.
  rewrite (tally_closed inStock sold). reflexivity.
Qed.

(** X13: The pass of [calculateMetrics], in closed form over the days of the
    series. *)
Theorem calculateMetrics_closed_form (inventory : JsObject.t Z)
    (salesForSku : gmap day Z) :
  let inStock d :=
    from_option (fun q => (0 <? q)%Z) false (get d inventory) in
  let sold := Simple.soldOn salesForSku in
  Simple.calculateMetrics inventory salesForSku
  = {| days_in_stock :=
         Z.of_nat (length (filter (fun d => inStock d = true)
                                  (keys inventory)));
       stockout_days :=
         Z.of_nat (length (filter (fun d => inStock d = false)
                                  (keys inventory)));
       sold_while_in_stock :=
         sumZ (sold <$> filter (fun d => inStock d = true) (keys inventory));
       total_sold := sumZ (sold <$> keys inventory) |}.
Proof.
  intros inStock sold. unfold Simple.calculateMetrics.
  rewrite (tally_closed inStock sold). reflexivity.
Qed.

Lemma filter_all {A : Type} (P : A -> Prop) `{!forall x, Decision (P x)}
    (l : list A) :
  (forall x, x ∈ l -> P x) -> filter P l = l.
Proof.
  induction l as [|x l IH]; intros Hall; [reflexivity|].
  rewrite filter_cons_True by (apply Hall; left). f_equal. apply IH.
  intros y Hy. apply Hall. now right.
Qed.

Lemma filter_none {A : Type} (P : A -> Prop) `{!forall x, Decision (P x)}
    (l : list A) :
  (forall x, x ∈ l -> ~ P x) -> filter P l = [].
Proof.
  induction l as [|x l IH]; intros Hall; [reflexivity|].
  rewrite filter_cons_False by (apply Hall; left). apply IH.
  intros y Hy. apply Hall. now right.
Qed.

End MetricsClosed.

(** ** The window and the backward series *)

Section WindowMore.
Import Days Sums JsObject Simple Metrics.

(** X14: [enumerateDays] between two dates lists the days from the first to the
    last, both included, in increasing order and each once: one day when
    the dates are equal, none when the end is before the start.  With a
    text as end it lists no day. *)
Theorem enumerateDays_window (start : bound) (s e : day) :
  enumerateDays (DateObj s) (DateObj e) = seqZ s (e - s + 1)
  /\ (forall d, d ∈ enumerateDays (DateObj s) (DateObj e) <-> (s <= d <= e)%Z)
  /\ Z.of_nat (length (enumerateDays (DateObj s) (DateObj e)))
     = windowLength s e
  /\ enumerateDays (DateObj s) (DateObj s) = [s]
  /\ ((e < s)%Z -> enumerateDays (DateObj s) (DateObj e) = [])
  /\ enumerateDays start (DateStr e) = [].
Proof.
  split; [exact (enumerateDays_date (DateObj s) e)|].
  split; [intros d; apply elem_of_enumerateDays|].
  split; [apply enumerateDays_length|].
  split; [|split].
  - rewrite enumerateDays_date. cbn [toDate].
    replace (s - s + 1)%Z with 1%Z by lia. reflexivity.
  - intros H. rewrite enumerateDays_date. cbn [toDate].
    apply seqZ_nil. lia.
  - apply enumerateDays_text.
Qed.

(** X15: The backward series between two dates has one entry per day of the
    window, in order, and the entry of a day is the final quantity plus
    the units sold on the later days of the window. *)
Theorem backward_series (s e : day) (finalQty : Z)
    (salesForSku : gmap day Z) :
  let series :=
    reconstructDailyInventory (DateObj s) (DateObj e) finalQty salesForSku in
  keys series = seqZ s (e - s + 1)
  /\ forall d, (s <= d <= e)%Z ->
       get d series
       = Some (finalQty + sumZ (soldOn salesForSku <$> seqZ (d + 1) (e - d)))%Z.
Proof.
  intros series. split.
  - unfold series. rewrite reconstructDailyInventory_keys.
    exact (enumerateDays_date (DateObj s) e).
  - intros d Hd. now apply reconstructDailyInventory_closed_form.
Qed.

Lemma sumZ_zero (l : list Z) : Forall (fun z => z = 0%Z) l -> sumZ l = 0%Z.
Proof. induction 1 as [|z l -> _ IH]; [reflexivity|]. cbn. exact IH. Qed.

Lemma sumZ_nonneg (l : list Z) : Forall (fun z => 0 <= z)%Z l -> (0 <= sumZ l)%Z.
Proof.
  induction 1 as [|z l Hz _ IH]; [cbn; lia|].
  unfold sumZ in *. cbn. lia.
Qed.

(** Round trip of the snapshot: a day after which nothing was sold up to
    the end of the window gets the snapshot quantity itself. *)
Theorem backward_no_later_sales (s e d : day) (finalQty : Z)
    (salesForSku : gmap day Z) :
  (s <= d <= e)%Z ->
  (forall j, (d < j <= e)%Z -> soldOn salesForSku j = 0%Z) ->
  get d (reconstructDailyInventory (DateObj s) (DateObj e) finalQty salesForSku)
  = Some finalQty.
Proof.
  intros Hd Hz. rewrite reconstructDailyInventory_closed_form by exact Hd.
  rewrite sumZ_zero; [f_equal; lia|].
  apply Forall_fmap, Forall_seqZ. intros j Hj. cbn. apply Hz. lia.
Qed.

Lemma backward_no_later_sales_witness :
  get 2%Z (reconstructDailyInventory (DateObj 1%Z) (DateObj 3%Z) 10%Z
                                     Examples.threeDaySales)
  = Some 10%Z.
Proof.
  apply backward_no_later_sales; [lia|]. intros j Hj.
  assert (j = 3%Z) as -> by lia. reflexivity.
Defined.

(** With non-negative sales no day of the series is below the snapshot
    quantity. *)
Lemma backward_at_least_final (s e d : day) (finalQty : Z)
    (salesForSku : gmap day Z) (q : Z) :
  (forall j v, salesForSku !! j = Some v -> (0 <= v)%Z) ->
  get d (reconstructDailyInventory (DateObj s) (DateObj e) finalQty salesForSku)
  = Some q ->
  (finalQty <= q)%Z.
Proof.
  intros Hnn Hq.
  assert (Hd : (s <= d <= e)%Z).
  { apply elem_of_enumerateDays.
    rewrite <- (reconstructDailyInventory_keys (DateObj s) (DateObj e)
                  finalQty salesForSku).
    destruct (decide (d ∈ keys (reconstructDailyInventory (DateObj s)
                (DateObj e) finalQty salesForSku))) as [|Hn]; [assumption|].
    apply get_None_notin in Hn. congruence. }
  rewrite reconstructDailyInventory_closed_form in Hq by exact Hd.
  injection Hq as <-.
  assert (0 <= sumZ (soldOn salesForSku <$> seqZ (d + 1) (e - d)))%Z; [|lia].
  apply sumZ_nonneg, Forall_fmap, Forall_forall. intros j _. cbn.
  unfold soldOn. destruct (salesForSku !! j) as [v|] eqn:E; cbn;
    [exact (Hnn j v E) | lia].
Qed.

(** X16: An item in stock at the end of the window, with non-negative sales, is
    counted in stock on every day of the window: no stockout day, and all
    the units sold are sold while in stock. *)
Theorem in_stock_today_in_stock_throughout (s e : day) (finalQty : Z)
    (salesForSku : gmap day Z) :
  (0 < finalQty)%Z ->
  (forall j v, salesForSku !! j = Some v -> (0 <= v)%Z) ->
  let m := calculateMetrics
             (reconstructDailyInventory (DateObj s) (DateObj e)
                                        finalQty salesForSku)
             salesForSku in
  days_in_stock m = windowLength s e
  /\ stockout_days m = 0%Z
  /\ sold_while_in_stock m = total_sold m.
Proof.
  intros Hpos Hnn m. subst m.
  set (series := reconstructDailyInventory (DateObj s) (DateObj e)
                                           finalQty salesForSku).
  rewrite calculateMetrics_closed_aux. cbv zeta.
  assert (Hall : forall d, d ∈ keys series ->
            from_option (fun q => (0 <? q)%Z) false (get d series) = true).
  { intros d Hd. destruct (get d series) as [q|] eqn:E.
    - cbn. apply Z.ltb_lt.
      pose proof (backward_at_least_final s e d finalQty salesForSku q Hnn E).
      lia.
    - apply get_None_notin in E. contradiction. }
  assert (Hf : filter (fun d => from_option (fun q => (0 <? q)%Z) false
                                  (get d series) = true) (keys series)
               = keys series).
  { apply filter_all. intros d Hd. now apply Hall. }
  assert (Hg : filter (fun d => from_option (fun q => (0 <? q)%Z) false
                                  (get d series) = false) (keys series)
               = []).
  { apply filter_none. intros d Hd. rewrite (Hall d Hd). discriminate. }
  cbn [days_in_stock stockout_days sold_while_in_stock total_sold].
  rewrite Hf, Hg. repeat split.
  unfold series. rewrite reconstructDailyInventory_keys.
  apply enumerateDays_length.
Qed.

End WindowMore.

(** ** GraphQL report: indexes, sales and history *)

Section InventoryMore.
Import JsString Days Sums Metrics InventoryReport InventoryView
       InventoryHistory.

(** The loop over the variants builds the two indexes independently. *)
Lemma indexVariants_split (variants : list variant)
    (a b : gmap jsstring jsstring) :
  foldl (fun '(skuByVariantId, itemIdBySku) v =>
           let s := trim (skuText v) in
           if negb (JsString.truthy s) then (skuByVariantId, itemIdBySku)
           else
             match inventoryItem v with
             | Some item =>
                 if JsString.truthy item
                 then (<[id v := s]> skuByVariantId, <[s := item]> itemIdBySku)
                 else (skuByVariantId, itemIdBySku)
             | None => (skuByVariantId, itemIdBySku)
             end) (a, b) variants
  = (foldl (fun m v => match (fun v => (fun '(s, _) => (id v, s)) <$> entering v) v with
                       | Some (k, x) => <[k := x]> m
                       | None => m
                       end) a variants,
     foldl (fun m v => match entering v with
                       | Some (k, x) => <[k := x]> m
                       | None => m
                       end) b variants).
Proof.
  revert a b. induction variants as [|v vs IH]; intros a b; [reflexivity|].
  cbn [foldl]. rewrite <- IH. clear IH. f_equal. unfold entering. cbv zeta.
  destruct (JsString.truthy (trim (skuText v))); cbn [negb]; [|reflexivity].
  destruct (inventoryItem v) as [item|]; [|reflexivity].
  now destruct (JsString.truthy item).
Qed.

(** The inventory item kept for a SKU is the one of the last variant that
    enters under it, and the SKU kept for a variant id the one of the last
    variant with that id. *)
Lemma indexVariants_lookup (variants : list variant) :
  (forall vid, fst (indexVariants variants) !! vid
               = last (skusFor vid variants))
  /\ (forall k, snd (indexVariants variants) !! k
               = last (itemsFor k variants)).
Proof.
  unfold indexVariants. rewrite indexVariants_split. cbn [fst snd]. split.
  - intros vid. rewrite foldl_insert_last, lookup_empty.
    unfold skusFor.
    replace (omap _ variants)
      with (omap (fun v => match entering v with
                           | Some (s, _) =>
                               if decide (id v = vid) then Some s else None
                           | None => None
                           end) variants).
    + now destruct (last _).
    + apply list_omap_ext, Forall2_same_length_lookup.
      split; [reflexivity|]. intros i x y Hx Hy.
      assert (x = y) as -> by congruence.
      destruct (entering y) as [[s item]|]; reflexivity.
  - intros k. rewrite foldl_insert_last, lookup_empty.
    unfold itemsFor. now destruct (last _).
Qed.

(** The SKUs in the indexes are non-empty. *)
Lemma skusFor_truthy (vid s : jsstring) (variants : list variant) :
  last (skusFor vid variants) = Some s -> JsString.truthy s = true.
Proof.
  intros H. apply last_Some_elem_of in H. unfold skusFor in H.
  apply list_elem_of_omap in H as (v & _ & Hv).
  unfold entering in Hv.
  destruct (JsString.truthy (trim (skuText v))) eqn:E; [|discriminate].
  destruct (inventoryItem v) as [item|]; [|discriminate].
  destruct (JsString.truthy item); [|discriminate].
  destruct (decide (id v = vid)); [|discriminate].
  now injection Hv as <-.
Qed.

(** The loop over the line items of one order adds their quantities to
    the slots of the day of the order. *)
Lemma indexSales_order (skuByVariantId : gmap jsstring jsstring)
    (o : order) (lis : list lineItem) (sales : gmap salesKey Z)
    (d : day) (s : jsstring) :
  soldAt
    (foldl (fun sales li =>
              match variantId li with
              | Some vid =>
                  if JsString.truthy vid then
                    match skuByVariantId !! vid with
                    | Some s =>
                        if JsString.truthy s then
                          let key := (createdAt o, s) in
                          <[key := (soldAt sales key + quantity li)%Z]> sales
                        else sales
                    | None => sales
                    end
                  else sales
              | None => sales
              end) sales lis) (d, s)
  = (soldAt sales (d, s)
     + sumZ (if decide (createdAt o = d)
             then omap (fun li =>
                          if decide (lineSku skuByVariantId li = Some s)
                          then Some (quantity li) else None) lis
             else []))%Z.
Proof.
  revert sales. induction lis as [|li lis IH]; intros sales.
  - cbn. destruct (decide (createdAt o = d)); cbn; lia.
  - cbn [foldl]. rewrite IH. clear IH.
    assert (Hstep :
      soldAt (match variantId li with
              | Some vid =>
                  if JsString.truthy vid then
                    match skuByVariantId !! vid with
                    | Some s =>
                        if JsString.truthy s then
                          <[(createdAt o, s) :=
                              (soldAt sales (createdAt o, s) + quantity li)%Z]>
                            sales
                        else sales
                    | None => sales
                    end
                  else sales
              | None => sales
              end) (d, s)
      = (soldAt sales (d, s)
         + (if decide (createdAt o = d /\ lineSku skuByVariantId li = Some s)
            then quantity li else 0))%Z).
    { unfold lineSku. destruct (variantId li) as [vid|];
        [|rewrite decide_False by (intros [_ [=]]); lia].
      destruct (JsString.truthy vid);
        [|rewrite decide_False by (intros [_ [=]]); lia].
      destruct (skuByVariantId !! vid) as [s'|];
        [|rewrite decide_False by (intros [_ [=]]); lia].
      destruct (JsString.truthy s');
        [|rewrite decide_False by (intros [_ [=]]); lia].
      destruct (decide (createdAt o = d /\ Some s' = Some s))
        as [[<- [= <-]] | Hne].
      - unfold soldAt at 1. now rewrite lookup_insert_eq.
      - unfold soldAt at 1. rewrite lookup_insert_ne; [unfold soldAt; lia|].
        intros [= H1 H2]. apply Hne. split; [exact H1 | now rewrite H2]. }
    cbv zeta. rewrite Hstep.
    destruct (decide (createdAt o = d)) as [Hd | Hd].
    + cbn [omap list_omap].
      change (list_omap ?f ?l) with (omap f l).
      destruct (decide (lineSku skuByVariantId li = Some s)) as [Hs | Hs].
      * rewrite decide_True by (split; assumption). unfold sumZ. cbn. lia.
      * rewrite decide_False by (intros [_ ?]; contradiction). lia.
    + rewrite decide_False by (intros [? _]; contradiction). lia.
Qed.

(** The sales index holds, for a day and a SKU, the sum of the quantities
    of the line items of the orders created that day whose variant stands
    for the SKU. *)
Lemma indexSales_sum (skuByVariantId : gmap jsstring jsstring)
    (orders : list order) (d : day) (s : jsstring) :
  soldAt (indexSales skuByVariantId orders) (d, s)
  = sumZ (soldQuantities skuByVariantId d s orders).
Proof.
  unfold indexSales.
  assert (H : forall sales,
    soldAt (foldl (fun sales o =>
                     foldl (fun sales li =>
                              match variantId li with
                              | Some vid =>
                                  if JsString.truthy vid then
                                    match skuByVariantId !! vid with
                                    | Some s =>
                                        if JsString.truthy s then
                                          let key := (createdAt o, s) in
                                          <[key := (soldAt sales key
                                                    + quantity li)%Z]> sales
                                        else sales
                                    | None => sales
                                    end
                                  else sales
                              | None => sales
                              end) sales (lineItems o)) sales orders) (d, s)
    = (soldAt sales (d, s)
       + sumZ (soldQuantities skuByVariantId d s orders))%Z).
  { induction orders as [|o orders IH]; intros sales.
    - cbn. lia.
    - cbn [foldl]. rewrite IH, indexSales_order.
      unfold soldQuantities. cbn [flat_map]. rewrite sumZ_app. lia. }
  rewrite H. unfold soldAt. rewrite lookup_empty. cbn. lia.
Qed.

(** Every entry of the output, by the inventory item kept for its SKU. *)
Lemma computeMetrics_entry (variants : list variant)
    (inventoryByItem : gmap jsstring (list level)) (orders : list order)
    (startDate endDate : day) (k : jsstring) :
  computeMetrics variants inventoryByItem orders startDate endDate !! k
  = (fun item =>
       skuMetrics (invMapOf (default [] (inventoryByItem !! item)))
                  (indexSales (fst (indexVariants variants)) orders) k
                  (dates startDate endDate))
    <$> last (itemsFor k variants).
Proof.
  unfold computeMetrics.
  destruct (indexVariants_lookup variants) as [_ Hitems].
  destruct (indexVariants variants) as [skuByVariantId itemIdBySku].
  cbn [fst snd] in *. rewrite map_lookup_imap, Hitems.
  now destruct (last (itemsFor k variants)).
Qed.



(** X18: The units sold of a SKU are the quantities of the line items whose
    variant stands for the SKU, over the orders created on a day of the
    period; orders created outside the period do not count.  A variant id
    stands for the SKU of the last variant that entered with it. *)
Theorem computeMetrics_total_sold (variants : list variant)
    (inventoryByItem : gmap jsstring (list level)) (orders : list order)
    (startDate endDate : day) (k : jsstring) (m : Metrics.t) :
  computeMetrics variants inventoryByItem orders startDate endDate !! k
  = Some m ->
  total_sold m
  = sumZ ((fun d => sumZ (soldQuantities (fst (indexVariants variants))
                                         d k orders))
          <$> seqZ startDate (endDate - startDate + 1))
  /\ forall vid, fst (indexVariants variants) !! vid
                 = last (skusFor vid variants).
Proof.
  rewrite computeMetrics_entry.
  destruct (last (itemsFor k variants)) as [item|]; [|discriminate].
  cbn. intros [= <-]. split; [|apply indexVariants_lookup].
  rewrite skuMetrics_closed_aux. cbn [total_sold].
  unfold dates, daysFuel. cbn [toDate]. rewrite daysLoop_date by lia.
  f_equal. apply list_fmap_ext. intros i d _. apply indexSales_sum.
Qed.

Lemma invMapOf_notin (levels : list level) (d : day) :
  d ∉ date <$> levels -> invMapOf levels !! d = None.
Proof.
  unfold invMapOf. intros Hd.
  assert (H : forall m : gmap day (option Z),
             foldl (fun invMap e => <[date e := available e]> invMap) m levels
               !! d = m !! d).
  { induction levels as [|e levels IH]; intros m; [reflexivity|].
    cbn [foldl]. rewrite IH.
    - apply lookup_insert_ne. intros He. apply Hd. rewrite <- He. left.
    - intros Hin. apply Hd. now right. }
  now rewrite H, lookup_empty.
Qed.

(** X19: The days in stock of a SKU are read from the levels of one inventory
    item, the one of the last variant that entered under the SKU: a date of
    the period counts as in stock when the level read for it is positive
    and as a stockout day otherwise, in particular when the item has no
    level for the date.  The units sold while in stock are those of the
    dates in stock. *)
Theorem computeMetrics_days_in_stock (variants : list variant)
    (inventoryByItem : gmap jsstring (list level)) (orders : list order)
    (startDate endDate : day) (k item : jsstring) (m : Metrics.t) :
  computeMetrics variants inventoryByItem orders startDate endDate !! k
  = Some m ->
  last (itemsFor k variants) = Some item ->
  let levels := default [] (inventoryByItem !! item) in
  let inStock d := (0 <? qtyAvail (invMapOf levels) d)%Z in
  let period := seqZ startDate (endDate - startDate + 1) in
  days_in_stock m
  = Z.of_nat (length (filter (fun d => inStock d = true) period))
  /\ stockout_days m
     = Z.of_nat (length (filter (fun d => inStock d = false) period))
  /\ sold_while_in_stock m
     = sumZ ((fun d => sumZ (soldQuantities (fst (indexVariants variants))
                                            d k orders))
             <$> filter (fun d => inStock d = true) period)
  /\ forall d, d ∉ date <$> levels -> inStock d = false.
Proof.
  rewrite computeMetrics_entry. intros Hm Hitem levels inStock period.
  rewrite Hitem in Hm. cbn in Hm. injection Hm as <-.
  rewrite skuMetrics_closed_aux.
  cbn [days_in_stock stockout_days sold_while_in_stock].
  assert (Hd : dates startDate endDate = period).
  { unfold dates, daysFuel. cbn [toDate]. now rewrite daysLoop_date by lia. }
  rewrite Hd. fold levels. split; [reflexivity|]. split; [reflexivity|].
  split.
  - f_equal. apply list_fmap_ext. intros i d _. apply indexSales_sum.
  - intros d Hnot. unfold inStock, qtyAvail.
    now rewrite (invMapOf_notin levels d Hnot).
Qed.

Lemma collectInventory_lookup (fetchHistory : jsstring -> option (list level))
    (variants : list variant) (item : jsstring) (l : list level) :
  collectInventory fetchHistory variants !! item = Some l ->
  l = default [] (fetchHistory item).
Proof.
  unfold collectInventory. revert item l.
  change (map_Forall (fun item l => l = default [] (fetchHistory item))
            (foldl (fun (inventoryByItem : gmap jsstring (list level)) item =>
                      <[item := default [] (fetchHistory item)]>
                        inventoryByItem) ∅ (itemIds variants))).
  apply foldl_invariant; [apply map_Forall_empty|].
  intros m item _ Hm. now apply map_Forall_insert_2.
Qed.

(** X20: A SKU whose inventory item has no history, because the request for it
    threw or returned nothing, is reported with no day in stock: every day
    of the period is a stockout day and nothing is sold while in stock. *)
Theorem report_without_history
    (fetchHistory : jsstring -> option (list level))
    (variants : list variant) (orders : list order) (startDate endDate : day)
    (k item : jsstring) (m : Metrics.t) :
  report fetchHistory variants orders startDate endDate !! k = Some m ->
  last (itemsFor k variants) = Some item ->
  default [] (fetchHistory item) = [] ->
  days_in_stock m = 0%Z
  /\ stockout_days m = windowLength startDate endDate
  /\ sold_while_in_stock m = 0%Z.
Proof.
  unfold report. rewrite computeMetrics_entry. intros Hm Hitem Hnone.
  rewrite Hitem in Hm. cbn in Hm. injection Hm as <-.
  assert (Hinv : default [] (collectInventory fetchHistory variants !! item)
                 = []).
  { destruct (collectInventory fetchHistory variants !! item) as [l|] eqn:E;
      [|reflexivity].
    cbn. now rewrite (collectInventory_lookup _ _ _ _ E). }
  rewrite Hinv, skuMetrics_closed_aux.
  cbn [days_in_stock stockout_days sold_while_in_stock].
  assert (Hq : forall d, (0 <? qtyAvail (invMapOf []) d)%Z = false).
  { intros d. unfold qtyAvail, invMapOf. cbn. now rewrite lookup_empty. }
  rewrite (filter_none (fun d => (0 <? qtyAvail (invMapOf []) d)%Z = true))
    by (intros d _; rewrite Hq; discriminate).
  rewrite (filter_all (fun d => (0 <? qtyAvail (invMapOf []) d)%Z = false))
    by (intros d _; apply Hq).
  repeat split. apply dates_length.
Qed.

End InventoryMore.

(** ** GraphQL report: the history of an item *)

Section HistoryFacts.
Import JsString Days JsObject InventoryReport InventoryHistory.

Lemma keys_set_NoDup {V : Type} (o : JsObject.t V) (k : day) (v : V) :
  NoDup (keys o) -> NoDup (keys (set k v o)).
Proof.
  intros Hnd. destruct (decide (k ∈ keys o)) as [Hin | Hnin].
  - now rewrite keys_set_in.
  - rewrite keys_set_notin by exact Hnin.
    apply NoDup_app. split; [exact Hnd|]. split.
    + intros x Hx ->%list_elem_of_singleton. contradiction.
    + apply NoDup_singleton.
Qed.

(** The loop that fills [byDate]: the last value seen for a date wins. *)
Lemma byDate_last (hist : list historyNode) (o : JsObject.t (option Z))
    (d : day) :
  get d (foldl (fun byDate node =>
                  set (occurredAt node) (availableAfterAdjustment node) byDate)
               o hist)
  = match last (availableAfterAdjustment
                  <$> filter (fun n => occurredAt n = d) hist) with
    | Some a => Some a
    | None => get d o
    end.
Proof.
  induction hist as [|n hist IH] using rev_ind; [reflexivity|].
  rewrite foldl_app, filter_app, fmap_app. cbn [foldl].
  destruct (decide (occurredAt n = d)) as [<- | Hne].
  - rewrite filter_cons_True by reflexivity. cbn.
    now rewrite last_snoc, get_set_eq.
  - rewrite filter_cons_False by exact Hne. cbn.
    rewrite app_nil_r, get_set_ne by congruence. exact IH.
Qed.

Lemma byDate_NoDup (hist : list historyNode) (o : JsObject.t (option Z)) :
  NoDup (keys o) ->
  NoDup (keys (foldl (fun byDate node =>
                        set (occurredAt node) (availableAfterAdjustment node)
                            byDate) o hist)).
Proof.
  revert o. induction hist as [|n hist IH]; intros o Hnd; [exact Hnd|].
  cbn [foldl]. apply IH. now apply keys_set_NoDup.
Qed.

(** The map [invMap] rebuilt from the entries of an object with distinct
    keys reads as the object. *)
Lemma invMapOf_entries (o : JsObject.t (option Z)) (m : gmap day (option Z))
    (d : day) :
  NoDup (keys o) ->
  foldl (fun invMap e => <[date e := available e]> invMap) m
        (map (fun '(d, a) => {| date := d; available := a |}) o) !! d
  = match get d o with
    | Some a => Some a
    | None => m !! d
    end.
Proof.
  revert m. induction o as [|[k a] o IH]; intros m Hnd; [reflexivity|].
  cbn [map foldl date available get].
  change (keys ((k, a) :: o)) with (k :: keys o) in Hnd.
  apply NoDup_cons in Hnd as [Hk Hnd]. rewrite IH by exact Hnd.
  destruct (Z.eqb_spec d k) as [-> | Hne].
  - apply get_None_notin in Hk. rewrite Hk. apply lookup_insert_eq.
  - now rewrite lookup_insert_ne by congruence.
Qed.

(** X21: The quantity [computeMetrics] reads for a date is the one of the last
    history entry of that date, and the list of levels has one entry per
    date. *)
Theorem fetchInventoryDailyForItem_last_wins
    (hist : option (list historyNode)) (d : day) :
  invMapOf (fetchInventoryDailyForItem hist) !! d
  = last (availableAfterAdjustment
            <$> filter (fun n => occurredAt n = d) (default [] hist))
  /\ qtyAvail (invMapOf (fetchInventoryDailyForItem hist)) d
     = default 0%Z
         (mjoin (last (availableAfterAdjustment
                         <$> filter (fun n => occurredAt n = d)
                                    (default [] hist))))
  /\ NoDup (date <$> fetchInventoryDailyForItem hist).
Proof.
  assert (Hnd : NoDup (keys (foldl
                 (fun byDate node =>
                    set (occurredAt node) (availableAfterAdjustment node) byDate)
                 ([] : JsObject.t (option Z)) (default [] hist))))
    by (apply byDate_NoDup; constructor).
  assert (H1 : invMapOf (fetchInventoryDailyForItem hist) !! d
               = last (availableAfterAdjustment
                         <$> filter (fun n => occurredAt n = d)
                                    (default [] hist))).
  { unfold invMapOf, fetchInventoryDailyForItem.
    rewrite invMapOf_entries by exact Hnd.
    rewrite byDate_last, lookup_empty. cbn. now destruct (last _). }
  split; [exact H1|]. split.
  - unfold qtyAvail. now rewrite H1.
  - unfold fetchInventoryDailyForItem.
    set (o := foldl _ _ _) in *. clearbody o. clear H1.
    unfold keys in Hnd. revert Hnd. clear.
    induction o as [|[k a] o IH]; cbn; [trivial|].
    intros [Hk Hnd]%NoDup_cons. apply NoDup_cons. split; [|now apply IH].
    cbn in Hk.
    intros Hin. apply Hk. apply list_elem_of_fmap in Hin as (e & -> & He).
    apply list_elem_of_fmap in He as ([k' a'] & -> & He).
    apply list_elem_of_fmap. exists (k', a'). split; [reflexivity | exact He].
Qed.

End HistoryFacts.

(** ** The "universal" REST report *)

Section UniversalFacts.
Import JsString Days Sums Metrics Fetch UniversalReport.

(** X22: Pages as the platform sends them, read the way this loop reads them:
    a page carries a link exactly when it names a next page.  On such
    pages the loop never returns: it throws at the page without a link, or
    it is still running when the allowance of requests is used up. *)
Theorem universal_fetch_never_returns (server : Simple.upstream)
    (fuel : nat) :
  (forall c json link,
     server c = Some json -> Simple.link json = Some link ->
     JsString.truthy link = true -> is_Some (Simple.nextCursor json)) ->
  forall r, fetchAllVariants fuel server <> Returned r.
Proof.
  intros Hpages. unfold fetchAllVariants.
  generalize (@nil Simple.variant) as variants.
  generalize (@nil (option jsstring)) as log.
  generalize (@None jsstring) as c.
  induction fuel as [|fuel IH]; intros c log variants r; [discriminate|].
  cbn [fetchLoop]. destruct (server c) as [json|] eqn:Hs; [|discriminate].
  destruct (Simple.link json) as [link|] eqn:Hl; [|discriminate].
  destruct (JsString.truthy link) eqn:Ht; [|discriminate].
  destruct (Hpages c json link Hs Hl Ht) as [c' Hc].
  unfold Simple.nextCursor in Hc. rewrite Hl in Hc.
  change (default [] (Some link)) with link in Hc. cbv zeta in Hc.
  destruct (negb (Simple.includes Simple.relNext link)); [discriminate Hc|].
  rewrite Hc. apply IH.
Qed.

(** When the first page carries no link, as a catalogue of a single page
    does, the fetch throws. *)
Lemma universal_fetch_single_page (server : Simple.upstream)
    (json : Simple.response) (fuel : nat) :
  server None = Some json -> Simple.link json = None ->
  fetchAllVariants (S fuel) server = Thrown.
Proof. intros Hs Hl. cbn. now rewrite Hs, Hl. Qed.

Lemma universal_fetch_never_returns_witness :
  fetchAllVariants 2 Examples.restServer = Thrown
  /\ forall r, fetchAllVariants 2 Examples.restServer <> Returned r.
Proof.
  split; [vm_compute; reflexivity|].
  apply universal_fetch_never_returns.
  intros [c|] json link.
  - unfold Examples.restServer. case_bool_decide; [|discriminate].
    intros [= <-]. cbn. discriminate.
  - cbn. intros [= <-]. cbn. intros [= <-] _. now exists (str "abc").
Defined.

Lemma variantMetrics_no_stock (invDaily : gmap day Z)
    (ordersByDateSku : gmap (day * jsstring) Z) (s : jsstring)
    (days : list day) :
  (forall d v, invDaily !! d = Some v -> v = 0%Z) ->
  let m := variantMetrics invDaily ordersByDateSku s days in
  days_in_stock m = 0%Z
  /\ stockout_days m = Z.of_nat (length days)
  /\ sold_while_in_stock m = 0%Z.
Proof.
  intros Hz m. subst m. unfold variantMetrics.
  rewrite (tally_closed
             (fun d => (0 <? default 0 (invDaily !! d))%Z)
             (fun d => default 0%Z (ordersByDateSku !! (d, s)))).
  assert (Hq : forall d, (0 <? default 0 (invDaily !! d))%Z = false).
  { intros d. destruct (invDaily !! d) as [v|] eqn:E; [|reflexivity].
    now rewrite (Hz d v E). }
  rewrite (filter_none (fun d => (0 <? default 0 (invDaily !! d))%Z = true))
    by (intros d _; rewrite Hq; discriminate).
  rewrite (filter_all (fun d => (0 <? default 0 (invDaily !! d))%Z = false))
    by (intros d _; apply Hq).
  cbn. repeat split; lia.
Qed.

(** X23: In the report of this variant no SKU has a day in stock, whatever the
    adjustments of its item: the series of every item is zero throughout,
    so every day of the window is a stockout day and nothing is sold while
    in stock. *)
Theorem universal_report_never_in_stock
    (adjustmentsOf : N -> list Universal.adjustment)
    (variants : list Simple.variant) (orders : list Simple.sale)
    (startDay endDay : day) (k : jsstring) (it : item) :
  report adjustmentsOf variants orders startDay endDay !! k = Some it ->
  days_in_stock (metrics it) = 0%Z
  /\ stockout_days (metrics it) = windowLength startDay endDay
  /\ sold_while_in_stock (metrics it) = 0%Z
  /\ forall d v, daily it !! d = Some v -> v = 0%Z.
Proof.
  unfold report, calculateMetrics.
  set (levels := collectLevels adjustmentsOf variants startDay endDay).
  assert (Hlevels : forall i, forall d v,
            default ∅ (levels !! i) !! d = Some v -> v = 0%Z).
  { assert (H : map_Forall (fun _ (daily : gmap day Z) =>
                              forall d v, daily !! d = Some v -> v = 0%Z)
                           levels).
    { unfold levels, collectLevels.
      apply foldl_invariant; [apply map_Forall_empty|].
      intros m v _ Hm. apply map_Forall_insert_2; [|exact Hm].
      intros d x. rewrite universal_reconstructDailyLevels.
      case_decide; now intros [=]. }
    intros i d v. destruct (levels !! i) as [daily|] eqn:E; cbn.
    - exact (H i daily E d v).
    - now rewrite lookup_empty. }
  revert k it.
  change (map_Forall
            (fun _ it =>
               days_in_stock (metrics it) = 0%Z
               /\ stockout_days (metrics it) = windowLength startDay endDay
               /\ sold_while_in_stock (metrics it) = 0%Z
               /\ forall d v, daily it !! d = Some v -> v = 0%Z)
            (foldl (fun (output : gmap jsstring item) v =>
                      let invDaily :=
                        default ∅ (levels !! Simple.inventoryItemId v) in
                      <[Simple.sku v :=
                          {| metrics :=
                               variantMetrics invDaily (indexOrders orders)
                                 (Simple.sku v)
                                 (enumerateDays (DateObj startDay)
                                                (DateObj endDay));
                             daily := invDaily |}]> output) ∅ variants)).
  apply foldl_invariant; [apply map_Forall_empty|].
  intros m v _ Hm. apply map_Forall_insert_2; [|exact Hm].
  cbn [metrics daily].
  destruct (variantMetrics_no_stock
              (default ∅ (levels !! Simple.inventoryItemId v))
              (indexOrders orders) (Simple.sku v)
              (enumerateDays (DateObj startDay) (DateObj endDay))
              (Hlevels (Simple.inventoryItemId v))) as (H1 & H2 & H3).
  rewrite H1, H2, H3, enumerateDays_length. repeat split.
  apply Hlevels.
Qed.

End UniversalFacts.

(** ** The "simple" REST report: the sales map of a variant *)

Section SimpleMore.
Import JsString Days Sums Simple SimpleView.

Lemma salesMapFor_fold (v : variant) (orders : list sale)
    (m : gmap day Z) (d : day) :
  soldOn (foldl (fun salesMap o =>
                   if bool_decide (sale_sku o = sku v)
                   then <[sale_date o :=
                            (soldOn salesMap (sale_date o) + qty o)%Z]> salesMap
                   else salesMap) m orders) d
  = (soldOn m d + sumZ (quantitiesOn v d orders))%Z.
Proof.
  revert m. induction orders as [|o orders IH]; intros m.
  - cbn. lia.
  - cbn [foldl]. rewrite IH. unfold quantitiesOn. cbn [omap list_omap].
    change (list_omap ?f ?l) with (omap f l).
    case_bool_decide as Hs.
    + destruct (decide (sale_date o = d)) as [Hd | Hd].
      * rewrite decide_True by (split; assumption).
        subst d. unfold soldOn at 1. rewrite lookup_insert_eq.
        unfold sumZ. cbn. lia.
      * rewrite decide_False by (intros [_ ?]; contradiction).
        unfold soldOn at 1. rewrite lookup_insert_ne by exact Hd.
        unfold soldOn. lia.
    + rewrite decide_False by (intros [? _]; contradiction). lia.
Qed.

(** X24: The sales map the handler builds for a variant holds, for every day,
    the sum of the quantities of the sales of exactly that SKU text on
    that day. *)
Theorem salesMapFor_sum (v : variant) (orders : list sale) (d : day) :
  soldOn (salesMapFor v orders) d = sumZ (quantitiesOn v d orders).
Proof.
  unfold salesMapFor. rewrite salesMapFor_fold.
  unfold soldOn. rewrite lookup_empty. cbn. lia.
Qed.

End SimpleMore.

(** ** The sell-through report: sales, sheet and merge together *)

Section SellThroughFacts.
Import JsString JsNumber Fetch Proto Merge SalesFetch.




(** The quotient of [NaN] by a number. *)
Lemma quotient_NaN (y : number) : Spec.quotient NaN y = NaN.
Proof.
  unfold Spec.quotient, div. destruct y as [| |b]; try reflexivity.
  now destruct (Qeq_bool b 0).
Qed.

(** The total an inherited member has is no number. *)
Lemma memberTotal_NaN (g : realm) (k : jsstring) :
  toNumber (memberTotal g k) = NaN.
Proof. unfold memberTotal. now case_bool_decide. Qed.


(** Zero divided by a positive number. *)
Lemma quotient_zero (y : number) :
  gt0 y = true -> Spec.quotient zero y = zero.
Proof.
  intros [-> | (q & -> & Hq & Hz)]%gt0_inv; [reflexivity|].
  unfold Spec.quotient, div, zero. rewrite Hz. cbn [default].
  assert (H0 : (0 / q == 0)%Q) by (unfold Qdiv; ring).
  destruct (fromQ_cases (0 / q)) as [[_ Ho] | [[-> _] | [_ [Hu _]]]].
  - exfalso. rewrite H0 in Ho. change (Qabs 0) with 0%Q in Ho.
    pose proof overflowAt_above_one. lra.
  - reflexivity.
  - exfalso. rewrite H0 in Hu. change (Qabs 0) with 0%Q in Hu.
    pose proof underflowAt_positive. lra.
Qed.

(** X26: A SKU of the sheet that is the name of a member of
    [Object.prototype], and for which the sales have no entry, is merged
    with that member in place of the default entry with a total of zero:
    the sold total of its record is the one the member has, [undefined] or
    [NaN], and with days in stock above zero its velocity is [NaN] where
    the default gives zero. *)
Theorem merge_inherited_member (g : realm)
    (salesStats : gmap jsstring SalesStat)
    (sheetStats : gmap jsstring Sheet.SheetStat) (k : jsstring)
    (r : Sheet.SheetStat) :
  inherited k = true -> k <> str "__proto__" ->
  salesStats !! k = None -> sheetStats !! k = Some r ->
  gt0 (Sheet.days_in_stock_24m r) = true ->
  exists it,
    mergeSalesAndSheet g salesStats sheetStats ≫= (.!! k) = Some it
    /\ m_total_sold_24m it = memberTotal g k
    /\ m_total_sold_24m it <> Defined zero
    /\ velocity_in_stock_24m it = Some NaN
    /\ Spec.velocityInStock zero (Sheet.days_in_stock_24m r) = Some zero.
Proof.
  intros Hin Hp Hsales Hsheet Hpos.
  destruct (mergeSalesAndSheet_lookup g salesStats sheetStats)
    as (items & -> & Hlook).
  cbn [mbind option_bind]. rewrite Hlook.
  rewrite bool_decide_eq_true_2
    by (split; [apply elem_of_union; right; apply elem_of_dom; eauto
               | exact Hp]).
  pose proof (mergeEntry_eq g k salesStats sheetStats) as He.
  cbv zeta in He. rewrite He. clear He. eexists. split; [reflexivity|].
  cbn [m_total_sold_24m velocity_in_stock_24m].
  destruct (sheetOrDefault_cases k (salesOrDefault k salesStats) sheetStats)
    as [Hdin _].
  rewrite salesOrDefault_cases, Hdin, Hsales, Hsheet, Hin. cbn [toNumber].
  split; [reflexivity|]. split.
  - unfold memberTotal. case_bool_decide; discriminate.
  - unfold Spec.velocityInStock.
    rewrite Hpos, memberTotal_NaN, quotient_NaN. now rewrite quotient_zero.
Qed.

End SellThroughFacts.

(** ** The further properties on concrete inputs *)

Section MoreWitnesses.
Import JsString JsNumber Days Sums Metrics.

Lemma fetchSheetBySku_keys_witness :
  exists r,
    Sheet.fetchSheetBySku Examples.sheetText = inr MoreExamples.sheetMap
    /\ MoreExamples.sheetMap !! str "HAT-1" = Some r
    /\ str "HAT-1" <> []
    /\ trim (str "HAT-1") = str "HAT-1"
    /\ Sheet.sku_norm r = str "HAT-1"
    /\ Sheet.sku_raw r <> []
    /\ Sku.normaliseSku (Some (Sheet.sku_raw r)) = Some (str "HAT-1").
Proof.
  eexists. split; [vm_compute; reflexivity|].
  split; [vm_compute; reflexivity|].
  apply (fetchSheetBySku_keys Examples.sheetText MoreExamples.sheetMap);
    vm_compute; reflexivity.
Defined.

Lemma fetchSheetBySku_percent_fields_witness :
  exists r,
    Sheet.fetchSheetBySku Examples.sheetText = inr MoreExamples.sheetMap
    /\ MoreExamples.sheetMap !! str "HAT-2" = Some r
    /\ Sheet.sell_through_rate_csv r = Some (Num (91 # 2))
    /\ (forall x, Sheet.sell_through_rate_csv r = Some x -> truthy x = true)
    /\ (forall x, Sheet.percent_inventory_sold_csv r = Some x ->
                  truthy x = true).
Proof.
  eexists. split; [vm_compute; reflexivity|].
  split; [vm_compute; reflexivity|]. split; [reflexivity|].
  apply (fetchSheetBySku_percent_fields Examples.sheetText
           MoreExamples.sheetMap (str "HAT-2"));
    vm_compute; reflexivity.
Defined.



Lemma salesServer_chain :
  SalesFetch.chain MoreExamples.salesServer None
    [MoreExamples.salesPage1; MoreExamples.salesPage2].
Proof.
  apply (SalesFetch.chain_more _ None _ (str "o2"));
    [reflexivity | reflexivity |].
  apply SalesFetch.chain_last; reflexivity.
Defined.

Lemma fetchSalesBySku_totals_witness :
  exists st log,
    SalesFetch.fetchSalesBySku 2 MoreExamples.salesServer 50 ∅
    = Fetch.Returned (st, log)
    /\ length log = 2%nat
    /\ forall k,
         match SalesFetch.stats st !! k with
         | Some s =>
             Merge.sku s = k /\ k <> [] /\ trim k = k
             /\ Proto.inherited k = false
             /\ SalesFetch.quantitiesFor k
                  (SalesFetch.countedItems 50
                     [MoreExamples.salesPage1; MoreExamples.salesPage2]) <> []
             /\ (SalesFetch.exactSum
                   (SalesFetch.quantitiesFor k
                      (SalesFetch.countedItems 50
                         [MoreExamples.salesPage1; MoreExamples.salesPage2])) ->
                 exists q,
                   Merge.total_sold_24m s = Num q
                   /\ (q == inject_Z
                             (sumZ (SalesFetch.quantitiesFor k
                                      (SalesFetch.countedItems 50
                                         [MoreExamples.salesPage1;
                                          MoreExamples.salesPage2]))))%Q)
         | None =>
             SalesFetch.quantitiesFor k
               (SalesFetch.countedItems 50
                  [MoreExamples.salesPage1; MoreExamples.salesPage2]) = []
             \/ (Proto.inherited k = true /\ k ∈ SalesFetch.touched st)
         end
         /\ (k ∈ SalesFetch.touched st
             <-> k ∈ (∅ : Proto.realm)
                 \/ (Proto.inherited k = true
                     /\ SalesFetch.quantitiesFor k
                          (SalesFetch.countedItems 50
                             [MoreExamples.salesPage1;
                              MoreExamples.salesPage2]) <> [])).
Proof.
  exact (fetchSalesBySku_totals MoreExamples.salesServer 50
           [MoreExamples.salesPage1; MoreExamples.salesPage2] 2 ∅
           salesServer_chain (le_n 2)).
Defined.

(** On the two example pages the three spellings of [HAT-1] are counted
    under one key: 2 and 3 units, the 4 units of the order older than the
    cutoff and the item without SKU left out. *)
Lemma fetchSalesBySku_example :
  sumZ (SalesFetch.quantitiesFor (str "HAT-1")
          (SalesFetch.countedItems 50
             [MoreExamples.salesPage1; MoreExamples.salesPage2]))
  = 5%Z.
Proof. vm_compute. reflexivity. Qed.

Lemma threeDaySales_nonneg :
  forall j v, Examples.threeDaySales !! j = Some v -> (0 <= v)%Z.
Proof.
  intros j v. unfold Examples.threeDaySales.
  rewrite !lookup_insert_Some, lookup_singleton_Some. lia.
Defined.

Lemma in_stock_today_in_stock_throughout_witness :
  let m := Simple.calculateMetrics
             (Simple.reconstructDailyInventory (DateObj 1%Z) (DateObj 3%Z)
                                               10%Z Examples.threeDaySales)
             Examples.threeDaySales in
  days_in_stock m = 3%Z /\ stockout_days m = 0%Z
  /\ sold_while_in_stock m = total_sold m.
Proof.
  exact (in_stock_today_in_stock_throughout 1%Z 3%Z 10%Z
           Examples.threeDaySales eq_refl threeDaySales_nonneg).
Defined.

Lemma computeMetrics_total_sold_witness :
  InventoryReport.computeMetrics [Examples.variantA] Examples.levelsA
                                 [Examples.orderA] 1%Z 2%Z !! str "A"
  = Some Examples.metricsA
  /\ total_sold Examples.metricsA
     = sumZ ((fun d => sumZ (InventoryView.soldQuantities
                               (fst (InventoryReport.indexVariants
                                       [Examples.variantA]))
                               d (str "A") [Examples.orderA]))
             <$> seqZ 1%Z (2 - 1 + 1)).
Proof.
  assert (H : InventoryReport.computeMetrics [Examples.variantA]
                Examples.levelsA [Examples.orderA] 1%Z 2%Z !! str "A"
              = Some Examples.metricsA) by (vm_compute; reflexivity).
  split; [exact H|].
  exact (proj1 (computeMetrics_total_sold [Examples.variantA] Examples.levelsA
                  [Examples.orderA] 1%Z 2%Z (str "A") Examples.metricsA H)).
Defined.

Lemma report_without_history_witness :
  exists m,
    InventoryHistory.report MoreExamples.noHistory [Examples.variantA]
                            [Examples.orderA] 1%Z 2%Z !! str "A" = Some m
    /\ days_in_stock m = 0%Z
    /\ stockout_days m = windowLength 1%Z 2%Z
    /\ sold_while_in_stock m = 0%Z
    /\ total_sold m = 2%Z.
Proof.
  eexists. split; [vm_compute; reflexivity|].
  pose proof (report_without_history MoreExamples.noHistory
                [Examples.variantA] [Examples.orderA] 1%Z 2%Z (str "A")
                (str "i1") _ ltac:(vm_compute; reflexivity)
                ltac:(vm_compute; reflexivity) eq_refl) as (H1 & H2 & H3).
  split; [exact H1|]. split; [exact H2|]. split; [exact H3|].
  vm_compute. reflexivity.
Defined.

Lemma universal_report_never_in_stock_witness :
  exists it,
    UniversalReport.report MoreExamples.plusFive [MoreExamples.simpleVariant]
                           [] 1%Z 2%Z !! str "HAT-1" = Some it
    /\ days_in_stock (UniversalReport.metrics it) = 0%Z
    /\ stockout_days (UniversalReport.metrics it) = windowLength 1%Z 2%Z
    /\ sold_while_in_stock (UniversalReport.metrics it) = 0%Z
    /\ forall d v, UniversalReport.daily it !! d = Some v -> v = 0%Z.
Proof.
  eexists. split; [vm_compute; reflexivity|].
  apply (universal_report_never_in_stock MoreExamples.plusFive
           [MoreExamples.simpleVariant] [] 1%Z 2%Z (str "HAT-1")).
  vm_compute. reflexivity.
Defined.

Lemma computeMetrics_days_in_stock_witness :
  exists m,
    InventoryReport.computeMetrics [Examples.variantA] Examples.levelsA
                                   [Examples.orderA] 1%Z 2%Z !! str "A"
    = Some m
    /\ days_in_stock m = 1%Z /\ stockout_days m = 1%Z
    /\ sold_while_in_stock m = 2%Z.
Proof.
  eexists. split; [vm_compute; reflexivity|].
  pose proof (computeMetrics_days_in_stock [Examples.variantA]
                Examples.levelsA [Examples.orderA] 1%Z 2%Z (str "A")
                (str "i1") _ ltac:(vm_compute; reflexivity)
                ltac:(vm_compute; reflexivity)) as (H1 & H2 & H3 & _).
  split; [rewrite H1; vm_compute; reflexivity|].
  split; [rewrite H2; vm_compute; reflexivity|].
  rewrite H3. vm_compute. reflexivity.
Defined.




Lemma merge_inherited_member_witness :
  Sheet.fetchSheetBySku MoreExamples.memberText = inr MoreExamples.memberSheet
  /\ exists it,
       Merge.mergeSalesAndSheet ∅ ∅ MoreExamples.memberSheet
         ≫= (.!! str "constructor") = Some it
       /\ Merge.m_total_sold_24m it
          = Proto.memberTotal ∅ (str "constructor")
       /\ Merge.m_total_sold_24m it <> Proto.Defined JsNumber.zero
       /\ Merge.velocity_in_stock_24m it = Some NaN
       /\ Spec.velocityInStock JsNumber.zero (Num 2) = Some JsNumber.zero.
Proof.
  split; [vm_compute; reflexivity|].
  exact (merge_inherited_member ∅ ∅ MoreExamples.memberSheet
           (str "constructor")
           {| Sheet.sku_norm := str "constructor";
              Sheet.sku_raw := str "constructor";
              Sheet.product_title := [];
              Sheet.variant_title := [];
              Sheet.abc_grade := [];
              Sheet.days_in_stock_24m := Num 2;
              Sheet.days_out_of_stock_24m := JsNumber.zero;
              Sheet.inventory_units_sold_csv := None;
              Sheet.sell_through_rate_csv := None;
              Sheet.percent_inventory_sold_csv := None |}
           ltac:(vm_compute; reflexivity) ltac:(discriminate)
           ltac:(apply lookup_empty)
           ltac:(vm_compute; reflexivity) eq_refl).
Defined.

End MoreWitnesses.
